(** * SIMPA optical forward model: a shallow embedding of the MCX adapter,
      the pencil-beam illuminator, the optical post-processing and the data
      sanity checks, with the properties of their specification.

    Numbers.  NumPy float64 values and Python floats are modelled by their
    exact values: a rational, or one of the IEEE special values +inf, -inf
    and NaN.  The special values follow IEEE 754 (what NumPy computes); the
    sign of zero is not modelled.  The rounding of binary64 (to nearest,
    ties to even, with its subnormals and its overflow) is [F64.binary64];
    it is applied where a result depends on the rounded value, in the frame
    count of the adapter and in the order of the pencil-beam positions.
    The other formulas are stated on the exact values.  Python's own float
    division raises ZeroDivisionError where NumPy's returns inf or NaN;
    both are modelled. *)

From Stdlib Require Import QArith Qcanon Lqa Qround Qpower.
From stdpp Require Import gmap strings list numbers.

Open Scope Z_scope.

(** ** Python exceptions and results *)

Inductive exn :=
| AssertionError (msg : string)
| KeyError (key : string)
| AttributeError (msg : string)
| TypeError (msg : string)
| ValueError (msg : string)
| IndexError (msg : string)
| ZeroDivisionError
| OverflowError.

Inductive result (A : Type) :=
| Ok (a : A)
| Raise (e : exn).
Arguments Ok {A} a.
Arguments Raise {A} e.

#[global] Instance exn_eq_dec : EqDecision exn.
Proof. solve_decision. Defined.

#[global] Instance result_eq_dec {A} `{EqDecision A} : EqDecision (result A).
Proof. solve_decision. Defined.

Definition rbind {A B} (r : result A) (k : A -> result B) : result B :=
  match r with
  | Ok a => k a
  | Raise e => Raise e
  end.

Declare Scope py_scope.
Delimit Scope py_scope with py.
Notation "x <- c ;; k" := (rbind c (fun x => k))
  (at level 100, c at next level, right associativity) : py_scope.

(** ** Scalars *)

Inductive f64 :=
| Fin (q : Qc)
| PInf
| NInf
| NaN.

#[global] Instance f64_eq_dec : EqDecision f64.
Proof. solve_decision. Defined.

Module F64.

Definition of_Z (z : Z) : f64 := Fin (Q2Qc (inject_Z z)).
Definition of_Q (q : Q) : f64 := Fin (Q2Qc q).

Definition zero : f64 := of_Z 0.
Definition one : f64 := of_Z 1.

(** The infinity whose sign is that of [c] (the comparison of a finite
    value with zero); a zero factor gives NaN. *)
Definition signed_inf (c : comparison) : f64 :=
  match c with
  | Gt => PInf
  | Lt => NInf
  | Eq => NaN
  end.

Definition neg (x : f64) : f64 :=
  match x with
  | Fin q => Fin (- q)%Qc
  | PInf => NInf
  | NInf => PInf
  | NaN => NaN
  end.

Definition abs (x : f64) : f64 :=
  match x with
  | Fin q => Fin (if decide (q < 0)%Qc then - q else q)%Qc
  | PInf | NInf => PInf
  | NaN => NaN
  end.

Definition add (x y : f64) : f64 :=
  match x, y with
  | NaN, _ | _, NaN => NaN
  | Fin a, Fin b => Fin (a + b)%Qc
  | PInf, NInf | NInf, PInf => NaN
  | PInf, _ | _, PInf => PInf
  | NInf, _ | _, NInf => NInf
  end.

Definition sub (x y : f64) : f64 := add x (neg y).

Definition mul (x y : f64) : f64 :=
  match x, y with
  | NaN, _ | _, NaN => NaN
  | Fin a, Fin b => Fin (a * b)%Qc
  | Fin a, PInf | PInf, Fin a => signed_inf (a ?= 0)%Qc
  | Fin a, NInf | NInf, Fin a => signed_inf (0 ?= a)%Qc
  | PInf, PInf | NInf, NInf => PInf
  | PInf, NInf | NInf, PInf => NInf
  end.

(** IEEE division, as NumPy performs it: a zero divisor gives an infinity
    (NaN for 0/0) and no exception. *)
Definition div (x y : f64) : f64 :=
  match x, y with
  | NaN, _ | _, NaN => NaN
  | Fin a, Fin b =>
      if decide (b = 0)%Qc then signed_inf (a ?= 0)%Qc else Fin (a / b)%Qc
  | Fin _, (PInf | NInf) => zero
  | PInf, Fin b => if decide (b < 0)%Qc then NInf else PInf
  | NInf, Fin b => if decide (b < 0)%Qc then PInf else NInf
  | (PInf | NInf), (PInf | NInf) => NaN
  end.

Definition ltb (x y : f64) : bool :=
  match x, y with
  | NaN, _ | _, NaN => false
  | Fin a, Fin b => bool_decide (a < b)%Qc
  | NInf, (Fin _ | PInf) => true
  | Fin _, PInf => true
  | _, _ => false
  end.

Definition leb (x y : f64) : bool :=
  match x, y with
  | NaN, _ | _, NaN => false
  | Fin a, Fin b => bool_decide (a <= b)%Qc
  | NInf, _ => true
  | _, PInf => true
  | _, _ => false
  end.

(** torch.isfinite / math.isfinite *)
Definition isfinite (x : f64) : bool :=
  match x with
  | Fin _ => true
  | _ => false
  end.

Definition lt (x y : f64) : Prop := ltb x y = true.
Definition le (x y : f64) : Prop := leb x y = true.

(** *** Rounding to binary64 *)

(** The integer nearest to [q], the even one of two that are equally near *)
Definition rne (q : Q) : Z :=
  let f := Qfloor q in
  match (q - inject_Z f ?= 1 # 2)%Q with
  | Lt => f
  | Gt => f + 1
  | Eq => if Z.even f then f else f + 1
  end.

(** [floor (log2 q)] of a positive [q] *)
Definition magnitude (q : Q) : Z :=
  let c := Z.log2 (Qnum q) - Z.log2 (Z.pos (Qden q)) in
  if Qle_bool (2 ^ c) q then c else c - 1.

(** The binary64 numbers around a positive [q] are the multiples of 2^e:
    53 significant bits, and no exponent below that of the subnormals. *)
Definition ulp_exponent (q : Q) : Z := Z.max (-1074) (magnitude q - 52).

Definition round_positive (q : Q) : Q :=
  let e := ulp_exponent q in
  (inject_Z (rne (q / 2 ^ e)) * 2 ^ e)%Q.

(** Rounding to nearest, ties to even, before the overflow test *)
Definition round_Q (q : Q) : Q :=
  match (q ?= 0)%Q with
  | Gt => round_positive q
  | Lt => (- round_positive (- q))%Q
  | Eq => 0%Q
  end.

(** The binary64 number nearest to [q]; an infinity from 2^1024 on *)
Definition binary64 (q : Qc) : f64 :=
  let r := round_Q q in
  if Qle_bool (2 ^ 1024) r then PInf
  else if Qle_bool r (- 2 ^ 1024) then NInf
  else Fin (Q2Qc r).

(** The result of an operation, rounded; the special values are kept *)
Definition round (x : f64) : f64 :=
  match x with
  | Fin q => binary64 q
  | _ => x
  end.

(** [x + y] and [x / y] as binary64 computes them *)
Definition add64 (x y : f64) : f64 := round (add x y).
Definition div64 (x y : f64) : f64 := round (div x y).

End F64.

(** ** Python values held in a settings dictionary *)

Inductive pyval :=
| PyNone
| PyBool (b : bool)
| PyInt (z : Z)
| PyFloat (x : f64)
| PyStr (s : string).

#[global] Instance pyval_eq_dec : EqDecision pyval.
Proof. solve_decision. Defined.

Module Py.

(** [d[key]] on a dict *)
Definition getitem {V} (d : gmap string V) (key : string) : result V :=
  match d !! key with
  | Some v => Ok v
  | None => Raise (KeyError key)
  end.

(** [key in d] *)
Definition contains {V} (d : gmap string V) (key : string) : bool :=
  bool_decide (is_Some (d !! key)).

(** Truth value of a string constant: only the empty string is false. *)
Definition truthy (s : string) : bool :=
  negb (bool_decide (s = "")).

(** [x == y] on the values modelled *)
Definition eqb (x y : pyval) : bool :=
  match x, y with
  | PyNone, PyNone => true
  | PyStr a, PyStr b => bool_decide (a = b)
  | PyBool a, PyBool b => bool_decide (a = b)
  | PyInt a, PyInt b => bool_decide (a = b)
  | PyBool a, PyInt b | PyInt b, PyBool a =>
      bool_decide ((if a then 1 else 0) = b)
  | PyFloat (Fin a), PyFloat (Fin b) => bool_decide (a = b)
  | PyFloat PInf, PyFloat PInf | PyFloat NInf, PyFloat NInf => true
  | PyFloat (Fin a), PyInt b | PyInt b, PyFloat (Fin a) =>
      bool_decide (a = Q2Qc (inject_Z b))
  | PyFloat (Fin a), PyBool b | PyBool b, PyFloat (Fin a) =>
      bool_decide (a = Q2Qc (inject_Z (if b then 1 else 0)))
  | _, _ => false
  end.

(** [x is False] *)
Definition is_False (x : pyval) : bool :=
  match x with
  | PyBool false => true
  | _ => false
  end.

(** The number a value stands for in arithmetic; None and strings have
    none (TypeError). *)
Definition as_number (x : pyval) : result f64 :=
  match x with
  | PyBool b => Ok (F64.of_Z (if b then 1 else 0))
  | PyInt z => Ok (F64.of_Z z)
  | PyFloat f => Ok f
  | PyNone => Raise (TypeError "unsupported operand type(s): 'NoneType'")
  | PyStr _ => Raise (TypeError "unsupported operand type(s): 'str'")
  end.

(** [x / y] on Python numbers: true division, ZeroDivisionError on a zero
    divisor. *)
Definition truediv (x y : pyval) : result f64 :=
  (a <- as_number x ;;
   b <- as_number y ;;
   if decide (b = F64.zero) then Raise ZeroDivisionError
   else Ok (F64.div a b))%py.

(** [x / y] as the interpreter computes it: the quotient, rounded to
    binary64.  [truediv] is the exact quotient, on which the formulas of
    the initial pressure are stated. *)
Definition truediv_binary64 (x y : pyval) : result f64 :=
  (quotient <- truediv x y ;;
   Ok (F64.round quotient))%py.

(** [int(x)] on a float: truncation toward zero. *)
Definition int (x : f64) : result Z :=
  match x with
  | Fin q => Ok (Z.quot (Qnum q) (Z.pos (Qden q)))
  | PInf | NInf => Raise OverflowError
  | NaN => Raise (ValueError "cannot convert float NaN to integer")
  end.

End Py.

(** ** NumPy arrays: a shape and the elements in row-major order *)

Record ndarray := mk_ndarray {
  shape : list nat;
  data : list f64
}.

#[global] Instance ndarray_eq_dec : EqDecision ndarray.
Proof. solve_decision. Defined.

Module np.

(** Number of elements of an array of shape [s] *)
Definition size (s : list nat) : nat := foldr Nat.mul 1%nat s.

Definition well_formed (a : ndarray) : Prop :=
  length (data a) = size (shape a).

(** [a / c], [a * c] with a Python scalar [c] *)
Definition div_scalar (a : ndarray) (c : f64) : ndarray :=
  {| shape := shape a; data := (fun x => F64.div x c) <$> data a |}.

Definition mul_scalar (a : ndarray) (c : f64) : ndarray :=
  {| shape := shape a; data := (fun x => F64.mul x c) <$> data a |}.

(** Broadcasting of two shapes, aligned on their last axes; the arguments
    are the reversed shapes. *)
Fixpoint broadcast_rev (s1 s2 : list nat) : option (list nat) :=
  match s1, s2 with
  | [], s | s, [] => Some s
  | a :: s1', b :: s2' =>
      match broadcast_rev s1' s2' with
      | None => None
      | Some r =>
          if decide (a = b) then Some (a :: r)
          else if decide (a = 1%nat) then Some (b :: r)
          else if decide (b = 1%nat) then Some (a :: r)
          else None
      end
  end.

Definition broadcast_shapes (s1 s2 : list nat) : option (list nat) :=
  reverse <$> broadcast_rev (reverse s1) (reverse s2).

(** All the multi-indices of a shape, in row-major order *)
Fixpoint indices (s : list nat) : list (list nat) :=
  match s with
  | [] => [[]]
  | n :: s' => i ← seq 0 n; (cons i) <$> indices s'
  end.

(** Position in the data of the element at a multi-index; an axis of
    length one is read at index 0 whatever the index (broadcasting). *)
Fixpoint offset (s idx : list nat) : nat :=
  match s, idx with
  | n :: s', i :: idx' =>
      ((if decide (n = 1%nat) then 0 else i) * size s' + offset s' idx')%nat
  | _, _ => 0%nat
  end.

(** Element of [a] seen through an index of a broadcast shape: the
    leading axes that [a] does not have are ignored. *)
Definition item (a : ndarray) (idx : list nat) : f64 :=
  nth (offset (shape a) (drop (length idx - length (shape a)) idx))
      (data a) NaN.

(** An elementwise binary operation with broadcasting *)
Definition elementwise (f : f64 -> f64 -> f64) (a b : ndarray)
  : result ndarray :=
  match broadcast_shapes (shape a) (shape b) with
  | None =>
      Raise (ValueError "operands could not be broadcast together")
  | Some s =>
      Ok {| shape := s;
            data := (fun idx => f (item a idx) (item b idx)) <$> indices s |}
  end.

(** [a * b] *)
Definition multiply : ndarray -> ndarray -> result ndarray :=
  elementwise F64.mul.

Definition stack_shape_error : exn :=
  ValueError "all input arrays must have the same shape".

(** [np.stack(arrays)] along a new first axis *)
Definition stack (arrays : list ndarray) : result ndarray :=
  match arrays with
  | [] => Raise (ValueError "need at least one array to stack")
  | a :: rest =>
      if forallb (fun b => bool_decide (shape b = shape a)) rest
      then Ok {| shape := length arrays :: shape a;
                 data := concat (data <$> arrays) |}
      else Raise stack_shape_error
  end.

(** [np.shape(a)[i]] *)
Definition shape_at (a : ndarray) (i : nat) : result nat :=
  match shape a !! i with
  | Some n => Ok n
  | None => Raise (IndexError "tuple index out of range")
  end.

(** [np.squeeze(a, axis)] *)
Definition squeeze (a : ndarray) (axis : nat) : result ndarray :=
  match shape a !! axis with
  | None => Raise (ValueError "axis is out of bounds for array")
  | Some n =>
      if decide (n = 1%nat)
      then Ok {| shape := delete axis (shape a); data := data a |}
      else Raise (ValueError
        "cannot select an axis to squeeze out which has size not equal to one")
  end.

End np.

(** ** Tags *)

(** Modelled from the spec: the table of tags (simpa.utils.tags) is not among
    the sources.  The code only uses the tags as pairwise distinct dictionary
    keys and as distinct values of the optical-model and unit entries; each
    is represented by a string of its own. *)
Module Tags.
Definition SPACING_MM : string := "voxel_spacing_mm".
Definition RANDOM_SEED : string := "random_seed".
Definition WAVELENGTH : string := "wavelength".
Definition SIMPA_OUTPUT_PATH : string := "simpa_output_path".
Definition OPTICAL_MODEL : string := "optical_model".
Definition OPTICAL_MODEL_MCXYZ : pyval := PyStr "mcxyz".
Definition OPTICAL_MODEL_MCX : pyval := PyStr "mcx".
Definition OPTICAL_MODEL_TEST : pyval := PyStr "simpa_tests".
Definition OPTICAL_MODEL_NUMBER_PHOTONS : string := "optical_model_number_of_photons".
Definition OPTICAL_MODEL_FLUENCE : string := "fluence".
Definition OPTICAL_MODEL_INITIAL_PRESSURE : string := "initial_pressure".
Definition OPTICAL_MODEL_UNITS : string := "units".
Definition DATA_FIELD_FLUENCE : string := "fluence".
Definition MCX_SEED : string := "mcx_seed".
Definition TIME_STEP : string := "time_step".
Definition TOTAL_TIME : string := "total_time".
Definition PERFORM_UPSAMPLING : string := "sample".
Definition LASER_PULSE_ENERGY_IN_MILLIJOULE : string := "laser_pulse_energy_in_millijoule".
Definition SIMULATION_PROPERTIES : string := "simulation_properties".
Definition PROPERTY_ABSORPTION_PER_CM : string := "mua".
Definition PROPERTY_GRUNEISEN_PARAMETER : string := "gamma".
Definition ORIGINAL_DATA : string := "original_data".
Definition ILLUMINATION_TYPE_PENCILARRAY : string := "pencilarray".
End Tags.

(** The two unit modes recorded with the initial pressure *)
Inductive units :=
| UNITS_ARBITRARY
| UNITS_PRESSURE.

#[global] Instance units_eq_dec : EqDecision units.
Proof. solve_decision. Defined.

(** ** pencil_beam_illumination.py *)

(** The dictionary returned by an illumination geometry: its five keys
    "Type", "Pos", "Dir", "Param1" and "Param2". *)
Record IlluminatorDefinition := {
  src_Type : string;
  src_Pos : list f64;
  src_Dir : list Z;
  src_Param1 : list Z;
  src_Param2 : list Z
}.

#[global] Instance IlluminatorDefinition_eq_dec : EqDecision IlluminatorDefinition.
Proof. solve_decision. Defined.

Module PencilBeamIlluminationGeometry.

(** [probe_position_mm] is a one-dimensional array; [/ spacing + 0.5] is
    NumPy's elementwise arithmetic with the scalar from the settings. *)
Definition get_mcx_illuminator_definition
    (global_settings : gmap string pyval) (probe_position_mm : list f64)
  : result IlluminatorDefinition :=
  (let source_type := Tags.ILLUMINATION_TYPE_PENCILARRAY in
   spacing <- Py.getitem global_settings Tags.SPACING_MM ;;
   spacing <- Py.as_number spacing ;;
   let device_position :=
     (fun p => F64.add (F64.div p spacing) (F64.of_Q 0.5)) <$> probe_position_mm in
   let source_direction := [0; 0; 1] in
   let source_param1 := [0; 0; 0; 0] in
   let source_param2 := [0; 0; 0; 0] in
   Ok {| src_Type := source_type;
         src_Pos := device_position;
         src_Dir := source_direction;
         src_Param1 := source_param1;
         src_Param2 := source_param2 |})%py.

(** The same function with the arithmetic of line 20 as binary64 computes
    it: the quotient is rounded, and then the sum. *)
Definition get_mcx_illuminator_definition_binary64
    (global_settings : gmap string pyval) (probe_position_mm : list f64)
  : result IlluminatorDefinition :=
  (let source_type := Tags.ILLUMINATION_TYPE_PENCILARRAY in
   spacing <- Py.getitem global_settings Tags.SPACING_MM ;;
   spacing <- Py.as_number spacing ;;
   let device_position :=
     (fun p => F64.add64 (F64.div64 p spacing) (F64.of_Q 0.5))
       <$> probe_position_mm in
   let source_direction := [0; 0; 1] in
   let source_param1 := [0; 0; 0; 0] in
   let source_param2 := [0; 0; 0; 0] in
   Ok {| src_Type := source_type;
         src_Pos := device_position;
         src_Dir := source_direction;
         src_Param1 := source_param1;
         src_Param2 := source_param2 |})%py.

End PencilBeamIlluminationGeometry.

(** ** data_sanity_testing.py *)

(** What the checks read from [inspect.stack()[1]]: the calling frame, its
    fields as the f-strings render them. *)
Record FrameInfo := {
  frame_function : string;
  frame_filename : string;
  frame_lineno : string;
  frame_code_context : string
}.

Definition nl : string := String (Ascii.ascii_of_nat 10) EmptyString.
Definition tab : string := String (Ascii.ascii_of_nat 9) EmptyString.

Module data_sanity_testing.

(** [np.sum(rows, axis=0)] of a matrix with [k] columns *)
Definition column_sums (k : nat) (rows : list (list f64)) : list f64 :=
  foldr (zip_with F64.add) (replicate k F64.zero) rows.

(** [np.mean(rows, axis=0)] *)
Definition column_means (k : nat) (rows : list (list f64)) : list f64 :=
  (fun x => F64.div x (F64.of_Z (Z.of_nat (length rows))))
    <$> column_sums k rows.

(** [np.sum(np.abs(rows))] *)
Definition sum_abs (rows : list (list f64)) : f64 :=
  foldr F64.add F64.zero (F64.abs <$> concat rows).

Definition assert_equal_shapes (caller : FrameInfo)
    (numpy_arrays : list ndarray) : result unit :=
  if decide (length numpy_arrays < 2)%nat then Ok tt
  else
    let tuples := shape <$> numpy_arrays in
    let k := length (default [] (head tuples)) in
    (* np.asarray(...).astype(float): the tuples must have one length *)
    if negb (forallb (fun t => bool_decide (length t = k)) tuples)
    then Raise (ValueError "setting an array element with a sequence.")
    else
      let shapes := (fun t => (fun n => F64.of_Z (Z.of_nat n)) <$> t) <$> tuples in
      let mean := column_means k shapes in
      let shapes := (fun row => zip_with F64.sub row mean) <$> shapes in
      if negb (F64.leb (sum_abs shapes) (F64.of_Q 1e-5))
      then Raise (AssertionError
             ("The given volumes did not all have the same"
              +:+ " dimensions. Please double check the simulation"
              +:+ " parameters. Called from " +:+ frame_function caller))
      else Ok tt.

(** [array_name] is [None] by default. *)
Definition assert_array_well_defined (caller : FrameInfo)
    (array : ndarray) (assume_non_negativity assume_positivity : bool)
    (array_name : option string) : result unit :=
  let error_message : option string := None in
  let array_as_tensor := data array in
  let error_message :=
    if negb (forallb F64.isfinite array_as_tensor)
    then Some "nan, inf or -inf" else error_message in
  let error_message :=
    if assume_positivity
       && existsb (fun x => F64.leb x F64.zero) array_as_tensor
    then Some "not positive" else error_message in
  let error_message :=
    if assume_non_negativity
       && existsb (fun x => F64.ltb x F64.zero) array_as_tensor
    then Some "negative" else error_message in
  match error_message with
  | Some error_message =>
      if Py.truthy error_message then
        let array_name := default "'Not specified'" array_name in
        let stack_string :=
          " " +:+ nl +:+ tab +:+ "Array Name: " +:+ array_name
          +:+ " " +:+ nl +:+ tab +:+ "Caller: " +:+ frame_filename caller
          +:+ " " +:+ nl +:+ tab +:+ "line: " +:+ frame_lineno caller
          +:+ " " +:+ nl +:+ tab +:+ "code: " +:+ frame_code_context caller in
        Raise (AssertionError
                 ("The given array contained values that were "
                  +:+ error_message +:+ "." +:+ " Info: "
                  +:+ stack_string +:+ "."))
      else Ok tt
  | None => Ok tt
  end.

End data_sanity_testing.

(** ** optical_forward_model_mcx_adapter.py *)

(** The configuration dictionary handed to pmcx; "seed" is only set when a
    seed is configured. *)
Record PmcxConfig := {
  cfg_nphoton : pyval;
  cfg_vol : ndarray;
  cfg_tstart : Z;
  cfg_tend : pyval;
  cfg_tstep : pyval;
  cfg_prop : ndarray;
  cfg_unitinmm : pyval;
  cfg_srctype : string;
  cfg_srcpos : list f64;
  cfg_srcdir : list Z;
  cfg_srcparam1 : list Z;
  cfg_srcparam2 : list Z;
  cfg_isreflect : Z;
  cfg_autopilot : Z;
  cfg_outputtype : string;
  cfg_seed : option pyval
}.

#[global] Instance PmcxConfig_eq_dec : EqDecision PmcxConfig.
Proof. solve_decision. Defined.

(** The interface of an illumination geometry, as the adapter calls it. *)
Record IlluminationGeometryBase := {
  get_mcx_illuminator_definition :
    gmap string pyval -> result IlluminatorDefinition
}.

(** The three optical forward models that can be selected *)
Inductive adapter :=
| McxyzAdapter
| McxAdapter
| TestOpticalAdapter.

#[global] Instance adapter_eq_dec : EqDecision adapter.
Proof. solve_decision. Defined.

(** What happens outside the modelled functions, in order. *)
Inductive event :=
| EvPrint (text : string)
| EvPmcxRun (config : PmcxConfig)
| EvGenerateDictPath (data_field : string) (wavelength : pyval)
    (upsampled_data : bool)
| EvSimulate (implementation : adapter) (optical_properties_path : string)
| EvLoadHdf5 (file : pyval) (path : string)
| EvSaveHdf5 (fluence initial_pressure : ndarray) (unit_mode : units)
    (file : pyval) (path : string).

#[global] Instance event_eq_dec : EqDecision event.
Proof. solve_decision. Defined.

(** Computations that may raise and that leave a trace of external calls;
    the trace survives an exception. *)
Definition M (A : Type) : Type := list event -> result A * list event.

Definition mret {A} (a : A) : M A := fun log => (Ok a, log).

Definition mbind {A B} (c : M A) (k : A -> M B) : M B :=
  fun log =>
    match c log with
    | (Ok a, log') => k a log'
    | (Raise e, log') => (Raise e, log')
    end.

Definition lift {A} (r : result A) : M A := fun log => (r, log).

Definition call {A} (e : event) (r : result A) : M A :=
  fun log => (r, log ++ [e]).

Declare Scope m_scope.
Delimit Scope m_scope with M.
Notation "x <~ c ;; k" := (mbind c (fun x => k))
  (at level 100, c at next level, right associativity) : m_scope.

Module MCXAdapter.

(** The attributes of an MCXAdapter instance *)
Record instance := {
  global_settings : gmap string pyval;
  component_settings : gmap string pyval;
  frames : option Z;
  nx : option nat;
  ny : option nat;
  nz : option nat
}.

#[global] Instance instance_eq_dec : EqDecision instance.
Proof. solve_decision. Defined.

Definition volumes_to_mm (kwargs : gmap string ndarray)
  : result (ndarray * ndarray * option ndarray * option ndarray) :=
  let scattering_cm := kwargs !! "scattering_cm" in
  let absorption_cm := kwargs !! "absorption_cm" in
  let anisotropy := kwargs !! "anisotropy" in
  let refractive_index := kwargs !! "refractive_index" in
  match absorption_cm with
  | None =>
      Raise (TypeError "unsupported operand type(s) for /: 'NoneType' and 'int'")
  | Some absorption_cm =>
      let absorption_mm := np.div_scalar absorption_cm (F64.of_Z 10) in
      match scattering_cm with
      | None =>
          Raise (TypeError "unsupported operand type(s) for /: 'NoneType' and 'int'")
      | Some scattering_cm =>
          let scattering_mm := np.div_scalar scattering_cm (F64.of_Z 10) in
          Ok (absorption_mm, scattering_mm, anisotropy, refractive_index)
      end
  end.

Definition pre_process_volumes (kwargs : gmap string ndarray) :=
  volumes_to_mm kwargs.

(** [tuple(a for a in arrays)] *)
Definition post_process_volumes (arrays : list ndarray) : list ndarray :=
  (fun a => a) <$> arrays.

(** Lines 103 to 108 of [get_mcx_config]: the total time and the time step,
    from the component settings or by default.  The condition is the
    source's [Tags.TIME_STEP and Tags.TOTAL_TIME in self.component_settings]:
    the truth value of the first tag, and the presence of the second. *)
Definition time_window (component_settings : gmap string pyval)
  : result (pyval * pyval) :=
  (if Py.truthy Tags.TIME_STEP
      && Py.contains component_settings Tags.TOTAL_TIME
   then
     dt <- Py.getitem component_settings Tags.TIME_STEP ;;
     time <- Py.getitem component_settings Tags.TOTAL_TIME ;;
     Ok (time, dt)
   else
     let time := PyFloat (F64.of_Q 5e-09) in
     let dt := PyFloat (F64.of_Q 5e-09) in
     Ok (time, dt))%py.

(** Sets [self.nx], [self.ny], [self.nz] and [self.frames]; returns the
    configuration and the updated instance. *)
Definition get_mcx_config (self : instance)
    (illumination_geometry : IlluminationGeometryBase)
    (absorption_cm scattering_cm anisotropy refractive_index : ndarray)
  : result (PmcxConfig * instance) :=
  (vols <- pre_process_volumes
             (<["absorption_cm" := absorption_cm]>
              (<["scattering_cm" := scattering_cm]>
               (<["anisotropy" := anisotropy]>
                {["refractive_index" := refractive_index]}))) ;;
   let '(absorption_mm, scattering_mm, anisotropy, refractive_index) := vols in
   (* [kwargs.get] finds the two entries passed above; a None would not
      stack with the arrays *)
   anisotropy <- from_option Ok (Raise np.stack_shape_error) anisotropy ;;
   refractive_index <-
     from_option Ok (Raise np.stack_shape_error) refractive_index ;;
   vol <- np.stack [absorption_mm; scattering_mm; anisotropy; refractive_index] ;;
   dims <- match shape vol with
           | [_; x; y; z] => Ok (x, y, z)
           | _ => Raise (ValueError "wrong number of values to unpack")
           end ;;
   let self := {| global_settings := global_settings self;
                  component_settings := component_settings self;
                  frames := frames self;
                  nx := Some dims.1.1; ny := Some dims.1.2; nz := Some dims.2 |} in
   source <- get_mcx_illuminator_definition illumination_geometry
               (global_settings self) ;;
   let prop := mk_ndarray [1; 4]%nat (F64.of_Z <$> [0; 0; 1; 1]) in
   timing <- time_window (component_settings self) ;;
   let '(time, dt) := timing in
   quotient <- Py.truediv_binary64 time dt ;;
   frame_count <- Py.int quotient ;;
   let self := {| global_settings := global_settings self;
                  component_settings := component_settings self;
                  frames := Some frame_count;
                  nx := nx self; ny := ny self; nz := nz self |} in
   nphoton <- Py.getitem (component_settings self) Tags.OPTICAL_MODEL_NUMBER_PHOTONS ;;
   unitinmm <- Py.getitem (global_settings self) Tags.SPACING_MM ;;
   let config := {|
     cfg_nphoton := nphoton;
     cfg_vol := vol;
     cfg_tstart := 0;
     cfg_tend := time;
     cfg_tstep := dt;
     cfg_prop := prop;
     cfg_unitinmm := unitinmm;
     cfg_srctype := src_Type source;
     cfg_srcpos := src_Pos source;
     cfg_srcdir := src_Dir source;
     cfg_srcparam1 := src_Param1 source;
     cfg_srcparam2 := src_Param2 source;
     cfg_isreflect := 1;
     cfg_autopilot := 1;
     cfg_outputtype := "fluence";
     cfg_seed := None |} in
   let set_seed (seed : pyval) (c : PmcxConfig) : PmcxConfig := {|
     cfg_nphoton := cfg_nphoton c; cfg_vol := cfg_vol c;
     cfg_tstart := cfg_tstart c; cfg_tend := cfg_tend c;
     cfg_tstep := cfg_tstep c; cfg_prop := cfg_prop c;
     cfg_unitinmm := cfg_unitinmm c; cfg_srctype := cfg_srctype c;
     cfg_srcpos := cfg_srcpos c; cfg_srcdir := cfg_srcdir c;
     cfg_srcparam1 := cfg_srcparam1 c; cfg_srcparam2 := cfg_srcparam2 c;
     cfg_isreflect := cfg_isreflect c; cfg_autopilot := cfg_autopilot c;
     cfg_outputtype := cfg_outputtype c; cfg_seed := Some seed |} in
   config <- (if negb (Py.contains (component_settings self) Tags.MCX_SEED)
              then
                if Py.contains (global_settings self) Tags.RANDOM_SEED
                then seed <- Py.getitem (global_settings self) Tags.RANDOM_SEED ;;
                     Ok (set_seed seed config)
                else Ok config
              else
                seed <- Py.getitem (component_settings self) Tags.MCX_SEED ;;
                Ok (set_seed seed config)) ;;
   Ok (config, self))%py.

Definition parse_pmcx_results (pmcx_results : gmap string ndarray)
  : result (gmap string ndarray) :=
  (fluence <- Py.getitem pmcx_results "flux" ;;
   (* Convert from J/mm^2 to J/cm^2 *)
   let fluence := np.mul_scalar fluence (F64.of_Z 100) in
   frames_axis <- np.shape_at fluence 3 ;;
   fluence <- (if decide (frames_axis = 1%nat)
               then np.squeeze fluence 3
               else Ok fluence) ;;
   fluence <- match post_process_volumes [fluence] with
              | a :: _ => Ok a
              | [] => Raise (IndexError "tuple index out of range")
              end ;;
   let results : gmap string ndarray := ∅ in
   let results := <[Tags.DATA_FIELD_FLUENCE := fluence]> results in
   Ok results)%py.

Section Engine.

(** The Monte-Carlo engine, [pmcx.run]: an external call. *)
Variable pmcx_run : PmcxConfig -> result (gmap string ndarray).

Definition forward_model (self : instance)
    (absorption_cm scattering_cm anisotropy refractive_index : ndarray)
    (illumination_geometry : IlluminationGeometryBase)
  : M (gmap string ndarray * instance) :=
  (cs <~ lift (get_mcx_config self illumination_geometry
                 absorption_cm scattering_cm anisotropy refractive_index) ;;
   let '(config, self) := cs in
   pmcx_results <~ call (EvPmcxRun config) (pmcx_run config) ;;
   results <~ lift (parse_pmcx_results pmcx_results) ;;
   mret (results, self))%M.

End Engine.

End MCXAdapter.

(** ** optical_modelling.py *)

Module optical_modelling.

(** Lines 57 to 71 of [run_optical_forward_model]: the initial pressure and
    its unit mode, from the settings and the three fields. *)
Definition initial_pressure_and_units (settings : gmap string pyval)
    (absorption fluence gruneisen_parameter : ndarray)
  : result (ndarray * units) :=
  (initial_pressure <- np.multiply absorption fluence ;;
   (* Tags.PERFORM_UPSAMPLING not in settings or settings[...] is False *)
   if match settings !! Tags.PERFORM_UPSAMPLING with
      | None => true
      | Some flag => Py.is_False flag
      end
   then
     if Py.contains settings Tags.LASER_PULSE_ENERGY_IN_MILLIJOULE then
       let units := UNITS_PRESSURE in
       (* 1 J/cm^3 = 10^6 N/m^2 = 10^6 Pa *)
       let conversion_factor := F64.of_Q 1e6 in
       af <- np.multiply absorption fluence ;;
       afg <- np.multiply af gruneisen_parameter ;;
       energy <- Py.getitem settings Tags.LASER_PULSE_ENERGY_IN_MILLIJOULE ;;
       joule <- Py.truediv energy (PyInt 1000) ;;
       let initial_pressure :=
         np.mul_scalar (np.mul_scalar afg joule) conversion_factor in
       Ok (initial_pressure, units)
     else
       let units := UNITS_ARBITRARY in
       initial_pressure <- np.multiply absorption fluence ;;
       Ok (initial_pressure, units)
   else
     let units := UNITS_ARBITRARY in
     Ok (initial_pressure, units))%py.

Section Collaborators.

(** The collaborators that are not among the sources: the path manager, the
    adapters' [simulate], the HDF5 layer and the output path template. *)
Variable generate_dict_path :
  gmap string pyval -> string -> pyval -> bool -> result string.
Variable simulate : adapter -> string -> gmap string pyval -> result ndarray.
Variable load_hdf5 : pyval -> string -> result (gmap string ndarray).
Variable save_hdf5 :
  ndarray -> ndarray -> units -> pyval -> string -> result unit.
Variable OPTICAL_OUTPUT_format : string -> pyval -> string.

Definition run_optical_forward_model (settings : gmap string pyval)
  : M string :=
  (_ <~ call (EvPrint "OPTICAL FORWARD") (Ok tt) ;;
   _ <~ lift (if negb (Py.contains settings Tags.OPTICAL_MODEL)
              then Raise (AssertionError
                "Tags.OPTICAL_MODEL tag was not specified in the settings. Skipping optical modelling.")
              else Ok tt) ;;
   model <~ lift (Py.getitem settings Tags.OPTICAL_MODEL) ;;
   let forward_model_implementation : option adapter := None in
   let forward_model_implementation :=
     if Py.eqb model Tags.OPTICAL_MODEL_MCXYZ then Some McxyzAdapter
     else if Py.eqb model Tags.OPTICAL_MODEL_MCX then Some McxAdapter
     else if Py.eqb model Tags.OPTICAL_MODEL_TEST then Some TestOpticalAdapter
     else forward_model_implementation in
   wavelength <~ lift (Py.getitem settings Tags.WAVELENGTH) ;;
   optical_properties_path <~
     call (EvGenerateDictPath Tags.SIMULATION_PROPERTIES wavelength false)
          (generate_dict_path settings Tags.SIMULATION_PROPERTIES wavelength false) ;;
   fluence <~
     match forward_model_implementation with
     | None =>
         lift (Raise (AttributeError
                        "'NoneType' object has no attribute 'simulate'"))
     | Some implementation =>
         call (EvSimulate implementation optical_properties_path)
              (simulate implementation optical_properties_path settings)
     end ;;
   output_file <~ lift (Py.getitem settings Tags.SIMPA_OUTPUT_PATH) ;;
   optical_properties <~
     call (EvLoadHdf5 output_file optical_properties_path)
          (load_hdf5 output_file optical_properties_path) ;;
   absorption <~ lift (Py.getitem optical_properties Tags.PROPERTY_ABSORPTION_PER_CM) ;;
   gruneisen_parameter <~
     lift (Py.getitem optical_properties Tags.PROPERTY_GRUNEISEN_PARAMETER) ;;
   pu <~ lift (initial_pressure_and_units settings absorption fluence
                 gruneisen_parameter) ;;
   let '(initial_pressure, units) := pu in
   wavelength <~ lift (Py.getitem settings Tags.WAVELENGTH) ;;
   let optical_output_path :=
     OPTICAL_OUTPUT_format Tags.ORIGINAL_DATA wavelength in
   output_file <~ lift (Py.getitem settings Tags.SIMPA_OUTPUT_PATH) ;;
   _ <~ call (EvSaveHdf5 fluence initial_pressure units output_file
                optical_output_path)
             (save_hdf5 fluence initial_pressure units output_file
                optical_output_path) ;;
   mret optical_output_path)%M.

End Collaborators.

End optical_modelling.

(** ** The specification's conversion back to per-centimetre units *)

(** The inverse of the adapter's conversion, as the specification words it
    ([to_cm(x) = x*10]); the sources have no such function. *)
Definition to_cm (x : ndarray) : ndarray := np.mul_scalar x (F64.of_Z 10).

(** The text raised for an array with a non-finite entry *)
Definition not_finite_message (caller : FrameInfo) (array_name : string)
  : string :=
  "The given array contained values that were nan, inf or -inf. Info:  "
  +:+ nl +:+ tab +:+ "Array Name: " +:+ array_name
  +:+ " " +:+ nl +:+ tab +:+ "Caller: " +:+ frame_filename caller
  +:+ " " +:+ nl +:+ tab +:+ "line: " +:+ frame_lineno caller
  +:+ " " +:+ nl +:+ tab +:+ "code: " +:+ frame_code_context caller +:+ ".".

(** ** Exact quantities of the shape check *)

(** The absolute value, as [F64.abs] computes it on a finite value *)
Definition qabs (q : Qc) : Qc := if decide (q < 0)%Qc then (- q)%Qc else q.

(** An axis length as a rational *)
Definition dim (n : nat) : Qc := Q2Qc (inject_Z (Z.of_nat n)).

Definition qsum (l : list Qc) : Qc := foldr Qcplus 0%Qc l.

(** The deviation of one row from [m], summed over the columns *)
Definition row_deviation (m : list Qc) (r : list nat) : Qc :=
  qsum (qabs <$> zip_with Qcminus (dim <$> r) m).

(** The sums of the columns of a matrix with [k] columns *)
Definition qcolumn_sums (k : nat) (rows : list (list Qc)) : list Qc :=
  foldr (zip_with Qcplus) (replicate k 0%Qc) rows.

(** ** Example inputs *)

(** A geometry that answers with the pencil-beam definition for a fixed
    probe position. *)
Definition pencil_beam_at (probe_position_mm : list f64)
  : IlluminationGeometryBase :=
  {| get_mcx_illuminator_definition := fun global_settings =>
       PencilBeamIlluminationGeometry.get_mcx_illuminator_definition
         global_settings probe_position_mm |}.

(** The volume of shape [s] that holds [v] everywhere *)
Definition constant_volume (s : list nat) (v : f64) : ndarray :=
  mk_ndarray s (replicate (np.size s) v).

(** An adapter with a spacing of 0.5 mm, 1e8 photons and the given
    component settings besides. *)
Definition example_adapter (component_settings : gmap string pyval)
  : MCXAdapter.instance :=
  {| MCXAdapter.global_settings :=
       {[ Tags.SPACING_MM := PyFloat (F64.of_Q 0.5) ]};
     MCXAdapter.component_settings :=
       <[Tags.OPTICAL_MODEL_NUMBER_PHOTONS := PyFloat (F64.of_Q 1e8)]>
         component_settings;
     MCXAdapter.frames := None;
     MCXAdapter.nx := None;
     MCXAdapter.ny := None;
     MCXAdapter.nz := None |}.

(** ** pencil_beam_illumination.py: serialization *)

Module PencilBeamSerialization.

(** A device is represented by its attributes, [self.__dict__]. *)
Definition serialize {V} (self : gmap string V)
  : gmap string (gmap string V) :=
  let serialized_device := self in
  {[ "PencilBeamIlluminationGeometry" := serialized_device ]}.

(** [fresh] holds the attributes of a newly constructed
    [PencilBeamIlluminationGeometry()]; the constructor is not among the
    sources. *)
Definition deserialize {V} (fresh : gmap string V)
    (dictionary_to_deserialize : gmap string V) : gmap string V :=
  map_fold (fun key value deserialized_device =>
              <[key := value]> deserialized_device)
           fresh dictionary_to_deserialize.

End PencilBeamSerialization.

(** ** calculate.py *)

Module calculate.

Record Spectrum := { spectrum_name : string }.

Record Molecule := {
  spectrum : Spectrum;
  volume_fraction : f64
}.

(** The body of the loop of [calculate_oxygenation] *)
Definition hemoglobin_step (acc : option f64 * option f64)
    (molecule : Molecule) : option f64 * option f64 :=
  let '(hb, hbO2) := acc in
  let hb :=
    if decide (spectrum_name (spectrum molecule) = "Deoxyhemoglobin")
    then Some (volume_fraction molecule) else hb in
  let hbO2 :=
    if decide (spectrum_name (spectrum molecule) = "Oxyhemoglobin")
    then Some (volume_fraction molecule) else hbO2 in
  (hb, hbO2).

(** The loop: the fractions of the last deoxyhemoglobin and of the last
    oxyhemoglobin entry. *)
Definition hemoglobin_fractions (molecule_list : list Molecule)
  : option f64 * option f64 :=
  foldl hemoglobin_step (None, None) molecule_list.

(** [calculate_oxygenation]; the result None of the source is [Ok None]. *)
Definition calculate_oxygenation (molecule_list : list Molecule)
  : result (option f64) :=
  let '(hb, hbO2) := hemoglobin_fractions molecule_list in
  match hb, hbO2 with
  | None, None => Ok None
  | _, _ =>
      let '(hb, hbO2) :=
        match hb, hbO2 with
        | None, _ => (F64.zero, default F64.zero hbO2)
        | Some hb, None => (hb, F64.zero)
        | Some hb, Some hbO2 => (hb, hbO2)
        end in
      if F64.ltb (F64.add hb hbO2) (F64.of_Q 1e-10) then Ok None
      else
        (x <- Py.truediv (PyFloat hbO2) (PyFloat (F64.add hb hbO2)) ;;
         Ok (Some x))%py
  end.

(** [randomize_uniform], on the draw [random] of np.random.random() *)
Definition randomize_uniform (random min_value max_value : f64) : f64 :=
  F64.add (F64.mul random (F64.sub max_value min_value)) min_value.

(** np.min and np.max of the elements: a NaN anywhere gives NaN; an empty
    array has no minimum. *)
Definition minimum (x y : f64) : f64 :=
  match x, y with
  | NaN, _ | _, NaN => NaN
  | _, _ => if F64.ltb y x then y else x
  end.

Definition maximum (x y : f64) : f64 :=
  match x, y with
  | NaN, _ | _, NaN => NaN
  | _, _ => if F64.ltb x y then y else x
  end.

Definition np_min (a : ndarray) : result f64 :=
  match data a with
  | [] => Raise (ValueError
      "zero-size array to reduction operation minimum which has no identity")
  | x :: rest => Ok (foldl minimum x rest)
  end.

Definition np_max (a : ndarray) : result f64 :=
  match data a with
  | [] => Raise (ValueError
      "zero-size array to reduction operation maximum which has no identity")
  | x :: rest => Ok (foldl maximum x rest)
  end.

(** [a - c] with a scalar [c] *)
Definition sub_scalar (a : ndarray) (c : f64) : ndarray :=
  {| shape := shape a; data := (fun x => F64.sub x c) <$> data a |}.

Definition min_max_normalization (data : option ndarray) : result ndarray :=
  match data with
  | None =>
      Raise (AttributeError "Data must not be none in order to normalize it.")
  | Some data =>
      (_min <- np_min data ;;
       _max <- np_max data ;;
       let output :=
         np.div_scalar (sub_scalar data _min) (F64.sub _max _min) in
       Ok output)%py
  end.

(** [angles[i]] on a sequence *)
Definition sequence_item (angles : list f64) (i : nat) : result f64 :=
  match angles !! i with
  | Some x => Ok x
  | None => Raise (IndexError "list index out of range")
  end.

Section Trigonometry.

Variable cos sin : f64 -> f64.

Definition rotation_x (theta : f64) : ndarray :=
  mk_ndarray [3; 3]%nat
    [F64.one; F64.zero; F64.zero;
     F64.zero; cos theta; F64.neg (sin theta);
     F64.zero; sin theta; cos theta].

Definition rotation_y (theta : f64) : ndarray :=
  mk_ndarray [3; 3]%nat
    [cos theta; F64.zero; sin theta;
     F64.zero; F64.one; F64.zero;
     F64.neg (sin theta); F64.zero; cos theta].

Definition rotation_z (theta : f64) : ndarray :=
  mk_ndarray [3; 3]%nat
    [cos theta; F64.neg (sin theta); F64.zero;
     sin theta; cos theta; F64.zero;
     F64.zero; F64.zero; F64.one].

(** [rotation]: the three matrices are combined with [*], the elementwise
    product of arrays. *)
Definition rotation (angles : list f64) : result ndarray :=
  (theta_x <- sequence_item angles 0 ;;
   theta_y <- sequence_item angles 1 ;;
   xy <- np.multiply (rotation_x theta_x) (rotation_y theta_y) ;;
   theta_z <- sequence_item angles 2 ;;
   np.multiply xy (rotation_z theta_z))%py.

End Trigonometry.

Section Norm.

(** np.linalg.norm of a vector *)
Variable norm : list f64 -> f64.

(** [v.reshape(3)] *)
Definition reshape3 (v : ndarray) : result (f64 * f64 * f64) :=
  match data v with
  | [x; y; z] => Ok (x, y, z)
  | _ => Raise (ValueError "cannot reshape array into shape (3,)")
  end.

Definition cross (a b : f64 * f64 * f64) : f64 * f64 * f64 :=
  let '(a0, a1, a2) := a in
  let '(b0, b1, b2) := b in
  (F64.sub (F64.mul a1 b2) (F64.mul a2 b1),
   F64.sub (F64.mul a2 b0) (F64.mul a0 b2),
   F64.sub (F64.mul a0 b1) (F64.mul a1 b0)).

Definition dot (a b : f64 * f64 * f64) : f64 :=
  let '(a0, a1, a2) := a in
  let '(b0, b1, b2) := b in
  F64.add (F64.add (F64.mul a0 b0) (F64.mul a1 b1)) (F64.mul a2 b2).

(** [bool(x)] of a float: every value but zero is true, NaN included *)
Definition nonzero (x : f64) : bool := negb (bool_decide (x = F64.zero)).

(** [v.all()] *)
Definition all (v : f64 * f64 * f64) : bool :=
  let '(v0, v1, v2) := v in nonzero v0 && nonzero v1 && nonzero v2.

(** [np.abs(flag) < 1e-10] on a boolean: True counts as 1, False as 0. *)
Definition abs_below_threshold (flag : bool) : bool :=
  F64.ltb (F64.abs (F64.of_Z (if flag then 1 else 0))) (F64.of_Q 1e-10).

(** Product of two 3x3 matrices held in row-major order *)
Definition matmul3 (m n : list f64) : list f64 :=
  i ← seq 0 3;
  (fun j =>
     foldl F64.add F64.zero
       ((fun k => F64.mul (nth (3 * i + k) m NaN) (nth (3 * k + j) n NaN))
          <$> seq 0 3)) <$> seq 0 3.

Definition eye3 : list f64 :=
  [F64.one; F64.zero; F64.zero;
   F64.zero; F64.one; F64.zero;
   F64.zero; F64.zero; F64.one].

Definition rotation_matrix_between_vectors (a b : ndarray)
  : result ndarray :=
  (a_norm <- reshape3 (np.div_scalar a (norm (data a))) ;;
   b_norm <- reshape3 (np.div_scalar b (norm (data b))) ;;
   let cross_product := cross a_norm b_norm in
   if abs_below_threshold (all cross_product)
   then Ok (mk_ndarray [3; 3]%nat (replicate 9 F64.zero))
   else
     let dot_product := dot a_norm b_norm in
     let '(c0, c1, c2) := cross_product in
     let s := norm [c0; c1; c2] in
     let mat := [F64.zero; F64.neg c2; c1;
                 c2; F64.zero; F64.neg c0;
                 F64.neg c1; c0; F64.zero] in
     let factor :=
       F64.div (F64.sub F64.one dot_product) (F64.mul s s) in
     let rotation_matrix :=
       zip_with F64.add (zip_with F64.add eye3 mat)
         ((fun x => F64.mul x factor) <$> matmul3 mat mat) in
     Ok (mk_ndarray [3; 3]%nat rotation_matrix))%py.

End Norm.

(** The molecules the oxygenation is computed from *)
Definition is_hemoglobin (molecule : Molecule) : Prop :=
  spectrum_name (spectrum molecule) = "Deoxyhemoglobin"
  \/ spectrum_name (spectrum molecule) = "Oxyhemoglobin".

(** [np.zeros([3, 3])] *)
Definition zeros3 : ndarray := mk_ndarray [3; 3]%nat (replicate 9 F64.zero).

End calculate.

(** ** realisitic_time_series.py *)

Module SensorDegradation.

(** What the offsets and the thermal noises may be given as: a number, a
    one-dimensional array or a list *)
Inductive value :=
| Scalar (x : f64)
| Array (a : list f64)
| PyList (l : list f64).

(** The component settings, one optional entry for each tag the class
    reads, at the type its documentation gives *)
Record ComponentSettings := {
  TRANSFORM_TO_IN_VITRO_DOMAIN : option bool;
  SCALING_FACTOR : option f64;
  IN_VITRO_LASER_ENERGY : option f64;
  BROKEN_SENSORS : option (list Z);
  OFFSETS : option value;
  THERMAL_NOISES : option value
}.

Inductive level := ERROR | INFO.

Record instance := {
  component_settings : ComponentSettings;
  working_sensors : option (list f64);
  logger : list (level * string)
}.

Definition set_transform (b : bool) (cs : ComponentSettings)
  : ComponentSettings :=
  {| TRANSFORM_TO_IN_VITRO_DOMAIN := Some b;
     SCALING_FACTOR := SCALING_FACTOR cs;
     IN_VITRO_LASER_ENERGY := IN_VITRO_LASER_ENERGY cs;
     BROKEN_SENSORS := BROKEN_SENSORS cs;
     OFFSETS := OFFSETS cs;
     THERMAL_NOISES := THERMAL_NOISES cs |}.

Definition set_offsets (v : value) (cs : ComponentSettings)
  : ComponentSettings :=
  {| TRANSFORM_TO_IN_VITRO_DOMAIN := TRANSFORM_TO_IN_VITRO_DOMAIN cs;
     SCALING_FACTOR := SCALING_FACTOR cs;
     IN_VITRO_LASER_ENERGY := IN_VITRO_LASER_ENERGY cs;
     BROKEN_SENSORS := BROKEN_SENSORS cs;
     OFFSETS := Some v;
     THERMAL_NOISES := THERMAL_NOISES cs |}.

Definition set_thermal_noises (v : value) (cs : ComponentSettings)
  : ComponentSettings :=
  {| TRANSFORM_TO_IN_VITRO_DOMAIN := TRANSFORM_TO_IN_VITRO_DOMAIN cs;
     SCALING_FACTOR := SCALING_FACTOR cs;
     IN_VITRO_LASER_ENERGY := IN_VITRO_LASER_ENERGY cs;
     BROKEN_SENSORS := BROKEN_SENSORS cs;
     OFFSETS := OFFSETS cs;
     THERMAL_NOISES := Some v |}.

(** Position of an index of NumPy in an axis of length [n]: negative
    indices count from the end. *)
Definition position (n : nat) (i : Z) : result nat :=
  if decide (0 <= i < Z.of_nat n) then Ok (Z.to_nat i)
  else if decide (- Z.of_nat n <= i < 0) then Ok (Z.to_nat (Z.of_nat n + i))
  else Raise (IndexError "index is out of bounds for axis 0").

(** [working_sensors[broken] = 0] *)
Fixpoint clear_sensors (n : nat) (broken : list Z) (sensors : list f64)
  : result (list f64) :=
  match broken with
  | [] => Ok sensors
  | i :: rest =>
      (k <- position n i ;;
       clear_sensors n rest (<[k := F64.zero]> sensors))%py
  end.

(** [np.ones(n) * x] *)
Definition ones_times (n : nat) (x : f64) : list f64 :=
  (fun one => F64.mul one x) <$> replicate n F64.one.

(** The two error messages; each continues on a second source line inside
    the string literal, whose indentation is part of the text. *)
Definition scaling_factor_message : string :=
  "Tags.SCALING_FACTOR has to be set                         if Tags.TRANSFORM_TO_IN_VITRO_DOMAIN is True".

Definition in_vitro_laser_energy_message : string :=
  "Tags.IN_VITRO_LASER_ENERGY has to be                         set if Tags.TRANSFORM_TO_IN_VITRO_DOMAIN is True".

(** [check_input]: the instance after the call.  An exception leaves the
    call without a result; the state it leaves behind is not modelled. *)
Definition check_input (self : instance) (time_series_data : ndarray)
  : result instance :=
  match shape time_series_data with
  | [n_sensors; _] =>
      let cs := component_settings self in
      let log := logger self in
      let '(cs, log) :=
        match TRANSFORM_TO_IN_VITRO_DOMAIN cs with
        | None => (set_transform false cs, log)
        | Some transform =>
            if transform then
              let log :=
                match SCALING_FACTOR cs with
                | Some _ => log
                | None => log ++ [(ERROR, scaling_factor_message)]
                end in
              let log :=
                match IN_VITRO_LASER_ENERGY cs with
                | Some _ => log
                | None => log ++ [(ERROR, in_vitro_laser_energy_message)]
                end in
              (cs, log)
            else (cs, log)
        end in
      (* indicator function for non-broken sensors *)
      let working_sensors := replicate n_sensors F64.one in
      (working_sensors <-
         match BROKEN_SENSORS cs with
         | Some broken => clear_sensors n_sensors broken working_sensors
         | None => Ok working_sensors
         end ;;
       let '(offsets, log) :=
         match OFFSETS cs with
         | None => (Scalar F64.zero,
                    log ++ [(INFO, "Tags.OFFSETS is set to 0.")])
         | Some offsets => (offsets, log)
         end in
       let '(thermal_noises, log) :=
         match THERMAL_NOISES cs with
         | None => (Scalar F64.zero,
                    log ++ [(INFO, "Tags.THERMAL_NOISES is set to 0.")])
         | Some thermal_noises => (thermal_noises, log)
         end in
       (* convert offset to an array if it is not yet *)
       offsets <- match offsets with
                  | Scalar x => Ok (Array (ones_times n_sensors x))
                  | _ =>
                      (* isinstance called with one argument *)
                      Raise (TypeError "isinstance expected 2 arguments, got 1")
                  end ;;
       (* convert thermal noise to an array if it is not yet *)
       let thermal_noises :=
         match thermal_noises with
         | Scalar x => Array (ones_times n_sensors x)
         | _ => thermal_noises
         end in
       let thermal_noises :=
         match thermal_noises with
         | PyList l => Array l
         | _ => thermal_noises
         end in
       let cs := set_thermal_noises thermal_noises (set_offsets offsets cs) in
       Ok {| component_settings := cs;
             working_sensors := Some working_sensors;
             logger := log |})%py
  | [] | [_] =>
      Raise (ValueError "not enough values to unpack (expected 2)")
  | _ =>
      Raise (ValueError "too many values to unpack (expected 2)")
  end.

(** [isinstance(v, (int, float))] *)
Definition is_scalar (v : value) : bool :=
  match v with
  | Scalar _ => true
  | _ => false
  end.

Definition isinstance_error : exn :=
  TypeError "isinstance expected 2 arguments, got 1".

(** The indices of the broken sensors, none by default *)
Definition broken_of (self : instance) : list Z :=
  default [] (BROKEN_SENSORS (component_settings self)).

(** The assignment to the working sensors, as [check_input] performs it *)
Definition sensors_step (self : instance) (n_sensors : nat)
  : result (list f64) :=
  match BROKEN_SENSORS (component_settings self) with
  | Some broken =>
      clear_sensors n_sensors broken (replicate n_sensors F64.one)
  | None => Ok (replicate n_sensors F64.one)
  end.

(** The thermal noises after the two conversions *)
Definition converted_noises (n_sensors : nat) (noises : option value)
  : value :=
  match noises with
  | None => Array (ones_times n_sensors F64.zero)
  | Some (Scalar x) => Array (ones_times n_sensors x)
  | Some (Array a) => Array a
  | Some (PyList l) => Array l
  end.

(** The component settings after a successful check *)
Definition checked_settings (cs : ComponentSettings) (n_sensors : nat)
    (x : f64) : ComponentSettings :=
  {| TRANSFORM_TO_IN_VITRO_DOMAIN :=
       Some (default false (TRANSFORM_TO_IN_VITRO_DOMAIN cs));
     SCALING_FACTOR := SCALING_FACTOR cs;
     IN_VITRO_LASER_ENERGY := IN_VITRO_LASER_ENERGY cs;
     BROKEN_SENSORS := BROKEN_SENSORS cs;
     OFFSETS := Some (Array (ones_times n_sensors x));
     THERMAL_NOISES := Some (converted_noises n_sensors (THERMAL_NOISES cs)) |}.

End SensorDegradation.

(** ** Quantities named in the statements *)

(** The seed that [get_mcx_config] puts in the configuration *)
Definition configured_seed (self : MCXAdapter.instance) : option pyval :=
  match MCXAdapter.component_settings self !! Tags.MCX_SEED with
  | Some seed => Some seed
  | None => MCXAdapter.global_settings self !! Tags.RANDOM_SEED
  end.

(** The message of [assert_array_well_defined] for a failed check *)
Definition array_error_message (caller : FrameInfo) (error_message : string)
    (array_name : option string) : string :=
  "The given array contained values that were " +:+ error_message
  +:+ ". Info:  " +:+ nl +:+ tab +:+ "Array Name: "
  +:+ default "'Not specified'" array_name
  +:+ " " +:+ nl +:+ tab +:+ "Caller: " +:+ frame_filename caller
  +:+ " " +:+ nl +:+ tab +:+ "line: " +:+ frame_lineno caller
  +:+ " " +:+ nl +:+ tab +:+ "code: " +:+ frame_code_context caller +:+ ".".

(** The events that write to the output file *)
Definition is_save (ev : event) : bool :=
  match ev with
  | EvSaveHdf5 _ _ _ _ _ => true
  | _ => false
  end.

(** The ValueError of two operands that do not broadcast *)
Definition broadcast_error : exn :=
  ValueError "operands could not be broadcast together".

(** * Properties *)

(** Closed decidable statements (equalities of numbers, arrays, results)
    are settled by evaluating their decision procedure. *)
Ltac by_evaluation := apply (bool_decide_unpack _); vm_compute; exact I.

(** ** Lists *)

Lemma zip_with_fmap_diag {A B C D} (f : B -> C -> D) (g : A -> B) (h : A -> C)
    (l : list A) :
  zip_with f (g <$> l) (h <$> l) = (fun x => f (g x) (h x)) <$> l.
Proof. induction l as [|x l IH]; [done|]. cbn. by f_equal. Qed.

(** ** Scalars *)

Lemma Qc_half_unfold : Q2Qc 0.5 = (1 / 2)%Qc.
Proof. by apply Qc_is_canon. Qed.

Lemma F64_finite_div (a s : Qc) :
  s ≠ 0%Qc -> F64.div (Fin a) (Fin s) = Fin (a / s)%Qc.
Proof. intros Hs. unfold F64.div. by destruct (decide (s = 0%Qc)). Qed.

Lemma F64_isfinite_spec (x : f64) :
  F64.isfinite x = false <-> x = NaN \/ x = PInf \/ x = NInf.
Proof.
  destruct x; simpl; split; try tauto; try discriminate.
  intros [H|[H|H]]; discriminate.
Qed.

Lemma F64_div_zero_not_finite (x : f64) :
  F64.isfinite (F64.div x F64.zero) = false.
Proof.
  destruct x as [a| | |]; try reflexivity.
  unfold F64.div, F64.zero, F64.of_Z.
  destruct (decide (Q2Qc (inject_Z 0) = 0%Qc)) as [_|Hne].
  - by destruct (a ?= 0)%Qc.
  - destruct Hne. by apply Qc_is_canon.
Qed.

Lemma F64_add_not_finite (x y : f64) :
  F64.isfinite x = false -> F64.isfinite (F64.add x y) = false.
Proof. destruct x, y; simpl; congruence. Qed.

(** Strict monotonicity of [p / s + c] in [p], for a positive finite [s]
    and a finite [c]. *)
Lemma F64_affine_lt (s c : Qc) (x y : f64) :
  (0 < s)%Qc -> F64.lt x y ->
  F64.lt (F64.add (F64.div x (Fin s)) (Fin c))
         (F64.add (F64.div y (Fin s)) (Fin c)).
Proof.
  intros Hs Hxy.
  assert (Hs0 : s ≠ 0%Qc) by (intros ->; by apply (irreflexivity Qclt 0%Qc)).
  assert (Hneg : ¬ (s < 0)%Qc) by (apply Qcle_ngt; by apply Qclt_le_weak).
  unfold F64.lt in *.
  destruct x as [a| | |], y as [b| | |]; simpl in Hxy; try discriminate;
    rewrite ?F64_finite_div by done; simpl;
    repeat (destruct (decide _); try done); simpl; try done.
  apply bool_decide_eq_true in Hxy. apply bool_decide_eq_true.
  apply Qcplus_lt_mono_r. unfold Qcdiv.
  apply Qcmult_lt_mono_pos_r; [by apply Qcinv_pos | done].
Qed.

(** ** Rounding to binary64 *)

(** A comparison of two rationals, as the order it decides *)
Ltac compared H :=
  first [apply Qeq_alt in H | apply Qlt_alt in H | apply Qgt_alt in H].

Lemma rne_bounds (q : Q) : Qfloor q <= F64.rne q <= Qfloor q + 1.
Proof.
  unfold F64.rne. destruct (_ ?= _)%Q; [destruct (Z.even _)|..]; lia.
Qed.

Lemma rne_lower (k : Z) (q : Q) : (inject_Z k <= q)%Q -> k <= F64.rne q.
Proof.
  intros H. apply Qfloor_resp_le in H. rewrite Qfloor_Z in H.
  pose proof (rne_bounds q). lia.
Qed.

Lemma rne_upper (k : Z) (q : Q) : (q <= inject_Z k)%Q -> F64.rne q <= k.
Proof.
  intros H. pose proof (Qfloor_le q) as Hf.
  assert (Hk : Qfloor q <= k).
  { rewrite Zle_Qle. by eapply Qle_trans. }
  unfold F64.rne.
  destruct (q - inject_Z (Qfloor q) ?= 1 # 2)%Q eqn:Hc; [|done|];
    compared Hc.
  - destruct (Z.even _); [done|].
    assert (Hlt : (inject_Z (Qfloor q) < inject_Z k)%Q) by lra.
    rewrite <- Zlt_Qlt in Hlt. lia.
  - assert (Hlt : (inject_Z (Qfloor q) < inject_Z k)%Q) by lra.
    rewrite <- Zlt_Qlt in Hlt. lia.
Qed.

Lemma rne_mono (a b : Q) : (a <= b)%Q -> F64.rne a <= F64.rne b.
Proof.
  intros Hab. pose proof (Qfloor_resp_le _ _ Hab) as Hfloor.
  destruct (Z.eq_dec (Qfloor a) (Qfloor b)) as [Heq|Hne].
  - unfold F64.rne. rewrite Heq.
    destruct (a - inject_Z (Qfloor b) ?= 1 # 2)%Q eqn:Ha,
             (b - inject_Z (Qfloor b) ?= 1 # 2)%Q eqn:Hb;
      compared Ha; compared Hb; try lra; try lia;
      destruct (Z.even (Qfloor b)); lia.
  - pose proof (rne_bounds a). pose proof (rne_bounds b). lia.
Qed.

Lemma pow2_pos (e : Z) : (0 < 2 ^ e)%Q.
Proof. by apply Qpower_0_lt. Qed.

Lemma pow2_le (a b : Z) : a <= b -> (2 ^ a <= 2 ^ b)%Q.
Proof. intros H. by apply Qpower_le_compat_l. Qed.

Lemma pow2_plus (a b : Z) : (2 ^ (a + b) == 2 ^ a * 2 ^ b)%Q.
Proof. by apply Qpower_plus. Qed.

Lemma pow2_inject (a : Z) : 0 <= a -> (inject_Z (2 ^ a) == 2 ^ a)%Q.
Proof. intros H. by rewrite Zpower_Qpower. Qed.

Lemma log2_bounds (n : Z) :
  0 < n ->
  (2 ^ Z.log2 n <= inject_Z n)%Q /\ (inject_Z n < 2 ^ (Z.log2 n + 1))%Q.
Proof.
  intros Hn. pose proof (Z.log2_spec n Hn) as [Hlo Hhi].
  pose proof (Z.log2_nonneg n).
  rewrite <- !pow2_inject by lia. split.
  - by rewrite <- Zle_Qle.
  - rewrite <- Zlt_Qlt. by rewrite <- Z.add_1_r in Hhi.
Qed.

(** The magnitude of a positive number is the exponent of its binade. *)
Lemma magnitude_spec (q : Q) :
  (0 < q)%Q ->
  (2 ^ F64.magnitude q <= q)%Q /\ (q < 2 ^ (F64.magnitude q + 1))%Q.
Proof.
  intros Hq. destruct q as [n d].
  assert (Hn : 0 < n) by (unfold Qlt in Hq; cbn in Hq; lia).
  destruct (log2_bounds n Hn) as [Hn1 Hn2].
  destruct (log2_bounds (Z.pos d) ltac:(lia)) as [Hd1 Hd2].
  unfold F64.magnitude. cbn [Qnum Qden].
  set (a := Z.log2 n) in *. set (b := Z.log2 (Z.pos d)) in *.
  assert (Hdpos : (0 < inject_Z (Z.pos d))%Q).
  { change 0%Q with (inject_Z 0). rewrite <- Zlt_Qlt. lia. }
  assert (Hq' : (n # d == inject_Z n / inject_Z (Z.pos d))%Q)
    by apply Qmake_Qdiv.
  assert (Hupper : (n # d < 2 ^ (a - b + 1))%Q).
  { rewrite Hq'. apply Qlt_shift_div_r; [done|].
    eapply Qlt_le_trans; [exact Hn2|].
    replace (a + 1) with ((a - b + 1) + b) by lia.
    rewrite pow2_plus. apply Qmult_le_l; [apply pow2_pos|done]. }
  assert (Hlower : (2 ^ (a - b - 1) < n # d)%Q).
  { rewrite Hq'. apply Qlt_shift_div_l; [done|].
    eapply Qlt_le_trans; [|exact Hn1].
    replace a with ((a - b - 1) + (b + 1)) at 2 by lia.
    rewrite pow2_plus. apply Qmult_lt_l; [apply pow2_pos|done]. }
  destruct (Qle_bool (2 ^ (a - b)) (n # d)) eqn:Hle.
  - apply Qle_bool_iff in Hle. by split.
  - assert (Hlt : (n # d < 2 ^ (a - b))%Q).
    { apply Qnot_le_lt. intros H%Qle_bool_iff. congruence. }
    split; [by apply Qlt_le_weak|].
    by replace (a - b - 1 + 1) with (a - b) by lia.
Qed.

Lemma magnitude_mono (x y : Q) :
  (0 < x)%Q -> (x <= y)%Q -> F64.magnitude x <= F64.magnitude y.
Proof.
  intros Hx Hxy. assert (Hy : (0 < y)%Q) by lra.
  destruct (magnitude_spec x Hx) as [Hx1 _].
  destruct (magnitude_spec y Hy) as [_ Hy2].
  destruct (Z_le_gt_dec (F64.magnitude x) (F64.magnitude y)) as [|Hgt];
    [done|].
  pose proof (pow2_le (F64.magnitude y + 1) (F64.magnitude x) ltac:(lia)).
  lra.
Qed.

Lemma round_positive_nonneg (q : Q) :
  (0 < q)%Q -> (0 <= F64.round_positive q)%Q.
Proof.
  intros Hq. unfold F64.round_positive.
  apply Qmult_le_0_compat; [|apply Qlt_le_weak, pow2_pos].
  change 0%Q with (inject_Z 0). rewrite <- Zle_Qle.
  apply rne_lower. apply Qle_shift_div_l; [apply pow2_pos|].
  change (inject_Z 0) with 0%Q. rewrite Qmult_0_l. by apply Qlt_le_weak.
Qed.

Lemma round_positive_mono (x y : Q) :
  (0 < x)%Q -> (x <= y)%Q ->
  (F64.round_positive x <= F64.round_positive y)%Q.
Proof.
  intros Hx Hxy. assert (Hy : (0 < y)%Q) by lra.
  pose proof (magnitude_mono x y Hx Hxy) as Hmag.
  destruct (magnitude_spec x Hx) as [_ Hx2].
  destruct (magnitude_spec y Hy) as [Hy1 _].
  unfold F64.round_positive, F64.ulp_exponent.
  set (ex := Z.max (-1074) (F64.magnitude x - 52)).
  set (ey := Z.max (-1074) (F64.magnitude y - 52)).
  assert (Hexy : ex <= ey) by lia.
  destruct (Z.eq_dec ex ey) as [Heq|Hne].
  - rewrite <- Heq. apply Qmult_le_r; [apply pow2_pos|].
    rewrite <- Zle_Qle. apply rne_mono.
    apply Qmult_le_r; [apply Qinv_lt_0_compat, pow2_pos|done].
  - assert (Hey : ey = F64.magnitude y - 52) by lia.
    apply Qle_trans with (2 ^ (53 + ex))%Q.
    + rewrite pow2_plus. apply Qmult_le_r; [apply pow2_pos|].
      rewrite <- (pow2_inject 53) by lia. rewrite <- Zle_Qle.
      apply rne_upper. apply Qle_shift_div_r; [apply pow2_pos|].
      rewrite (pow2_inject 53) by lia. rewrite <- pow2_plus.
      apply Qlt_le_weak. eapply Qlt_le_trans; [exact Hx2|].
      apply pow2_le. lia.
    + apply Qle_trans with (2 ^ (52 + ey))%Q; [apply pow2_le; lia|].
      rewrite pow2_plus. apply Qmult_le_r; [apply pow2_pos|].
      rewrite <- (pow2_inject 52) by lia. rewrite <- Zle_Qle.
      apply rne_lower. apply Qle_shift_div_l; [apply pow2_pos|].
      rewrite (pow2_inject 52) by lia. rewrite <- pow2_plus.
      eapply Qle_trans; [|exact Hy1]. apply pow2_le. lia.
Qed.

(** Rounding to nearest does not reverse the order. *)
Lemma round_Q_mono (x y : Q) :
  (x <= y)%Q -> (F64.round_Q x <= F64.round_Q y)%Q.
Proof.
  intros Hxy. unfold F64.round_Q.
  destruct (x ?= 0)%Q eqn:Hx, (y ?= 0)%Q eqn:Hy;
    compared Hx; compared Hy; try lra.
  - by apply round_positive_nonneg.
  - assert (Hx' : (0 < - x)%Q) by lra.
    pose proof (round_positive_nonneg (- x) Hx'). lra.
  - apply Qopp_le_compat. apply round_positive_mono; lra.
  - assert (Hx' : (0 < - x)%Q) by lra.
    pose proof (round_positive_nonneg (- x) Hx').
    pose proof (round_positive_nonneg y Hy). lra.
  - by apply round_positive_mono.
Qed.

Lemma binary64_mono (x y : Qc) :
  (x <= y)%Qc -> F64.le (F64.binary64 x) (F64.binary64 y).
Proof.
  intros Hxy. pose proof (round_Q_mono x y Hxy) as Hr.
  unfold F64.le, F64.binary64.
  destruct (Qle_bool (2 ^ 1024) (F64.round_Q x)) eqn:Hx1,
           (Qle_bool (2 ^ 1024) (F64.round_Q y)) eqn:Hy1; try done.
  - apply Qle_bool_iff in Hx1.
    assert (Hy : Qle_bool (2 ^ 1024) (F64.round_Q y) = true).
    { apply Qle_bool_iff. by eapply Qle_trans. }
    congruence.
  - by destruct (Qle_bool (F64.round_Q x) (- 2 ^ 1024)).
  - destruct (Qle_bool (F64.round_Q x) (- 2 ^ 1024)) eqn:Hx2,
             (Qle_bool (F64.round_Q y) (- 2 ^ 1024)) eqn:Hy2; try done.
    + apply Qle_bool_iff in Hy2.
      assert (Hx : Qle_bool (F64.round_Q x) (- 2 ^ 1024) = true).
      { apply Qle_bool_iff. by eapply Qle_trans. }
      congruence.
    + cbn [F64.leb]. apply bool_decide_eq_true.
      unfold Qcle. cbn [this Q2Qc]. by rewrite !Qred_correct.
Qed.

Lemma F64_round_mono (x y : f64) :
  F64.le x y -> F64.le (F64.round x) (F64.round y).
Proof.
  unfold F64.le. destruct x as [a| | |], y as [b| | |]; cbn [F64.leb F64.round];
    try done.
  - intros H%bool_decide_eq_true. by apply binary64_mono.
  - intros _. unfold F64.binary64.
    by repeat destruct (Qle_bool _ _).
  - intros _. unfold F64.binary64.
    by repeat destruct (Qle_bool _ _).
Qed.


Lemma F64_div_positive_mono (s : Qc) (x y : f64) :
  (0 < s)%Qc -> F64.le x y ->
  F64.le (F64.div x (Fin s)) (F64.div y (Fin s)).
Proof.
  intros Hs. assert (Hs0 : s ≠ 0%Qc).
  { intros ->. by apply (Qclt_not_eq _ _ Hs). }
  assert (Hneg : ¬ (s < 0)%Qc) by (apply Qcle_not_lt; by apply Qclt_le_weak).
  unfold F64.le.
  destruct x as [a| | |], y as [b| | |]; cbn [F64.leb F64.div]; try done;
    repeat (destruct (decide _); try done).
  intros Hab%bool_decide_eq_true. cbn [F64.leb]. apply bool_decide_eq_true.
  unfold Qcdiv. apply Qcmult_le_compat_r; [done|].
  apply Qclt_le_weak. by apply Qcinv_pos.
Qed.

Lemma F64_add_finite_mono (c : Qc) (x y : f64) :
  F64.le x y -> F64.le (F64.add x (Fin c)) (F64.add y (Fin c)).
Proof.
  unfold F64.le.
  destruct x as [a| | |], y as [b| | |]; cbn [F64.leb F64.add]; try done.
  intros Hab%bool_decide_eq_true. apply bool_decide_eq_true.
  by apply Qcplus_le_compat; [|apply Qcle_refl].
Qed.

(** [p / s + c] with both operations rounded does not decrease when [p]
    grows, for a positive finite [s] and a finite [c]. *)
Lemma F64_affine64_le (s c : Qc) (x y : f64) :
  (0 < s)%Qc -> F64.le x y ->
  F64.le (F64.add64 (F64.div64 x (Fin s)) (Fin c))
         (F64.add64 (F64.div64 y (Fin s)) (Fin c)).
Proof.
  intros Hs Hxy. unfold F64.add64, F64.div64.
  by apply F64_round_mono, F64_add_finite_mono, F64_round_mono,
    F64_div_positive_mono.
Qed.







(** The rounding on some numbers: 0.1 becomes 3602879701896397 / 2^55; the
    largest binary64 number is kept and the midpoint above it overflows;
    half the smallest subnormal is a tie and goes to zero, anything above
    it to the smallest subnormal. *)
Lemma binary64_examples :
  F64.binary64 (Q2Qc 0.1) = Fin (Q2Qc (3602879701896397 # 36028797018963968))
  /\ F64.binary64 (Q2Qc (2 ^ 1024 - 2 ^ 971)) = Fin (Q2Qc (2 ^ 1024 - 2 ^ 971))
  /\ F64.binary64 (Q2Qc (2 ^ 1024 - 2 ^ 970)) = PInf
  /\ F64.binary64 (Q2Qc (- (2 ^ 1024 - 2 ^ 970))) = NInf
  /\ F64.binary64 (Q2Qc (2 ^ (-1075))) = Fin 0
  /\ F64.binary64 (Q2Qc (3 * 2 ^ (-1076))) = Fin (Q2Qc (2 ^ (-1074))).
Proof. repeat split; by_evaluation. Qed.

(** ** pencil_beam_illumination.py *)

Lemma pencil_definition_unfold (gs : gmap string pyval) (ps : list f64)
    (v : pyval) (s : f64) :
  gs !! Tags.SPACING_MM = Some v -> Py.as_number v = Ok s ->
  PencilBeamIlluminationGeometry.get_mcx_illuminator_definition gs ps =
  Ok {| src_Type := Tags.ILLUMINATION_TYPE_PENCILARRAY;
        src_Pos := (fun p => F64.add (F64.div p s) (F64.of_Q 0.5)) <$> ps;
        src_Dir := [0; 0; 1];
        src_Param1 := [0; 0; 0; 0];
        src_Param2 := [0; 0; 0; 0] |}.
Proof.
  intros Hv Hs.
  unfold PencilBeamIlluminationGeometry.get_mcx_illuminator_definition, Py.getitem.
  rewrite Hv. simpl. by rewrite Hs.
Qed.

Lemma pencil_position_finite (s : Qc) (qs : list Qc) :
  s ≠ 0%Qc ->
  (fun p => F64.add (F64.div p (Fin s)) (F64.of_Q 0.5)) <$> (Fin <$> qs)
  = (fun p => Fin (p / s + 1 / 2)%Qc) <$> qs.
Proof.
  intros Hs. rewrite <- list_fmap_compose.
  apply list_fmap_ext. intros _ p _. cbv [compose].
  rewrite F64_finite_div by done.
  unfold F64.of_Q. simpl. by rewrite Qc_half_unfold.
Qed.

(** C1, as stated, fails: with a voxel spacing of zero the converter raises
    nothing and returns the coordinates +inf, NaN and -inf. *)
Lemma C1_zero_spacing_returns_nonfinite :
  PencilBeamIlluminationGeometry.get_mcx_illuminator_definition
    {[ Tags.SPACING_MM := PyFloat (F64.of_Z 0) ]}
    [F64.of_Z 1; F64.of_Z 0; F64.of_Z (-1)]
  = Ok {| src_Type := Tags.ILLUMINATION_TYPE_PENCILARRAY;
          src_Pos := [PInf; NaN; NInf];
          src_Dir := [0; 0; 1];
          src_Param1 := [0; 0; 0; 0];
          src_Param2 := [0; 0; 0; 0] |}.
Proof. reflexivity. Qed.

(** C1 (amended): the converter does not validate the voxel spacing.  For
    every probe position and every spacing found in the settings, positive
    or not, it returns a source definition whose position is p/s + 0.5
    elementwise; with a spacing of zero every coordinate is infinite or NaN,
    and with a negative spacing a finite position gives the finite
    coordinates p/s + 1/2. *)
Theorem C1_spacing_not_validated (gs : gmap string pyval) (ps : list f64)
    (v : pyval) (s : f64) :
  gs !! Tags.SPACING_MM = Some v -> Py.as_number v = Ok s ->
  exists d,
    PencilBeamIlluminationGeometry.get_mcx_illuminator_definition gs ps = Ok d
    /\ src_Pos d = (fun p => F64.add (F64.div p s) (F64.of_Q 0.5)) <$> ps
    /\ (s = F64.zero -> Forall (fun x => F64.isfinite x = false) (src_Pos d))
    /\ (forall q qs, s = Fin q -> (q < 0)%Qc -> ps = Fin <$> qs ->
        src_Pos d = (fun p => Fin (p / q + 1 / 2)%Qc) <$> qs).
Proof.
  intros Hv Hs. eexists. split; [by eapply pencil_definition_unfold|].
  simpl. split; [done|]. split.
  - intros ->. apply Forall_fmap, Forall_true. intros p. simpl.
    apply F64_add_not_finite, F64_div_zero_not_finite.
  - intros q qs -> Hq ->. apply pencil_position_finite.
    intros ->. by apply (irreflexivity Qclt 0%Qc).
Qed.

Lemma C1_spacing_not_validated_witness :
  exists d,
    PencilBeamIlluminationGeometry.get_mcx_illuminator_definition
      {[ Tags.SPACING_MM := PyFloat (F64.of_Z (-2)) ]} [F64.of_Z 3] = Ok d
    /\ src_Pos d = [F64.of_Z (-1)].
Proof.
  assert (Hv : ({[ Tags.SPACING_MM := PyFloat (F64.of_Z (-2)) ]}
                 : gmap string pyval) !! Tags.SPACING_MM
               = Some (PyFloat (F64.of_Z (-2)))) by (vm_compute; reflexivity).
  destruct (C1_spacing_not_validated _ [F64.of_Z 3] _ _ Hv eq_refl)
    as (d & Hd & Hpos & _).
  exists d. split; [exact Hd|]. rewrite Hpos.
  by_evaluation.
Defined.

Lemma pencil_definition_binary64_unfold (gs : gmap string pyval)
    (ps : list f64) (v : pyval) (s : f64) :
  gs !! Tags.SPACING_MM = Some v -> Py.as_number v = Ok s ->
  PencilBeamIlluminationGeometry.get_mcx_illuminator_definition_binary64 gs ps =
  Ok {| src_Type := Tags.ILLUMINATION_TYPE_PENCILARRAY;
        src_Pos := (fun p => F64.add64 (F64.div64 p s) (F64.of_Q 0.5)) <$> ps;
        src_Dir := [0; 0; 1];
        src_Param1 := [0; 0; 0; 0];
        src_Param2 := [0; 0; 0; 0] |}.
Proof.
  intros Hv Hs.
  unfold PencilBeamIlluminationGeometry.get_mcx_illuminator_definition_binary64,
    Py.getitem.
  rewrite Hv. simpl. by rewrite Hs.
Qed.

(** C5, as stated, fails: the probe positions 1.0 and 1.0000000000000002
    differ, and at a spacing of 2.0 both are converted to the voxel
    position 1.0.  The quotients 0.5 and 0.5000000000000001 differ; the sum
    of the second and 0.5 lies halfway between two binary64 numbers and is
    rounded to 1.0. *)
Lemma C5_distinct_positions_one_voxel :
  F64.lt (F64.of_Z 1) (F64.binary64 (Q2Qc 1.0000000000000002))
  /\ F64.lt (F64.div64 (F64.of_Z 1) (F64.of_Z 2))
            (F64.div64 (F64.binary64 (Q2Qc 1.0000000000000002)) (F64.of_Z 2))
  /\ PencilBeamIlluminationGeometry.get_mcx_illuminator_definition_binary64
       {[ Tags.SPACING_MM := PyFloat (F64.of_Z 2) ]}
       [F64.of_Z 1; F64.binary64 (Q2Qc 1.0000000000000002)]
     = Ok {| src_Type := Tags.ILLUMINATION_TYPE_PENCILARRAY;
             src_Pos := [F64.of_Z 1; F64.of_Z 1];
             src_Dir := [0; 0; 1];
             src_Param1 := [0; 0; 0; 0];
             src_Param2 := [0; 0; 0; 0] |}.
Proof.
  split; [vm_compute; reflexivity|].
  split; [vm_compute; reflexivity|].
  by_evaluation.
Qed.

(** C5 (amended): for every probe position and every positive voxel
    spacing s the converter returns, coordinate by coordinate, p/s + 0.5 as
    binary64 computes it (the quotient rounded, then the sum rounded); the
    direction is the constant [0, 0, 1] and both parameter vectors are all
    zeros.  For the fixed s the position does not decrease when a
    coordinate of p grows; it need not increase.  Strictly increasing is
    the exact value p/s + 1/2, before the rounding. *)
Theorem C5_pencil_source_definition (gs : gmap string pyval) (v : pyval)
    (s : Qc) (ps : list f64) :
  gs !! Tags.SPACING_MM = Some v -> Py.as_number v = Ok (Fin s) -> (0 < s)%Qc ->
  exists d,
    PencilBeamIlluminationGeometry.get_mcx_illuminator_definition_binary64 gs ps
    = Ok d
    /\ src_Pos d
       = (fun p => F64.add64 (F64.div64 p (Fin s)) (F64.of_Q 0.5)) <$> ps
    /\ (forall qs, ps = Fin <$> qs ->
        src_Pos d
        = (fun p => F64.round (F64.add (F64.binary64 (p / s)) (F64.of_Q 0.5)))
            <$> qs)
    /\ src_Dir d = [0; 0; 1]
    /\ src_Param1 d = [0; 0; 0; 0]
    /\ src_Param2 d = [0; 0; 0; 0]
    /\ (forall ps' d' i x y,
        PencilBeamIlluminationGeometry.get_mcx_illuminator_definition_binary64
          gs ps' = Ok d' ->
        ps !! i = Some x -> ps' !! i = Some y -> F64.le x y ->
        exists u w,
          src_Pos d !! i = Some u /\ src_Pos d' !! i = Some w /\ F64.le u w)
    /\ (forall x y : Qc, (x < y)%Qc -> (x / s + 1 / 2 < y / s + 1 / 2)%Qc).
Proof.
  intros Hv Hs Hpos.
  assert (Hs0 : s ≠ 0%Qc) by (intros ->; by apply (irreflexivity Qclt 0%Qc)).
  eexists. split; [by eapply pencil_definition_binary64_unfold|]. simpl.
  repeat split; try done.
  - intros qs ->. rewrite <- list_fmap_compose.
    apply list_fmap_ext. intros _ p _. cbv [compose].
    unfold F64.add64, F64.div64. by rewrite F64_finite_div.
  - intros ps' d' i x y Hd' Hx Hy Hle.
    rewrite (pencil_definition_binary64_unfold gs ps' v (Fin s) Hv Hs) in Hd'.
    injection Hd' as <-. cbn [src_Pos].
    rewrite !list_lookup_fmap, Hx, Hy. eexists _, _.
    split; [reflexivity|]. split; [reflexivity|].
    unfold F64.of_Q. by apply F64_affine64_le.
  - intros x y Hxy. apply Qcplus_lt_mono_r. unfold Qcdiv.
    apply Qcmult_lt_mono_pos_r; [by apply Qcinv_pos | done].
Qed.

Lemma C5_pencil_source_definition_witness :
  exists d,
    PencilBeamIlluminationGeometry.get_mcx_illuminator_definition_binary64
      {[ Tags.SPACING_MM := PyFloat (F64.of_Q 0.5) ]}
      [F64.of_Z 1; F64.of_Z 2; F64.of_Q 0.25] = Ok d
    /\ src_Pos d = [F64.of_Q 2.5; F64.of_Q 4.5; F64.of_Z 1]
    /\ src_Dir d = [0; 0; 1]
    /\ src_Param1 d = [0; 0; 0; 0]
    /\ src_Param2 d = [0; 0; 0; 0].
Proof.
  assert (Hv : ({[ Tags.SPACING_MM := PyFloat (F64.of_Q 0.5) ]}
                 : gmap string pyval) !! Tags.SPACING_MM
               = Some (PyFloat (F64.of_Q 0.5))) by (vm_compute; reflexivity).
  assert (Hpos : (0 < Q2Qc 0.5)%Qc) by (vm_compute; reflexivity).
  destruct (C5_pencil_source_definition _ _ _
              [F64.of_Z 1; F64.of_Z 2; F64.of_Q 0.25] Hv eq_refl Hpos)
    as (d & Hd & Hp & _ & Hdir & Hp1 & Hp2 & _).
  exists d. split; [exact Hd|]. split; [|done].
  rewrite Hp. by_evaluation.
Defined.

(** ** optical_forward_model_mcx_adapter.py: unit conversion *)

Lemma Qc_ten_nonzero : Q2Qc (inject_Z 10) ≠ 0%Qc.
Proof. intros H. by apply (f_equal this) in H. Qed.

Lemma F64_div_ten (q : Qc) :
  F64.div (Fin q) (F64.of_Z 10) = Fin (q / Q2Qc (inject_Z 10))%Qc.
Proof. apply F64_finite_div, Qc_ten_nonzero. Qed.

(** Multiplying by ten and dividing by ten again gives the value back, also
    for the special values. *)
Lemma F64_times_ten_div_ten (x : f64) :
  F64.div (F64.mul x (F64.of_Z 10)) (F64.of_Z 10) = x.
Proof.
  destruct x as [q| | |]; try reflexivity.
  unfold F64.of_Z. simpl F64.mul.
  rewrite F64_finite_div by apply Qc_ten_nonzero.
  f_equal. apply Qcdiv_mult_l, Qc_ten_nonzero.
Qed.

Lemma to_mm_to_cm (x : ndarray) :
  np.div_scalar (to_cm x) (F64.of_Z 10) = x.
Proof.
  destruct x as [sh d]. unfold to_cm, np.div_scalar, np.mul_scalar. simpl.
  f_equal. rewrite <- list_fmap_compose.
  rewrite <- (list_fmap_id d) at 2.
  apply list_fmap_ext. intros _ x _. apply F64_times_ten_div_ten.
Qed.

(** C7: [volumes_to_mm] divides every element of the absorption and of the
    scattering array by 10 (the shapes and the two other arrays are left as
    they are), and converting back and forth, to_mm(to_cm(x)) with
    to_cm(x) = x*10, returns x: in the exact arithmetic of this model the
    round trip is an equality, hence within every tolerance. *)
Theorem C7_volumes_to_mm_divides_by_ten (kwargs : gmap string ndarray)
    (absorption_cm scattering_cm : ndarray) :
  kwargs !! "absorption_cm" = Some absorption_cm ->
  kwargs !! "scattering_cm" = Some scattering_cm ->
  exists absorption_mm scattering_mm,
    MCXAdapter.volumes_to_mm kwargs
    = Ok (absorption_mm, scattering_mm,
          kwargs !! "anisotropy", kwargs !! "refractive_index")
    /\ shape absorption_mm = shape absorption_cm
    /\ shape scattering_mm = shape scattering_cm
    /\ data absorption_mm
       = (fun x => F64.div x (F64.of_Z 10)) <$> data absorption_cm
    /\ data scattering_mm
       = (fun x => F64.div x (F64.of_Z 10)) <$> data scattering_cm
    /\ (forall i q, data absorption_cm !! i = Some (Fin q) ->
        data absorption_mm !! i = Some (Fin (q / Q2Qc (inject_Z 10))%Qc))
    /\ (forall i q, data scattering_cm !! i = Some (Fin q) ->
        data scattering_mm !! i = Some (Fin (q / Q2Qc (inject_Z 10))%Qc))
    /\ MCXAdapter.volumes_to_mm
         (<["absorption_cm" := to_cm absorption_cm]>
          (<["scattering_cm" := to_cm scattering_cm]> kwargs))
       = Ok (absorption_cm, scattering_cm,
             kwargs !! "anisotropy", kwargs !! "refractive_index").
Proof.
  intros Ha Hs.
  exists (np.div_scalar absorption_cm (F64.of_Z 10)),
         (np.div_scalar scattering_cm (F64.of_Z 10)).
  split; [unfold MCXAdapter.volumes_to_mm; by rewrite Ha, Hs|].
  repeat split; try done.
  - intros i q Hi. unfold np.div_scalar. cbn [data].
    rewrite list_lookup_fmap, Hi. cbn [fmap option_fmap option_map].
    by rewrite F64_div_ten.
  - intros i q Hi. unfold np.div_scalar. cbn [data].
    rewrite list_lookup_fmap, Hi. cbn [fmap option_fmap option_map].
    by rewrite F64_div_ten.
  - unfold MCXAdapter.volumes_to_mm.
    rewrite lookup_insert_eq.
    rewrite lookup_insert_ne by done. rewrite lookup_insert_eq.
    rewrite !lookup_insert_ne by done.
    by rewrite !to_mm_to_cm.
Qed.

Lemma C7_volumes_to_mm_divides_by_ten_witness :
  exists absorption_mm scattering_mm,
    MCXAdapter.volumes_to_mm
      (<["absorption_cm" := mk_ndarray [2%nat] [F64.of_Z 1; F64.of_Z 25]]>
       {["scattering_cm" := mk_ndarray [2%nat] [F64.of_Z 100; PInf]]})
    = Ok (absorption_mm, scattering_mm, None, None)
    /\ data absorption_mm = [F64.of_Q 0.1; F64.of_Q 2.5]
    /\ data scattering_mm = [F64.of_Z 10; PInf].
Proof.
  destruct (C7_volumes_to_mm_divides_by_ten
              (<["absorption_cm" := mk_ndarray [2%nat] [F64.of_Z 1; F64.of_Z 25]]>
               {["scattering_cm" := mk_ndarray [2%nat] [F64.of_Z 100; PInf]]})
              (mk_ndarray [2%nat] [F64.of_Z 1; F64.of_Z 25])
              (mk_ndarray [2%nat] [F64.of_Z 100; PInf]))
    as (a & s & Hcall & _ & _ & Ha & Hs & _).
  - vm_compute; reflexivity.
  - vm_compute; reflexivity.
  - exists a, s. split; [exact Hcall|].
    rewrite Ha, Hs. split; by_evaluation.
Defined.

(** ** optical_forward_model_mcx_adapter.py: the engine's results *)

(** C6: [parse_pmcx_results] multiplies every element of the raw
    four-dimensional flux by the fixed factor 100 (J/mm^2 to J/cm^2) and
    then drops the temporal axis exactly when it has one frame: a flux of
    shape (a,b,c,1) gives a fluence of shape (a,b,c), as (4,4,4,1) gives
    (4,4,4), and any other number of frames, as in (4,4,4,3), keeps the
    shape. *)
Theorem C6_parse_pmcx_results_shape (pmcx_results : gmap string ndarray)
    (flux : ndarray) (a b c t : nat) :
  pmcx_results !! "flux" = Some flux ->
  shape flux = [a; b; c; t] ->
  exists fluence,
    MCXAdapter.parse_pmcx_results pmcx_results
    = Ok {[ Tags.DATA_FIELD_FLUENCE := fluence ]}
    /\ data fluence = (fun x => F64.mul x (F64.of_Z 100)) <$> data flux
    /\ (t = 1%nat -> shape fluence = [a; b; c])
    /\ (t ≠ 1%nat -> shape fluence = [a; b; c; t])
    /\ ([a; b; c; t] = [4; 4; 4; 1]%nat -> shape fluence = [4; 4; 4]%nat)
    /\ ([a; b; c; t] = [4; 4; 4; 3]%nat -> shape fluence = [4; 4; 4; 3]%nat).
Proof.
  intros Hflux Hshape.
  unfold MCXAdapter.parse_pmcx_results, Py.getitem. rewrite Hflux.
  unfold np.shape_at, np.squeeze, np.mul_scalar. cbn [rbind shape].
  rewrite Hshape. cbn [lookup list_lookup rbind].
  destruct (decide (t = 1%nat)) as [->|Ht].
  - cbn. eexists. split; [reflexivity|]. cbn.
    repeat split; try done; intros [=]; by subst.
  - cbn. eexists. split; [reflexivity|]. cbn.
    repeat split; try done; intros [=]; by subst.
Qed.

Lemma C6_parse_pmcx_results_shape_witness :
  exists fluence,
    MCXAdapter.parse_pmcx_results
      {[ "flux" := mk_ndarray [4; 4; 4; 1]%nat (replicate 64 (F64.of_Q 0.25)) ]}
    = Ok {[ Tags.DATA_FIELD_FLUENCE := fluence ]}
    /\ shape fluence = [4; 4; 4]%nat
    /\ data fluence = replicate 64 (F64.of_Z 25).
Proof.
  destruct (C6_parse_pmcx_results_shape
              {[ "flux" := mk_ndarray [4; 4; 4; 1]%nat (replicate 64 (F64.of_Q 0.25)) ]}
              (mk_ndarray [4; 4; 4; 1]%nat (replicate 64 (F64.of_Q 0.25)))
              4 4 4 1)
    as (fl & Hcall & Hdata & Hone & _).
  - vm_compute; reflexivity.
  - reflexivity.
  - exists fl. split; [exact Hcall|]. split; [by apply Hone|].
    rewrite Hdata. by_evaluation.
Defined.

(** A flux with three frames keeps its four axes. *)
Example parse_pmcx_results_three_frames :
  MCXAdapter.parse_pmcx_results
    {[ "flux" := mk_ndarray [4; 4; 4; 3]%nat (replicate 192 (F64.of_Z 1)) ]}
  = Ok {[ Tags.DATA_FIELD_FLUENCE :=
            mk_ndarray [4; 4; 4; 3]%nat (replicate 192 (F64.of_Z 100)) ]}.
Proof. by_evaluation. Qed.

(** ** data_sanity_testing.py *)

Import data_sanity_testing.

Lemma string_append_assoc (s1 s2 s3 : string) :
  (s1 +:+ s2) +:+ s3 = s1 +:+ (s2 +:+ s3).
Proof.
  induction s1 as [|c s1 IH]; [done|].
  exact (f_equal (String c) IH).
Qed.

Lemma forallb_isfinite_false (l : list f64) :
  forallb F64.isfinite l = false
  <-> Exists (fun x => x = NaN \/ x = PInf \/ x = NInf) l.
Proof.
  induction l as [|x l IH]; simpl.
  - split; [discriminate|]. intros H. inversion H.
  - rewrite Exists_cons, andb_false_iff, IH.
    by rewrite F64_isfinite_spec.
Qed.

Lemma assert_array_well_defined_default (caller : FrameInfo)
    (array : ndarray) (array_name : option string) :
  assert_array_well_defined caller array false false array_name
  = if forallb F64.isfinite (data array) then Ok tt
    else Raise (AssertionError
           (not_finite_message caller (default "'Not specified'" array_name))).
Proof.
  unfold assert_array_well_defined, not_finite_message.
  destruct (forallb F64.isfinite (data array)); simpl; [done|].
  do 2 f_equal.
  rewrite !string_append_assoc. reflexivity.
Qed.

(** C9: with the default flags, [assert_array_well_defined] raises if and
    only if the array has an entry that is NaN, +inf or -inf; what it raises
    is an AssertionError whose message contains "Array Name: " followed by
    the array name that was supplied. *)
Theorem C9_assert_array_well_defined (caller : FrameInfo) (array : ndarray)
    (array_name : option string) :
  ((exists e, assert_array_well_defined caller array false false array_name
              = Raise e)
   <-> Exists (fun x => x = NaN \/ x = PInf \/ x = NInf) (data array))
  /\ (forall e name,
        array_name = Some name ->
        assert_array_well_defined caller array false false array_name = Raise e ->
        e = AssertionError (not_finite_message caller name)
        /\ exists before after,
             e = AssertionError
                   (before +:+ "Array Name: " +:+ name +:+ after)).
Proof.
  rewrite assert_array_well_defined_default. split.
  - rewrite <- forallb_isfinite_false.
    destruct (forallb F64.isfinite (data array)); split; try done.
    + intros [e He]. discriminate.
    + intros _. by eexists.
  - intros e name -> He.
    destruct (forallb F64.isfinite (data array)); [discriminate|].
    injection He as <-. split; [done|].
    exists ("The given array contained values that were nan, inf or -inf. Info:  "
            +:+ nl +:+ tab).
    exists (" " +:+ nl +:+ tab +:+ "Caller: " +:+ frame_filename caller
            +:+ " " +:+ nl +:+ tab +:+ "line: " +:+ frame_lineno caller
            +:+ " " +:+ nl +:+ tab +:+ "code: " +:+ frame_code_context caller
            +:+ ".").
    reflexivity.
Qed.

Lemma C9_assert_array_well_defined_witness :
  let caller := {| frame_function := "run"; frame_filename := "noise.py";
                   frame_lineno := "87";
                   frame_code_context := "assert_array_well_defined(x)" |} in
  let fluence := mk_ndarray [3%nat] [F64.of_Z 1; NaN; F64.of_Z 2] in
  exists before after,
    assert_array_well_defined caller fluence false false (Some "fluence")
    = Raise (AssertionError (before +:+ "Array Name: " +:+ "fluence" +:+ after)).
Proof.
  intros caller fluence.
  destruct (C9_assert_array_well_defined caller fluence (Some "fluence"))
    as [_ Hmsg].
  destruct (Hmsg (AssertionError (not_finite_message caller "fluence")) "fluence"
              eq_refl) as (_ & before & after & Heq).
  - vm_compute; reflexivity.
  - exists before, after. rewrite <- Heq. vm_compute; reflexivity.
Defined.

(** C10: a list of fewer than two arrays (none or one) passes
    [assert_equal_shapes] without any error, whatever the array. *)
Theorem C10_assert_equal_shapes_short_list (caller : FrameInfo)
    (numpy_arrays : list ndarray) :
  (length numpy_arrays < 2)%nat ->
  assert_equal_shapes caller numpy_arrays = Ok tt.
Proof.
  intros Hlen. unfold assert_equal_shapes.
  by destruct (decide (length numpy_arrays < 2)%nat).
Qed.

(** With two arrays the check does compare: shapes (4,4,4) and (4,4,5) are
    refused, two arrays of shape (4,4,4) pass. *)
Example assert_equal_shapes_two_arrays :
  let caller := {| frame_function := "run"; frame_filename := "adapter.py";
                   frame_lineno := "1"; frame_code_context := "" |} in
  assert_equal_shapes caller
    [constant_volume [4; 4; 4]%nat F64.one; constant_volume [4; 4; 5]%nat F64.one]
  = Raise (AssertionError
      "The given volumes did not all have the same dimensions. Please double check the simulation parameters. Called from run")
  /\ assert_equal_shapes caller
       [constant_volume [4; 4; 4]%nat F64.one; constant_volume [4; 4; 4]%nat NaN]
     = Ok tt.
Proof. split; by_evaluation. Qed.

Lemma C10_assert_equal_shapes_short_list_witness :
  let caller := {| frame_function := "run"; frame_filename := "adapter.py";
                   frame_lineno := "1"; frame_code_context := "" |} in
  assert_equal_shapes caller [] = Ok tt
  /\ assert_equal_shapes caller [mk_ndarray [4; 4; 5]%nat (replicate 80 NaN)]
     = Ok tt.
Proof.
  intros caller. split.
  - apply (C10_assert_equal_shapes_short_list caller []). simpl. lia.
  - apply (C10_assert_equal_shapes_short_list caller [_]). simpl. lia.
Defined.

(** *** The comparison of the shapes *)

Lemma this_plus (a b : Qc) : (this (a + b)%Qc == this a + this b)%Q.
Proof. apply Qred_correct. Qed.
Lemma this_opp (a : Qc) : (this (- a)%Qc == - this a)%Q.
Proof. apply Qred_correct. Qed.
Lemma this_minus (a b : Qc) : (this (a - b)%Qc == this a - this b)%Q.
Proof. unfold Qcminus. rewrite this_plus, this_opp. reflexivity. Qed.

Ltac qc_to_q :=
  unfold Qcle, Qclt in *;
  repeat match goal with
  | H : context [this (_ + _)%Qc] |- _ => setoid_rewrite this_plus in H
  | H : context [this (_ - _)%Qc] |- _ => setoid_rewrite this_minus in H
  | H : context [this (- _)%Qc] |- _ => setoid_rewrite this_opp in H
  | |- context [this (_ + _)%Qc] => setoid_rewrite this_plus
  | |- context [this (_ - _)%Qc] => setoid_rewrite this_minus
  | |- context [this (- _)%Qc] => setoid_rewrite this_opp
  end;
  change (this 0%Qc) with 0%Q in *.

Lemma qabs_nonneg (q : Qc) : (0 <= qabs q)%Qc.
Proof.
  unfold qabs. destruct (decide (q < 0)%Qc) as [H|H%Qcle_ngt]; [|done].
  qc_to_q. lra.
Qed.

Lemma qabs_triangle (a b m : Qc) :
  (qabs (a - b) <= qabs (a - m) + qabs (b - m))%Qc.
Proof.
  unfold qabs.
  repeat destruct (decide _) as [?|?%Qcle_ngt]; qc_to_q; lra.
Qed.

Lemma this_dim (n : nat) : (this (dim n) == inject_Z (Z.of_nat n))%Q.
Proof. apply Qred_correct. Qed.

Lemma dim_apart (x y : nat) : x ≠ y -> (1 <= qabs (dim x - dim y))%Qc.
Proof.
  intros Hne. unfold qabs.
  assert (Hcases : (inject_Z (Z.of_nat x) + 1 <= inject_Z (Z.of_nat y)
                   \/ inject_Z (Z.of_nat y) + 1 <= inject_Z (Z.of_nat x))%Q).
  { destruct (decide (x < y)%nat); [left|right];
      change 1%Q with (inject_Z 1); rewrite <- inject_Z_plus;
      rewrite <- Zle_Qle; lia. }
  destruct (decide _) as [H|H%Qcle_ngt]; qc_to_q;
    rewrite ?this_dim in *; change (this 1%Qc) with 1%Q; lra.
Qed.

Lemma qsum_app (l1 l2 : list Qc) : qsum (l1 ++ l2) = (qsum l1 + qsum l2)%Qc.
Proof.
  induction l1 as [|x l1 IH]; simpl.
  - by rewrite Qcplus_0_l.
  - rewrite IH. by rewrite Qcplus_assoc.
Qed.

Lemma qsum_nonneg (l : list Qc) :
  Forall (fun x => (0 <= x)%Qc) l -> (0 <= qsum l)%Qc.
Proof.
  induction 1 as [|x l Hx _ IH]; simpl; [done|].
  by apply Qcplus_nonneg_nonneg.
Qed.

Lemma qsum_abs_nonneg (l : list Qc) : (0 <= qsum (qabs <$> l))%Qc.
Proof.
  apply qsum_nonneg, Forall_fmap, Forall_true. intros x. apply qabs_nonneg.
Qed.

Lemma row_deviation_nonneg (m : list Qc) (r : list nat) :
  (0 <= row_deviation m r)%Qc.
Proof. apply qsum_abs_nonneg. Qed.

Lemma row_deviation_cons (c : Qc) (m : list Qc) (x : nat) (r : list nat) :
  row_deviation (c :: m) (x :: r)
  = (qabs (dim x - c) + row_deviation m r)%Qc.
Proof. reflexivity. Qed.

Lemma row_deviation_pair (m : list Qc) (r r' : list nat) :
  length r = length m -> length r' = length m -> r ≠ r' ->
  (1 <= row_deviation m r + row_deviation m r')%Qc.
Proof.
  revert r r'. induction m as [|c m IH]; intros [|x r] [|y r'] Hr Hr' Hne;
    simplify_eq/=.
  pose proof (row_deviation_nonneg m r) as Hnr.
  pose proof (row_deviation_nonneg m r') as Hnr'.
  rewrite !row_deviation_cons.
  destruct (decide (x = y)) as [->|Hxy].
  - assert (Hrest : r ≠ r') by congruence.
    specialize (IH r r' Hr Hr' Hrest).
    pose proof (qabs_nonneg (dim y - c)).
    qc_to_q. change (this 1%Qc) with 1%Q in *. lra.
  - pose proof (dim_apart x y Hxy) as Hap.
    pose proof (qabs_triangle (dim x) (dim y) c) as Htri.
    qc_to_q. change (this 1%Qc) with 1%Q in *. lra.
Qed.

Lemma dim_succ (n : nat) : dim (S n) = (dim n + 1)%Qc.
Proof.
  apply Qc_is_canon. rewrite this_plus, !this_dim.
  change (this 1%Qc) with (inject_Z 1). rewrite <- inject_Z_plus.
  by rewrite Nat2Z.inj_succ.
Qed.

Lemma dim_zero : dim 0 = 0%Qc.
Proof. by apply Qc_is_canon. Qed.

Lemma dim_nonzero (n : nat) : n ≠ 0%nat -> dim n ≠ 0%Qc.
Proof.
  intros Hn Hz. apply (f_equal this) in Hz.
  assert (Heq : (inject_Z (Z.of_nat n) == 0)%Q) by (by rewrite <- this_dim, Hz).
  unfold Qeq in Heq. simpl in Heq. lia.
Qed.

Lemma qcolumn_sums_equal_rows (r0 : list nat) (rows : list (list nat)) :
  Forall (fun r => r = r0) rows ->
  qcolumn_sums (length r0) ((fun r : list nat => dim <$> r) <$> rows)
  = (fun x => dim (length rows) * dim x)%Qc <$> r0.
Proof.
  induction 1 as [|r rows -> _ IH].
  - cbn. induction r0 as [|x r0 IH]; [done|]. cbn. f_equal; [|done].
    by rewrite dim_zero, Qcmult_0_l.
  - cbn [fmap list_fmap qcolumn_sums foldr length] in *.
    fold (qcolumn_sums (length r0) ((fun r : list nat => dim <$> r) <$> rows)). rewrite IH.
    rewrite zip_with_fmap_diag. apply list_fmap_ext. intros _ x _.
    rewrite dim_succ. ring.
Qed.

Lemma row_deviation_self (r : list nat) : row_deviation (dim <$> r) r = 0%Qc.
Proof.
  induction r as [|x r IH]; [done|].
  cbn [fmap list_fmap]. rewrite row_deviation_cons, IH.
  unfold qabs. destruct (decide _) as [H|_].
  - exfalso. qc_to_q. lra.
  - ring.
Qed.

Lemma mean_of_equal_rows (r0 : list nat) (rows : list (list nat)) :
  rows ≠ [] -> Forall (fun r => r = r0) rows ->
  (fun x => x / dim (length rows))%Qc
    <$> qcolumn_sums (length r0) ((fun r : list nat => dim <$> r) <$> rows)
  = dim <$> r0.
Proof.
  intros Hne Hall. rewrite qcolumn_sums_equal_rows by done.
  rewrite <- list_fmap_compose. apply list_fmap_ext. intros _ x _.
  cbv [compose]. rewrite Qcmult_comm. apply Qcdiv_mult_l, dim_nonzero.
  by destruct rows.
Qed.

Lemma total_deviation_equal_rows (r0 : list nat) (rows : list (list nat)) :
  Forall (fun r => r = r0) rows ->
  qsum (row_deviation (dim <$> r0) <$> rows) = 0%Qc.
Proof.
  induction 1 as [|r rows -> _ IH]; [done|].
  cbn [fmap list_fmap qsum foldr]. fold (qsum (row_deviation (dim <$> r0) <$> rows)).
  rewrite IH, row_deviation_self. ring.
Qed.

Lemma total_deviation_member (m : list Qc) (r : list nat)
    (rows : list (list nat)) :
  r ∈ rows ->
  (row_deviation m r <= qsum (row_deviation m <$> rows))%Qc.
Proof.
  induction 1 as [r rows|r r' rows _ IH];
    cbn [fmap list_fmap qsum foldr];
    fold (qsum (row_deviation m <$> rows)).
  - assert (Hrest : (0 <= qsum (row_deviation m <$> rows))%Qc).
    { apply qsum_nonneg, Forall_fmap, Forall_true. intros x.
      apply row_deviation_nonneg. }
    qc_to_q. lra.
  - pose proof (row_deviation_nonneg m r'). qc_to_q. lra.
Qed.

Lemma total_deviation_apart (m : list Qc) (r0 r : list nat)
    (rest : list (list nat)) :
  length r0 = length m -> length r = length m -> r ∈ rest -> r ≠ r0 ->
  (1 <= qsum (row_deviation m <$> r0 :: rest))%Qc.
Proof.
  intros H0 Hr Hin Hne.
  pose proof (row_deviation_pair m r0 r H0 Hr (not_eq_sym Hne)) as Hpair.
  pose proof (total_deviation_member m r rest Hin) as Hmem.
  cbn [fmap list_fmap qsum foldr]. fold (qsum (row_deviation m <$> rest)).
  qc_to_q. change (this 1%Qc) with 1%Q in *. lra.
Qed.

(** *** From the arrays of the check to their exact values *)

Lemma zip_with_Fin (f : f64 -> f64 -> f64) (qf : Qc -> Qc -> Qc)
    (l1 l2 : list Qc) :
  (forall a b, f (Fin a) (Fin b) = Fin (qf a b)) ->
  zip_with f (Fin <$> l1) (Fin <$> l2) = Fin <$> zip_with qf l1 l2.
Proof.
  intros Hf. revert l2. induction l1 as [|a l1 IH]; intros [|b l2]; try done.
  cbn. by rewrite Hf, IH.
Qed.

Lemma column_sums_Fin (k : nat) (rows : list (list Qc)) :
  column_sums k ((fun r : list Qc => Fin <$> r) <$> rows)
  = Fin <$> qcolumn_sums k rows.
Proof.
  unfold column_sums, qcolumn_sums.
  induction rows as [|r rows IH]; cbn [fmap list_fmap foldr].
  - by rewrite fmap_replicate.
  - rewrite IH. by apply zip_with_Fin.
Qed.

Lemma sum_Fin (l : list Qc) :
  foldr F64.add F64.zero (Fin <$> l) = Fin (qsum l).
Proof. induction l as [|x l IH]; [done|]. cbn. by rewrite IH. Qed.

Lemma concat_Fin (rows : list (list Qc)) :
  concat ((fun r : list Qc => Fin <$> r) <$> rows) = Fin <$> concat rows.
Proof.
  induction rows as [|r rows IH]; [done|].
  cbn. by rewrite IH, fmap_app.
Qed.

Lemma sum_abs_Fin (rows : list (list Qc)) :
  sum_abs ((fun r : list Qc => Fin <$> r) <$> rows)
  = Fin (qsum (qabs <$> concat rows)).
Proof.
  unfold sum_abs. rewrite concat_Fin, <- list_fmap_compose.
  rewrite <- sum_Fin, <- list_fmap_compose. done.
Qed.

Lemma qsum_concat_deviation (m : list Qc) (rows : list (list nat)) :
  qsum (qabs <$> concat ((fun r : list nat =>
                            zip_with Qcminus (dim <$> r) m) <$> rows))
  = qsum (row_deviation m <$> rows).
Proof.
  induction rows as [|r rows IH]; [done|].
  cbn [fmap list_fmap concat]. rewrite fmap_app, qsum_app.
  cbn [qsum foldr]. fold (qsum (row_deviation m <$> rows)).
  by rewrite <- IH.
Qed.

(** The quantity that [assert_equal_shapes] compares with 1e-5: the summed
    deviation of the shapes from their mean. *)
Lemma shape_deviation_exact (tuples : list (list nat)) (k : nat) :
  tuples ≠ [] ->
  let shapes := (fun t : list nat =>
                   (fun n => F64.of_Z (Z.of_nat n)) <$> t) <$> tuples in
  let mean := column_means k shapes in
  let qmean := (fun x => x / dim (length tuples))%Qc
                 <$> qcolumn_sums k ((fun r : list nat => dim <$> r) <$> tuples) in
  sum_abs ((fun row => zip_with F64.sub row mean) <$> shapes)
  = Fin (qsum (row_deviation qmean <$> tuples)).
Proof.
  intros Hne shapes mean qmean.
  assert (Hshapes : shapes = (fun r : list Qc => Fin <$> r)
                               <$> ((fun r : list nat => dim <$> r) <$> tuples)).
  { unfold shapes. rewrite <- list_fmap_compose. apply list_fmap_ext.
    intros _ t _. cbv [compose]. by rewrite <- list_fmap_compose. }
  assert (Hmean : mean = Fin <$> qmean).
  { unfold mean, qmean, column_means. rewrite Hshapes, column_sums_Fin.
    rewrite !length_fmap, <- !list_fmap_compose.
    apply list_fmap_ext. intros _ x _. cbv [compose].
    apply F64_finite_div, dim_nonzero. by destruct tuples. }
  rewrite Hmean, Hshapes, <- list_fmap_compose.
  rewrite (list_fmap_ext _
    ((fun r : list Qc => Fin <$> r) ∘ (fun r => zip_with Qcminus r qmean))).
  2:{ intros _ r _. cbv [compose]. by apply zip_with_Fin. }
  rewrite list_fmap_compose, sum_abs_Fin, <- list_fmap_compose.
  by rewrite <- qsum_concat_deviation.
Qed.

Lemma qcolumn_sums_length (k : nat) (rows : list (list Qc)) :
  Forall (fun r => length r = k) rows -> length (qcolumn_sums k rows) = k.
Proof.
  unfold qcolumn_sums. induction 1 as [|r rows Hr _ IH]; cbn [foldr].
  - apply length_replicate.
  - rewrite length_zip_with, IH, Hr. lia.
Qed.

(** [assert_equal_shapes] on two or more arrays with the same number of
    axes: it passes when all the shapes are equal and raises its
    AssertionError when one differs from the first. *)
Theorem assert_equal_shapes_compares (caller : FrameInfo) (first : ndarray)
    (others : list ndarray) :
  others ≠ [] ->
  Forall (fun b => length (shape b) = length (shape first)) others ->
  (Forall (fun b => shape b = shape first) others ->
   assert_equal_shapes caller (first :: others) = Ok tt)
  /\ (¬ Forall (fun b => shape b = shape first) others ->
      assert_equal_shapes caller (first :: others)
      = Raise (AssertionError
          ("The given volumes did not all have the same"
           +:+ " dimensions. Please double check the simulation"
           +:+ " parameters. Called from " +:+ frame_function caller))).
Proof.
  intros Hne Hrank.
  assert (Hlen : ¬ (length (first :: others) < 2)%nat).
  { destruct others; [done|]. cbn. lia. }
  assert (Hragged :
    forallb (fun t => bool_decide (length t = length (shape first)))
            (shape <$> first :: others) = true).
  { apply forallb_forall. intros t Hin. apply bool_decide_eq_true.
    apply list_elem_of_In, list_elem_of_fmap in Hin as (b & -> & Hb).
    apply elem_of_cons in Hb as [->|Hb]; [done|].
    rewrite List.Forall_forall in Hrank. by apply Hrank, list_elem_of_In. }
  assert (Hrows : Forall (fun r : list Qc => length r = length (shape first))
            ((fun r : list nat => dim <$> r) <$> (shape <$> first :: others))).
  { rewrite !Forall_fmap. apply List.Forall_cons.
    - cbv [compose]. by rewrite length_fmap.
    - eapply List.Forall_impl; [|exact Hrank]. intros b Hb. cbv [compose].
      by rewrite length_fmap. }
  assert (Hrun : forall S,
    qsum (row_deviation
            ((fun x => x / dim (length (shape <$> first :: others)))%Qc
               <$> qcolumn_sums (length (shape first))
                     ((fun r : list nat => dim <$> r)
                        <$> (shape <$> first :: others)))
          <$> (shape <$> first :: others)) = S ->
    assert_equal_shapes caller (first :: others)
    = if bool_decide (S <= Q2Qc 1e-5)%Qc then Ok tt
      else Raise (AssertionError
          ("The given volumes did not all have the same"
           +:+ " dimensions. Please double check the simulation"
           +:+ " parameters. Called from " +:+ frame_function caller))).
  { intros S HS. unfold assert_equal_shapes.
    destruct (decide (length (first :: others) < 2)%nat); [done|].
    change (length (default [] (head (shape <$> first :: others))))
      with (length (shape first)).
    rewrite Hragged. cbn [negb].
    rewrite shape_deviation_exact by done. rewrite HS.
    unfold F64.leb, F64.of_Q. by destruct (bool_decide _). }
  split.
  - intros Hall. rewrite (Hrun 0%Qc); [done|].
    assert (Hequal : Forall (fun r => r = shape first)
                            (shape <$> first :: others)).
    { rewrite Forall_fmap. apply List.Forall_cons; [done|].
      eapply List.Forall_impl; [|exact Hall]. by intros b Hb. }
    rewrite mean_of_equal_rows by done.
    by apply total_deviation_equal_rows.
  - intros Hdiff.
    apply not_Forall_Exists in Hdiff; [|intros b; apply _].
    apply Exists_exists in Hdiff as (b & Hin & Hb).
    erewrite Hrun; [|reflexivity].
    rewrite bool_decide_eq_false_2; [done|].
    apply Qclt_nge.
    eapply Qclt_le_trans; [|eapply (total_deviation_apart _ (shape first) (shape b))].
    + done.
    + rewrite length_fmap. by rewrite qcolumn_sums_length.
    + rewrite length_fmap, qcolumn_sums_length by done.
      rewrite List.Forall_forall in Hrank. by apply Hrank.
    + apply list_elem_of_fmap. exists b. split; [done|].
      by apply list_elem_of_In.
    + done.
Qed.

(** Whatever the numbers of axes, two arrays of different shapes in the
    list make [assert_equal_shapes] raise: its AssertionError when all have
    as many axes as the first, the ValueError of the conversion to a matrix
    otherwise. *)
Lemma assert_equal_shapes_rejects_mismatch (caller : FrameInfo)
    (arrays : list ndarray) :
  (exists x y, x ∈ arrays /\ y ∈ arrays /\ shape x ≠ shape y) ->
  exists e, assert_equal_shapes caller arrays = Raise e.
Proof.
  intros (x & y & Hx & Hy & Hxy).
  destruct arrays as [|first others]; [by apply elem_of_nil in Hx|].
  assert (Hne : others ≠ []).
  { intros ->. apply list_elem_of_singleton in Hx, Hy. by subst. }
  assert (Hdiff : ¬ Forall (fun b => shape b = shape first) others).
  { intros Hall. rewrite List.Forall_forall in Hall. destruct Hxy.
    assert (Hfirst : forall z, z ∈ first :: others -> shape z = shape first).
    { intros z [->|Hz]%elem_of_cons; [done|]. by apply Hall, list_elem_of_In. }
    by rewrite (Hfirst x Hx), (Hfirst y Hy). }
  destruct (decide (Forall (fun b => length (shape b) = length (shape first))
                           others)) as [Hrank|Hrank].
  - destruct (assert_equal_shapes_compares caller first others Hne Hrank)
      as [_ Hraise].
    eexists. by apply Hraise.
  - exists (ValueError "setting an array element with a sequence.").
    unfold assert_equal_shapes.
    destruct (decide (length (first :: others) < 2)%nat) as [Hlen|_].
    { destruct others; [done|]. cbn in Hlen. lia. }
    change (length (default [] (head (shape <$> first :: others))))
      with (length (shape first)).
    destruct (forallb _ _) eqn:Hall; [|done].
    destruct Hrank. apply List.Forall_forall. intros b Hb.
    rewrite forallb_forall in Hall.
    eapply bool_decide_eq_true, (Hall (shape b)).
    apply list_elem_of_In, list_elem_of_fmap. exists b. split; [done|].
    apply elem_of_cons. right. by apply list_elem_of_In.
Qed.

(** ** NumPy arrays: elementwise operations on arrays of one shape *)

Lemma broadcast_rev_same (r : list nat) : np.broadcast_rev r r = Some r.
Proof.
  induction r as [|a r IH]; simpl; [done|].
  rewrite IH. by destruct (decide (a = a)).
Qed.

Lemma broadcast_shapes_same (s : list nat) : np.broadcast_shapes s s = Some s.
Proof.
  unfold np.broadcast_shapes. rewrite broadcast_rev_same. simpl.
  by rewrite reverse_involutive.
Qed.

Lemma indices_length (s : list nat) (idx : list nat) :
  idx ∈ np.indices s -> length idx = length s.
Proof.
  revert idx. induction s as [|n s IH]; simpl; intros idx Hin.
  - apply list_elem_of_singleton in Hin. by subst.
  - apply list_elem_of_bind in Hin as (i & Hin & _).
    apply list_elem_of_fmap in Hin as (idx' & -> & Hin).
    simpl. f_equal. by apply IH.
Qed.

Lemma nth_add_drop {A} (l : list A) (n k : nat) (d : A) :
  nth (n + k) l d = nth k (drop n l) d.
Proof. by rewrite !nth_lookup, lookup_drop. Qed.

Lemma fmap_list_bind {A B C} (g : B -> C) (f : A -> list B) (l : list A) :
  g <$> (l ≫= f) = l ≫= (fun x => g <$> f x).
Proof.
  induction l as [|x l IH]; [done|].
  by rewrite !bind_cons, fmap_app, IH.
Qed.

Section Gather.
Variable d : f64.

Lemma gather_rows (s : list nat)
    (IH : forall l, (np.size s <= length l)%nat ->
          (fun idx => nth (np.offset s idx) l d) <$> np.indices s
          = take (np.size s) l)
    (l : list f64) (k j : nat) :
  ((j + k) * np.size s <= length l)%nat ->
  (seq j k ≫= fun i =>
     (fun idx => nth (i * np.size s + np.offset s idx) l d) <$> np.indices s)
  = take (k * np.size s) (drop (j * np.size s) l).
Proof.
  revert j. induction k as [|k IHk]; intros j Hlen; [done|].
  cbn [seq]. rewrite bind_cons.
  rewrite IHk by lia.
  rewrite (list_fmap_ext _ (fun idx => nth (np.offset s idx) (drop (j * np.size s) l) d)).
  2:{ intros _ idx _. apply nth_add_drop. }
  rewrite IH by (rewrite length_drop; lia).
  replace (S j * np.size s)%nat with (j * np.size s + np.size s)%nat by lia.
  rewrite <- drop_drop. rewrite take_take_drop. f_equal.
Qed.

Lemma gather_all (s : list nat) (l : list f64) :
  (np.size s <= length l)%nat ->
  (fun idx => nth (np.offset s idx) l d) <$> np.indices s
  = take (np.size s) l.
Proof.
  revert l. induction s as [|n s IH]; intros l Hlen.
  - destruct l; simpl in *; [lia|done].
  - cbn [np.indices np.size foldr] in *. fold (np.size s) in *.
    rewrite fmap_list_bind.
    transitivity (take (n * np.size s) (drop (0 * np.size s) l));
      [|by rewrite drop_0].
    rewrite <- (gather_rows s IH l n 0) by (simpl; lia).
    destruct (decide (n = 1%nat)) as [->|Hn].
    + simpl. rewrite !app_nil_r, <- !list_fmap_compose. done.
    + apply list_bind_ext; [|done]. intros i.
      rewrite <- list_fmap_compose. apply list_fmap_ext.
      intros _ idx _. cbn [compose np.offset].
      by destruct (decide (n = 1%nat)).
Qed.
End Gather.

Lemma item_same_rank (a : ndarray) (idx : list nat) :
  length idx = length (shape a) ->
  np.item a idx = nth (np.offset (shape a) idx) (data a) NaN.
Proof.
  intros Hlen. unfold np.item. rewrite Hlen, Nat.sub_diag. by rewrite drop_0.
Qed.

(** On two well-formed arrays of one shape, an elementwise operation acts
    on the elements pairwise. *)
Lemma elementwise_same_shape (f : f64 -> f64 -> f64) (a b : ndarray) :
  np.well_formed a -> np.well_formed b -> shape a = shape b ->
  np.elementwise f a b
  = Ok {| shape := shape a; data := zip_with f (data a) (data b) |}.
Proof.
  intros Ha Hb Hshape. unfold np.elementwise.
  rewrite <- Hshape, broadcast_shapes_same. do 2 f_equal.
  rewrite (list_fmap_ext _
    (fun idx => f (nth (np.offset (shape a) idx) (data a) NaN)
                  (nth (np.offset (shape a) idx) (data b) NaN))).
  2:{ intros i idx Hidx.
      assert (Hlen : length idx = length (shape a)).
      { apply indices_length. by eapply list_elem_of_lookup_2. }
      rewrite !item_same_rank by congruence. by rewrite <- Hshape. }
  rewrite <- zip_with_fmap_diag.
  unfold np.well_formed in *.
  rewrite (gather_all NaN (shape a) (data a)) by (by rewrite Ha).
  rewrite (gather_all NaN (shape a) (data b)) by (by rewrite Hb, Hshape).
  rewrite <- Ha, firstn_all. rewrite Ha, Hshape, <- Hb. by rewrite firstn_all.
Qed.

(** Broadcasting on small arrays: a column times a row gives the table of
    products, a scalar array applies to every element, and shapes (2,3) and
    (2) do not go together. *)
Example multiply_broadcasts :
  np.multiply (mk_ndarray [2; 1]%nat [F64.of_Z 1; F64.of_Z 2])
              (mk_ndarray [3]%nat [F64.of_Z 1; F64.of_Z 2; F64.of_Z 3])
  = Ok (mk_ndarray [2; 3]%nat
          [F64.of_Z 1; F64.of_Z 2; F64.of_Z 3;
           F64.of_Z 2; F64.of_Z 4; F64.of_Z 6])
  /\ np.multiply (mk_ndarray [] [F64.of_Z 5])
                 (mk_ndarray [2]%nat [F64.of_Z 1; PInf])
     = Ok (mk_ndarray [2]%nat [F64.of_Z 5; PInf])
  /\ np.multiply (constant_volume [2; 3]%nat F64.one)
                 (constant_volume [2]%nat F64.one)
     = Raise (ValueError "operands could not be broadcast together").
Proof. repeat split; by_evaluation. Qed.

(** ** optical_modelling.py: initial pressure and unit mode *)

Import optical_modelling.

Lemma F64_thousand_nonzero : F64.of_Z 1000 ≠ F64.zero.
Proof. intros H. by apply (f_equal (fun x => match x with Fin q => this q | _ => 0%Q end)) in H. Qed.

Lemma truediv_thousand (energy : pyval) (e : f64) :
  Py.as_number energy = Ok e ->
  Py.truediv energy (PyInt 1000) = Ok (F64.div e (F64.of_Z 1000)).
Proof.
  intros He. unfold Py.truediv. rewrite He. cbn [rbind Py.as_number].
  destruct (decide (F64.of_Z 1000 = F64.zero)) as [H|_]; [|done].
  by destruct F64_thousand_nonzero.
Qed.

Lemma multiply_same_shape (a b : ndarray) :
  np.well_formed a -> np.well_formed b -> shape a = shape b ->
  np.multiply a b
  = Ok {| shape := shape a; data := zip_with F64.mul (data a) (data b) |}.
Proof. apply elementwise_same_shape. Qed.

(** C3: the unit mode and the initial pressure are decided by the
    upsampling flag and by the presence of a pulse energy.  With upsampling
    requested the units are arbitrary and the pressure is
    absorption * fluence, whatever the energy entry; without upsampling
    (flag absent or False) and with a pulse energy the units are Pascal and
    the pressure is absorption * fluence * gruneisen * (energy / 1000) * 1e6,
    element by element on fields of one shape; without upsampling and
    without energy the units are arbitrary and the pressure is
    absorption * fluence.  With absorption 2.0, fluence 3.0, gruneisen 0.005
    and 10 mJ the pressure is 300.0. *)
Theorem C3_unit_mode_and_initial_pressure (settings : gmap string pyval)
    (absorption fluence gruneisen : ndarray) :
  (forall flag,
      settings !! Tags.PERFORM_UPSAMPLING = Some flag ->
      Py.is_False flag = false ->
      initial_pressure_and_units settings absorption fluence gruneisen
      = (p <- np.multiply absorption fluence ;; Ok (p, UNITS_ARBITRARY))%py)
  /\ (forall energy e,
      settings !! Tags.PERFORM_UPSAMPLING = None
      \/ settings !! Tags.PERFORM_UPSAMPLING = Some (PyBool false) ->
      settings !! Tags.LASER_PULSE_ENERGY_IN_MILLIJOULE = Some energy ->
      Py.as_number energy = Ok e ->
      initial_pressure_and_units settings absorption fluence gruneisen
      = (af <- np.multiply absorption fluence ;;
         afg <- np.multiply af gruneisen ;;
         Ok (np.mul_scalar
               (np.mul_scalar afg (F64.div e (F64.of_Z 1000))) (F64.of_Q 1e6),
             UNITS_PRESSURE))%py
      /\ (np.well_formed absorption -> np.well_formed fluence ->
          np.well_formed gruneisen ->
          shape fluence = shape absorption ->
          shape gruneisen = shape absorption ->
          exists pressure,
            initial_pressure_and_units settings absorption fluence gruneisen
            = Ok (pressure, UNITS_PRESSURE)
            /\ shape pressure = shape absorption
            /\ forall i mu_a phi gamma,
                 data absorption !! i = Some mu_a ->
                 data fluence !! i = Some phi ->
                 data gruneisen !! i = Some gamma ->
                 data pressure !! i
                 = Some (F64.mul
                           (F64.mul (F64.mul (F64.mul mu_a phi) gamma)
                                    (F64.div e (F64.of_Z 1000)))
                           (F64.of_Q 1e6))))
  /\ (settings !! Tags.PERFORM_UPSAMPLING = None
      \/ settings !! Tags.PERFORM_UPSAMPLING = Some (PyBool false) ->
      settings !! Tags.LASER_PULSE_ENERGY_IN_MILLIJOULE = None ->
      initial_pressure_and_units settings absorption fluence gruneisen
      = (p <- np.multiply absorption fluence ;; Ok (p, UNITS_ARBITRARY))%py)
  /\ F64.mul (F64.mul (F64.mul (F64.mul (F64.of_Q 2.0) (F64.of_Q 3.0))
                               (F64.of_Q 0.005))
                      (F64.div (F64.of_Z 10) (F64.of_Z 1000)))
             (F64.of_Q 1e6)
     = F64.of_Q 300.0.
Proof.
  split; [|split; [|split]].
  - intros flag Hflag Hnot. unfold initial_pressure_and_units.
    rewrite Hflag, Hnot. by destruct (np.multiply absorption fluence).
  - intros energy e Hoff Henergy He.
    assert (Hrun :
      initial_pressure_and_units settings absorption fluence gruneisen
      = (af <- np.multiply absorption fluence ;;
         afg <- np.multiply af gruneisen ;;
         Ok (np.mul_scalar
               (np.mul_scalar afg (F64.div e (F64.of_Z 1000))) (F64.of_Q 1e6),
             UNITS_PRESSURE))%py).
    { unfold initial_pressure_and_units, Py.contains, Py.getitem.
      assert (Hbranch :
        match settings !! Tags.PERFORM_UPSAMPLING with
        | None => true
        | Some flag => Py.is_False flag
        end = true) by (by destruct Hoff as [-> | ->]).
      rewrite Hbranch, Henergy.
      rewrite bool_decide_eq_true_2 by by eexists.
      destruct (np.multiply absorption fluence) as [af|]; [|done].
      cbn [rbind]. destruct (np.multiply af gruneisen) as [afg|]; [|done].
      cbn [rbind]. by rewrite (truediv_thousand energy e He). }
    split; [exact Hrun|].
    intros Hwa Hwf Hwg Hsf Hsg. rewrite Hrun.
    rewrite (multiply_same_shape absorption fluence) by done.
    cbn [rbind]. rewrite multiply_same_shape; cbn [shape data]; try done.
    2:{ unfold np.well_formed in *. cbn [shape data].
        rewrite length_zip_with, Hwa, Hwf, Hsf. lia. }
    cbn [rbind]. eexists. split; [reflexivity|]. split; [done|].
    intros i mu_a phi gamma Ha Hf Hg. cbn [np.mul_scalar data shape].
    rewrite !list_lookup_fmap, !lookup_zip_with, Ha, Hf, Hg. done.
  - intros Hoff Henergy.
    unfold initial_pressure_and_units, Py.contains.
    assert (Hbranch :
      match settings !! Tags.PERFORM_UPSAMPLING with
      | None => true
      | Some flag => Py.is_False flag
      end = true) by (by destruct Hoff as [-> | ->]).
    rewrite Hbranch, Henergy.
    rewrite bool_decide_eq_false_2 by (by intros [? ?]).
    by destruct (np.multiply absorption fluence).
  - by_evaluation.
Qed.

Lemma C3_unit_mode_and_initial_pressure_witness :
  let absorption := mk_ndarray [2; 1]%nat [F64.of_Q 2.0; F64.of_Q 2.0] in
  let fluence := mk_ndarray [2; 1]%nat [F64.of_Q 3.0; F64.of_Q 3.0] in
  let gruneisen := mk_ndarray [2; 1]%nat [F64.of_Q 0.005; F64.of_Q 0.005] in
  initial_pressure_and_units
    (<[Tags.PERFORM_UPSAMPLING := PyBool false]>
     {[ Tags.LASER_PULSE_ENERGY_IN_MILLIJOULE := PyInt 10 ]})
    absorption fluence gruneisen
  = Ok (mk_ndarray [2; 1]%nat [F64.of_Q 300.0; F64.of_Q 300.0], UNITS_PRESSURE)
  /\ initial_pressure_and_units
       (<[Tags.PERFORM_UPSAMPLING := PyBool true]>
        {[ Tags.LASER_PULSE_ENERGY_IN_MILLIJOULE := PyInt 10 ]})
       absorption fluence gruneisen
     = Ok (mk_ndarray [2; 1]%nat [F64.of_Q 6.0; F64.of_Q 6.0], UNITS_ARBITRARY)
  /\ initial_pressure_and_units ∅ absorption fluence gruneisen
     = Ok (mk_ndarray [2; 1]%nat [F64.of_Q 6.0; F64.of_Q 6.0], UNITS_ARBITRARY).
Proof.
  intros absorption fluence gruneisen. split; [|split].
  - destruct (C3_unit_mode_and_initial_pressure
                (<[Tags.PERFORM_UPSAMPLING := PyBool false]>
                 {[ Tags.LASER_PULSE_ENERGY_IN_MILLIJOULE := PyInt 10 ]})
                absorption fluence gruneisen) as (_ & Hphysical & _).
    destruct (Hphysical (PyInt 10) (F64.of_Z 10)) as [Hrun _].
    + right. vm_compute; reflexivity.
    + vm_compute; reflexivity.
    + reflexivity.
    + rewrite Hrun. by_evaluation.
  - destruct (C3_unit_mode_and_initial_pressure
                (<[Tags.PERFORM_UPSAMPLING := PyBool true]>
                 {[ Tags.LASER_PULSE_ENERGY_IN_MILLIJOULE := PyInt 10 ]})
                absorption fluence gruneisen) as (Hupsampling & _).
    rewrite (Hupsampling (PyBool true)).
    + by_evaluation.
    + vm_compute; reflexivity.
    + reflexivity.
  - destruct (C3_unit_mode_and_initial_pressure ∅
                absorption fluence gruneisen) as (_ & _ & Harbitrary & _).
    rewrite Harbitrary.
    + by_evaluation.
    + left. vm_compute; reflexivity.
    + vm_compute; reflexivity.
Defined.

(** ** optical_forward_model_mcx_adapter.py: the configuration *)

Import MCXAdapter.

Lemma pre_process_volumes_call (a s g n : ndarray) :
  pre_process_volumes
    (<["absorption_cm" := a]>
     (<["scattering_cm" := s]>
      (<["anisotropy" := g]> {["refractive_index" := n]})))
  = Ok (np.div_scalar a (F64.of_Z 10), np.div_scalar s (F64.of_Z 10),
        Some g, Some n).
Proof.
  unfold pre_process_volumes, volumes_to_mm.
  rewrite lookup_insert_eq.
  rewrite (lookup_insert_ne _ "absorption_cm" "scattering_cm") by done.
  rewrite lookup_insert_eq.
  rewrite !(lookup_insert_ne _ _ "anisotropy") by done.
  rewrite lookup_insert_eq.
  rewrite !(lookup_insert_ne _ _ "refractive_index") by done.
  by rewrite lookup_singleton_eq.
Qed.

Lemma stack_mismatch (a : ndarray) (rest : list ndarray) :
  (exists b, b ∈ rest /\ shape b ≠ shape a) ->
  np.stack (a :: rest) = Raise np.stack_shape_error.
Proof.
  intros (b & Hin & Hne). unfold np.stack.
  destruct (forallb _ rest) eqn:Hall; [|done].
  rewrite forallb_forall in Hall.
  apply list_elem_of_In, Hall, bool_decide_eq_true in Hin. done.
Qed.

Lemma stack_same_shape (a : ndarray) (rest : list ndarray) :
  Forall (fun b => shape b = shape a) rest ->
  np.stack (a :: rest)
  = Ok {| shape := length (a :: rest) :: shape a;
          data := concat (data <$> a :: rest) |}.
Proof.
  intros Hall. unfold np.stack.
  destruct (forallb _ rest) eqn:Hb; [done|].
  apply not_true_iff_false in Hb. destruct Hb.
  apply forallb_forall. intros b Hin. apply bool_decide_eq_true.
  rewrite Forall_forall in Hall. by apply Hall.
Qed.

Lemma get_mcx_config_mismatch (self : instance)
    (geometry : IlluminationGeometryBase) (a s g n : ndarray) :
  (exists x y, x ∈ [a; s; g; n] /\ y ∈ [a; s; g; n] /\ shape x ≠ shape y) ->
  get_mcx_config self geometry a s g n = Raise np.stack_shape_error.
Proof.
  intros (x & y & Hx & Hy & Hne).
  unfold get_mcx_config. rewrite pre_process_volumes_call.
  cbn [rbind from_option].
  rewrite stack_mismatch; [done|].
  cbn [np.div_scalar shape].
  destruct (decide (shape s = shape a)) as [Hs|Hs];
    [|exists (np.div_scalar s (F64.of_Z 10)); split; [repeat constructor|done]].
  destruct (decide (shape g = shape a)) as [Hg|Hg];
    [|exists g; split; [repeat constructor|done]].
  destruct (decide (shape n = shape a)) as [Hn|Hn];
    [|exists n; split; [repeat constructor|done]].
  assert (Hall : forall z, z ∈ [a; s; g; n] -> shape z = shape a).
  { intros z Hz.
    repeat (apply elem_of_cons in Hz as [->|Hz]; [done|]).
    by apply elem_of_nil in Hz. }
  destruct Hne. by rewrite (Hall x Hx), (Hall y Hy).
Qed.





Lemma time_window_configured (cs : gmap string pyval) (time dt : pyval) :
  cs !! Tags.TOTAL_TIME = Some time -> cs !! Tags.TIME_STEP = Some dt ->
  time_window cs = Ok (time, dt).
Proof.
  intros Htime Hdt. unfold time_window, Py.contains, Py.getitem.
  rewrite Htime, Hdt. by rewrite bool_decide_eq_true_2 by by eexists.
Qed.





(** C8: when any two of the four property arrays have different shapes, as
    an absorption of shape (4,4,4) with a scattering of shape (4,4,5),
    building the configuration raises the shape-mismatch error of
    [np.stack], and [forward_model] raises it with the trace of external
    calls unchanged: the Monte-Carlo engine has not been invoked.  The
    check [assert_equal_shapes] refuses the same four arrays. *)
Theorem C8_shape_mismatch_rejected
    (pmcx_run : PmcxConfig -> result (gmap string ndarray))
    (self : instance) (geometry : IlluminationGeometryBase)
    (a s g n : ndarray) (log : list event) (caller : FrameInfo) :
  (exists x y, x ∈ [a; s; g; n] /\ y ∈ [a; s; g; n] /\ shape x ≠ shape y) ->
  get_mcx_config self geometry a s g n
  = Raise (ValueError "all input arrays must have the same shape")
  /\ forward_model pmcx_run self a s g n geometry log
     = (Raise (ValueError "all input arrays must have the same shape"), log)
  /\ exists e, assert_equal_shapes caller [a; s; g; n] = Raise e.
Proof.
  intros Hmismatch.
  pose proof (get_mcx_config_mismatch self geometry a s g n Hmismatch) as Hcfg.
  split; [exact Hcfg|]. split.
  - unfold forward_model, mbind, lift. by rewrite Hcfg.
  - by apply assert_equal_shapes_rejects_mismatch.
Qed.


Lemma C8_shape_mismatch_rejected_witness :
  let absorption := constant_volume [4; 4; 4]%nat (F64.of_Q 0.1) in
  let scattering := constant_volume [4; 4; 5]%nat (F64.of_Z 100) in
  let anisotropy := constant_volume [4; 4; 4]%nat (F64.of_Q 0.9) in
  let refractive_index := constant_volume [4; 4; 4]%nat (F64.of_Q 1.3) in
  forward_model (fun _ => Ok ∅) (example_adapter ∅)
    absorption scattering anisotropy refractive_index
    (pencil_beam_at [F64.of_Z 1; F64.of_Z 1; F64.of_Z 0]) []
  = (Raise (ValueError "all input arrays must have the same shape"), []).
Proof.
  intros absorption scattering anisotropy refractive_index.
  apply (C8_shape_mismatch_rejected (fun _ => Ok ∅) (example_adapter ∅)
           (pencil_beam_at [F64.of_Z 1; F64.of_Z 1; F64.of_Z 0])
           absorption scattering anisotropy refractive_index []
           {| frame_function := "run"; frame_filename := "adapter.py";
              frame_lineno := "1"; frame_code_context := "" |}).
  exists absorption, scattering.
  split; [repeat constructor|]. split; [repeat constructor|].
  vm_compute. discriminate.
Defined.

(** ** optical_modelling.py: the selection of the optical model *)

Section Orchestration.

Variable generate_dict_path :
  gmap string pyval -> string -> pyval -> bool -> result string.
Variable simulate : adapter -> string -> gmap string pyval -> result ndarray.
Variable load_hdf5 : pyval -> string -> result (gmap string ndarray).
Variable save_hdf5 :
  ndarray -> ndarray -> units -> pyval -> string -> result unit.
Variable OPTICAL_OUTPUT_format : string -> pyval -> string.

(** Settings without an optical-model entry are rejected at once: nothing
    but the banner has happened. *)
Lemma run_without_model_tag (settings : gmap string pyval) (log : list event) :
  settings !! Tags.OPTICAL_MODEL = None ->
  run_optical_forward_model generate_dict_path simulate load_hdf5 save_hdf5
    OPTICAL_OUTPUT_format settings log
  = (Raise (AssertionError
       "Tags.OPTICAL_MODEL tag was not specified in the settings. Skipping optical modelling."),
     log ++ [EvPrint "OPTICAL FORWARD"]).
Proof.
  intros Hnone. unfold run_optical_forward_model, mbind, call, lift.
  unfold Py.contains. rewrite Hnone.
  by rewrite bool_decide_eq_false_2 by (by intros [? ?]).
Qed.

(** C2 (what the code does): a model tag that is none of the three known
    ones is not rejected up front.  The path of the optical properties is
    derived first, and the run then stops on the attribute lookup
    [None.simulate], an AttributeError; no adapter has run and nothing has
    been read or written. *)
Theorem C2_unknown_model_tag_not_rejected_first (settings : gmap string pyval)
    (model wavelength : pyval) (path : string) (log : list event) :
  settings !! Tags.OPTICAL_MODEL = Some model ->
  Py.eqb model Tags.OPTICAL_MODEL_MCXYZ = false ->
  Py.eqb model Tags.OPTICAL_MODEL_MCX = false ->
  Py.eqb model Tags.OPTICAL_MODEL_TEST = false ->
  settings !! Tags.WAVELENGTH = Some wavelength ->
  generate_dict_path settings Tags.SIMULATION_PROPERTIES wavelength false
  = Ok path ->
  run_optical_forward_model generate_dict_path simulate load_hdf5 save_hdf5
    OPTICAL_OUTPUT_format settings log
  = (Raise (AttributeError "'NoneType' object has no attribute 'simulate'"),
     log ++ [EvPrint "OPTICAL FORWARD";
             EvGenerateDictPath Tags.SIMULATION_PROPERTIES wavelength false]).
Proof.
  intros Hmodel Hxyz Hmcx Htest Hwave Hpath.
  unfold run_optical_forward_model, mbind, call, lift.
  unfold Py.contains, Py.getitem. rewrite Hmodel, Hwave.
  rewrite bool_decide_eq_true_2 by by eexists.
  cbn [negb]. rewrite Hxyz, Hmcx, Htest, Hpath.
  by rewrite <- app_assoc.
Qed.

End Orchestration.

Lemma C2_unknown_model_tag_not_rejected_first_witness :
  run_optical_forward_model
    (fun _ _ _ _ => Ok "simulation_properties/800")
    (fun _ _ _ => Ok (constant_volume [1; 1; 1]%nat (F64.of_Z 1)))
    (fun _ _ => Ok ∅)
    (fun _ _ _ _ _ => Ok tt)
    (fun _ _ => "optical_output/800")
    (<[Tags.OPTICAL_MODEL := PyStr "diffusion"]>
     {[ Tags.WAVELENGTH := PyInt 800 ]})
    []
  = (Raise (AttributeError "'NoneType' object has no attribute 'simulate'"),
     [EvPrint "OPTICAL FORWARD";
      EvGenerateDictPath Tags.SIMULATION_PROPERTIES (PyInt 800) false]).
Proof.
  apply (C2_unknown_model_tag_not_rejected_first
           (fun _ _ _ _ => Ok "simulation_properties/800")
           (fun _ _ _ => Ok (constant_volume [1; 1; 1]%nat (F64.of_Z 1)))
           (fun _ _ => Ok ∅)
           (fun _ _ _ _ _ => Ok tt)
           (fun _ _ => "optical_output/800")
           (<[Tags.OPTICAL_MODEL := PyStr "diffusion"]>
            {[ Tags.WAVELENGTH := PyInt 800 ]})
           (PyStr "diffusion") (PyInt 800) "simulation_properties/800" []);
    vm_compute; reflexivity.
Defined.

(** A total time without a time step is not a case of the default: the
    condition only looks for the total time, and reading the time step
    raises KeyError. *)
Lemma time_window_total_time_only (cs : gmap string pyval) (time : pyval) :
  cs !! Tags.TOTAL_TIME = Some time -> cs !! Tags.TIME_STEP = None ->
  time_window cs = Raise (KeyError Tags.TIME_STEP).
Proof.
  intros Htime Hdt. unfold time_window, Py.contains, Py.getitem.
  rewrite Htime, Hdt. by rewrite bool_decide_eq_true_2 by by eexists.
Qed.

(** ** Complete runs on small inputs *)

(** A run with the GPU model selected, no upsampling and 10 mJ: the adapter
    is invoked after the path derivation, the properties are read, and the
    fluence, the pressure in Pascal and the unit mode are written. *)
Example run_optical_forward_model_mcx :
  let fluence := constant_volume [1; 1; 2]%nat (F64.of_Q 3.0) in
  let properties : gmap string ndarray :=
    <[Tags.PROPERTY_ABSORPTION_PER_CM := constant_volume [1; 1; 2]%nat (F64.of_Q 2.0)]>
    {[ Tags.PROPERTY_GRUNEISEN_PARAMETER := constant_volume [1; 1; 2]%nat (F64.of_Q 0.005) ]} in
  run_optical_forward_model
    (fun _ _ _ _ => Ok "simulation_properties/800")
    (fun _ _ _ => Ok fluence)
    (fun _ _ => Ok properties)
    (fun _ _ _ _ _ => Ok tt)
    (fun _ _ => "optical_output/800")
    (<[Tags.OPTICAL_MODEL := Tags.OPTICAL_MODEL_MCX]>
     (<[Tags.WAVELENGTH := PyInt 800]>
      (<[Tags.SIMPA_OUTPUT_PATH := PyStr "out.hdf5"]>
       {[ Tags.LASER_PULSE_ENERGY_IN_MILLIJOULE := PyInt 10 ]})))
    []
  = (Ok "optical_output/800",
     [EvPrint "OPTICAL FORWARD";
      EvGenerateDictPath Tags.SIMULATION_PROPERTIES (PyInt 800) false;
      EvSimulate McxAdapter "simulation_properties/800";
      EvLoadHdf5 (PyStr "out.hdf5") "simulation_properties/800";
      EvSaveHdf5 fluence (constant_volume [1; 1; 2]%nat (F64.of_Q 300.0))
        UNITS_PRESSURE (PyStr "out.hdf5") "optical_output/800"]).
Proof. by_evaluation. Qed.

(** A run of the adapter with an engine that returns a single-frame flux:
    the engine is called once, with the stacked volume in per-millimetre
    units, and the fluence has lost the temporal axis. *)
Example forward_model_single_frame :
  let geometry := pencil_beam_at [F64.of_Z 1; F64.of_Z 1; F64.of_Z 0] in
  let volume := constant_volume [1; 1; 2]%nat (F64.of_Z 10) in
  let engine := fun _ : PmcxConfig =>
    Ok ({[ "flux" := constant_volume [1; 1; 2; 1]%nat (F64.of_Q 0.5) ]}
          : gmap string ndarray) in
  let config := {|
    cfg_nphoton := PyFloat (F64.of_Q 1e8);
    cfg_vol := mk_ndarray [4; 1; 1; 2]%nat
                 [F64.of_Z 1; F64.of_Z 1; F64.of_Z 1; F64.of_Z 1;
                  F64.of_Z 10; F64.of_Z 10; F64.of_Z 10; F64.of_Z 10];
    cfg_tstart := 0;
    cfg_tend := PyFloat (F64.of_Q 5e-09);
    cfg_tstep := PyFloat (F64.of_Q 5e-09);
    cfg_prop := mk_ndarray [1; 4]%nat
                  [F64.of_Z 0; F64.of_Z 0; F64.of_Z 1; F64.of_Z 1];
    cfg_unitinmm := PyFloat (F64.of_Q 0.5);
    cfg_srctype := Tags.ILLUMINATION_TYPE_PENCILARRAY;
    cfg_srcpos := [F64.of_Q 2.5; F64.of_Q 2.5; F64.of_Q 0.5];
    cfg_srcdir := [0; 0; 1];
    cfg_srcparam1 := [0; 0; 0; 0];
    cfg_srcparam2 := [0; 0; 0; 0];
    cfg_isreflect := 1;
    cfg_autopilot := 1;
    cfg_outputtype := "fluence";
    cfg_seed := None |} in
  forward_model engine (example_adapter ∅) volume volume volume volume
    geometry []
  = (Ok ({[ Tags.DATA_FIELD_FLUENCE :=
              constant_volume [1; 1; 2]%nat (F64.of_Z 50) ]},
         {| global_settings := global_settings (example_adapter ∅);
            component_settings := component_settings (example_adapter ∅);
            frames := Some 1;
            nx := Some 1%nat; ny := Some 1%nat; nz := Some 2%nat |}),
     [EvPmcxRun config]).
Proof. by_evaluation. Qed.

(** * Further properties *)

(** ** optical_forward_model_mcx_adapter.py: the whole configuration *)

Lemma get_mcx_config_result (self : instance)
    (geometry : IlluminationGeometryBase) (a s g n : ndarray)
    (x y z : nat) (source : IlluminatorDefinition)
    (nphoton unitinmm time dt : pyval) (quotient : f64) (frame_count : Z) :
  shape a = [x; y; z] -> shape s = [x; y; z] ->
  shape g = [x; y; z] -> shape n = [x; y; z] ->
  get_mcx_illuminator_definition geometry (global_settings self) = Ok source ->
  component_settings self !! Tags.OPTICAL_MODEL_NUMBER_PHOTONS = Some nphoton ->
  global_settings self !! Tags.SPACING_MM = Some unitinmm ->
  time_window (component_settings self) = Ok (time, dt) ->
  Py.truediv_binary64 time dt = Ok quotient ->
  Py.int quotient = Ok frame_count ->
  get_mcx_config self geometry a s g n
  = Ok ({| cfg_nphoton := nphoton;
           cfg_vol :=
             {| shape := [4; x; y; z]%nat;
                data := ((fun v => F64.div v (F64.of_Z 10)) <$> data a)
                        ++ ((fun v => F64.div v (F64.of_Z 10)) <$> data s)
                        ++ data g ++ data n |};
           cfg_tstart := 0;
           cfg_tend := time;
           cfg_tstep := dt;
           cfg_prop := mk_ndarray [1; 4]%nat (F64.of_Z <$> [0; 0; 1; 1]);
           cfg_unitinmm := unitinmm;
           cfg_srctype := src_Type source;
           cfg_srcpos := src_Pos source;
           cfg_srcdir := src_Dir source;
           cfg_srcparam1 := src_Param1 source;
           cfg_srcparam2 := src_Param2 source;
           cfg_isreflect := 1;
           cfg_autopilot := 1;
           cfg_outputtype := "fluence";
           cfg_seed := configured_seed self |},
        {| global_settings := global_settings self;
           component_settings := component_settings self;
           frames := Some frame_count;
           nx := Some x; ny := Some y; nz := Some z |}).
Proof.
  intros Ha Hs Hg Hn Hsource Hphoton Hspacing Hwindow Hdiv Hint.
  unfold get_mcx_config. rewrite pre_process_volumes_call.
  cbn [rbind from_option].
  rewrite stack_same_shape
    by (repeat first
          [ apply List.Forall_nil
          | apply List.Forall_cons; [cbn [np.div_scalar shape]; congruence|] ]).
  cbn [rbind shape np.div_scalar]. rewrite Ha.
  cbn [rbind global_settings component_settings fst snd].
  rewrite Hsource. cbn [rbind].
  rewrite Hwindow. cbn [rbind].
  rewrite Hdiv. cbn [rbind]. rewrite Hint. cbn [rbind].
  unfold Py.getitem at 1 2. cbn [global_settings component_settings].
  rewrite Hphoton, Hspacing. cbn [rbind].
  unfold configured_seed, Py.contains, Py.getitem.
  cbn [global_settings component_settings length fmap list_fmap concat data].
  rewrite app_nil_r.
  destruct (component_settings self !! Tags.MCX_SEED) as [seed|] eqn:Hseed.
  - rewrite bool_decide_eq_true_2 by by eexists. done.
  - rewrite bool_decide_eq_false_2 by (by intros [? ?]). cbn [negb].
    destruct (global_settings self !! Tags.RANDOM_SEED) as [seed|] eqn:Hglobal.
    + rewrite bool_decide_eq_true_2 by by eexists. done.
    + rewrite bool_decide_eq_false_2 by (by intros [? ?]). done.
Qed.

(** A successful bind has a successful first step. *)
Lemma rbind_Ok {A B} (c : result A) (k : A -> result B) (b : B) :
  rbind c k = Ok b -> exists a, c = Ok a /\ k a = Ok b.
Proof. destruct c as [a|e]; [by exists a|discriminate]. Qed.

Lemma stack_Ok (first : ndarray) (rest : list ndarray) (vol : ndarray) :
  np.stack (first :: rest) = Ok vol ->
  Forall (fun b => shape b = shape first) rest
  /\ vol = {| shape := length (first :: rest) :: shape first;
              data := concat (data <$> first :: rest) |}.
Proof.
  unfold np.stack. destruct (forallb _ rest) eqn:Hall; [|discriminate].
  intros [= <-]. split; [|done].
  apply List.Forall_forall. intros b Hb. rewrite forallb_forall in Hall.
  by eapply bool_decide_eq_true, Hall.
Qed.

(** Everything that a successful [get_mcx_config] implies. *)
Lemma get_mcx_config_Ok (self : instance)
    (geometry : IlluminationGeometryBase) (a s g n : ndarray)
    (config : PmcxConfig) (self' : instance) :
  get_mcx_config self geometry a s g n = Ok (config, self') ->
  exists x y z source nphoton unitinmm time dt quotient frame_count,
    shape a = [x; y; z] /\ shape s = [x; y; z]
    /\ shape g = [x; y; z] /\ shape n = [x; y; z]
    /\ get_mcx_illuminator_definition geometry (global_settings self) = Ok source
    /\ component_settings self !! Tags.OPTICAL_MODEL_NUMBER_PHOTONS = Some nphoton
    /\ global_settings self !! Tags.SPACING_MM = Some unitinmm
    /\ time_window (component_settings self) = Ok (time, dt)
    /\ Py.truediv_binary64 time dt = Ok quotient
    /\ Py.int quotient = Ok frame_count.
Proof.
  unfold get_mcx_config. rewrite pre_process_volumes_call.
  cbn [rbind from_option]. intros Hrun.
  apply rbind_Ok in Hrun as (vol & Hstack & Hrun).
  apply stack_Ok in Hstack as (Hshapes & ->).
  cbn [shape np.div_scalar] in Hshapes, Hrun.
  apply List.Forall_cons_iff in Hshapes as (Hs & Hshapes).
  apply List.Forall_cons_iff in Hshapes as (Hg & Hshapes).
  apply List.Forall_cons_iff in Hshapes as (Hn & _).
  apply rbind_Ok in Hrun as ([[x y] z] & Hdims & Hrun).
  destruct (shape a) as [|x' [|y' [|z' [|]]]] eqn:Ha; try discriminate.
  injection Hdims as -> -> ->.
  cbn [global_settings component_settings fst snd] in Hrun.
  apply rbind_Ok in Hrun as (source & Hsource & Hrun).
  apply rbind_Ok in Hrun as ([time dt] & Hwindow & Hrun).
  apply rbind_Ok in Hrun as (quotient & Hdiv & Hrun).
  apply rbind_Ok in Hrun as (frame_count & Hint & Hrun).
  apply rbind_Ok in Hrun as (nphoton & Hphoton & Hrun).
  apply rbind_Ok in Hrun as (unitinmm & Hspacing & _).
  cbn [global_settings component_settings] in Hphoton, Hspacing.
  unfold Py.getitem in Hphoton, Hspacing.
  destruct (component_settings self !! _) as [v1|] eqn:H1 in Hphoton;
    [|discriminate].
  destruct (global_settings self !! _) as [v2|] eqn:H2 in Hspacing;
    [|discriminate].
  injection Hphoton as ->. injection Hspacing as ->.
  by exists x, y, z, source, nphoton, unitinmm, time, dt, quotient, frame_count.
Qed.

Lemma get_mcx_config_Ok_form (self : instance)
    (geometry : IlluminationGeometryBase) (a s g n : ndarray)
    (config : PmcxConfig) (self' : instance) :
  get_mcx_config self geometry a s g n = Ok (config, self') ->
  exists x y z frame_count,
    shape a = [x; y; z]
    /\ cfg_vol config
       = {| shape := [4; x; y; z]%nat;
            data := ((fun v => F64.div v (F64.of_Z 10)) <$> data a)
                    ++ ((fun v => F64.div v (F64.of_Z 10)) <$> data s)
                    ++ data g ++ data n |}
    /\ cfg_seed config = configured_seed self
    /\ Some (cfg_unitinmm config) = global_settings self !! Tags.SPACING_MM
    /\ self' = {| global_settings := global_settings self;
                  component_settings := component_settings self;
                  frames := Some frame_count;
                  nx := Some x; ny := Some y; nz := Some z |}.
Proof.
  intros Hrun.
  destruct (get_mcx_config_Ok _ _ _ _ _ _ _ _ Hrun)
    as (x & y & z & source & nphoton & unitinmm & time & dt & quotient
        & frame_count & Ha & Hs & Hg & Hn & Hsource & Hphoton & Hspacing
        & Hwindow & Hdiv & Hint).
  rewrite (get_mcx_config_result self geometry a s g n x y z source nphoton
             unitinmm time dt quotient frame_count) in Hrun by done.
  injection Hrun as <- <-. by exists x, y, z, frame_count.
Qed.

(** What stops [get_mcx_config] once the volumes are stacked and the source
    is defined: an error of the time window or of the frame count. *)
Lemma get_mcx_config_timing_error (self : instance)
    (geometry : IlluminationGeometryBase) (a s g n : ndarray)
    (x y z : nat) (source : IlluminatorDefinition) (e : exn) :
  shape a = [x; y; z] -> shape s = [x; y; z] ->
  shape g = [x; y; z] -> shape n = [x; y; z] ->
  get_mcx_illuminator_definition geometry (global_settings self) = Ok source ->
  (timing <- time_window (component_settings self) ;;
   quotient <- Py.truediv_binary64 timing.1 timing.2 ;;
   Py.int quotient)%py = Raise e ->
  get_mcx_config self geometry a s g n = Raise e.
Proof.
  intros Ha Hs Hg Hn Hsource Htiming.
  unfold get_mcx_config. rewrite pre_process_volumes_call.
  cbn [rbind from_option].
  rewrite stack_same_shape
    by (repeat first
          [ apply List.Forall_nil
          | apply List.Forall_cons; [cbn [np.div_scalar shape]; congruence|] ]).
  cbn [rbind shape np.div_scalar]. rewrite Ha.
  cbn [rbind global_settings component_settings fst snd].
  rewrite Hsource. cbn [rbind].
  destruct (time_window (component_settings self)) as [[time dt]|e'];
    cbn [rbind fst snd] in *; [|congruence].
  destruct (Py.truediv_binary64 time dt) as [quotient|e']; cbn [rbind] in *;
    [|congruence].
  destruct (Py.int quotient) as [k|e']; cbn [rbind] in *; congruence.
Qed.

(** X1: The seed of the configuration: the adapter's own MCX seed when the
    component settings have one, else the global random seed when there is
    one, else none (the engine's default). *)
Theorem mcx_seed_precedence (self : instance)
    (geometry : IlluminationGeometryBase) (a s g n : ndarray)
    (config : PmcxConfig) (self' : instance) :
  get_mcx_config self geometry a s g n = Ok (config, self') ->
  (forall seed, component_settings self !! Tags.MCX_SEED = Some seed ->
                cfg_seed config = Some seed)
  /\ (component_settings self !! Tags.MCX_SEED = None ->
      cfg_seed config = global_settings self !! Tags.RANDOM_SEED).
Proof.
  intros Hrun.
  destruct (get_mcx_config_Ok_form _ _ _ _ _ _ _ _ Hrun)
    as (x & y & z & k & _ & _ & Hseed & _).
  rewrite Hseed. unfold configured_seed. split.
  - by intros seed ->.
  - by intros ->.
Qed.

Lemma mcx_seed_precedence_witness :
  let volume := constant_volume [2; 2; 2]%nat (F64.of_Q 0.1) in
  let geometry := pencil_beam_at [F64.of_Z 1; F64.of_Z 1; F64.of_Z 0] in
  let self := {| global_settings :=
                   <[Tags.RANDOM_SEED := PyInt 7]>
                     {[ Tags.SPACING_MM := PyFloat (F64.of_Q 0.5) ]};
                 component_settings :=
                   <[Tags.MCX_SEED := PyInt 42]>
                     {[ Tags.OPTICAL_MODEL_NUMBER_PHOTONS := PyInt 1000 ]};
                 frames := None; nx := None; ny := None; nz := None |} in
  exists config self',
    get_mcx_config self geometry volume volume volume volume = Ok (config, self')
    /\ cfg_seed config = Some (PyInt 42).
Proof.
  intros volume geometry self.
  destruct (get_mcx_config self geometry volume volume volume volume)
    as [[config self']|e] eqn:Hrun; [|by vm_compute in Hrun].
  exists config, self'. split; [done|].
  destruct (mcx_seed_precedence self geometry volume volume volume volume
              config self' Hrun) as [Hown _].
  apply Hown. vm_compute; reflexivity.
Defined.



(** X3: Volumes of one shape that are not three-dimensional are refused: the
    stacked volume does not unpack into four sizes. *)
Theorem mcx_config_needs_three_axes (self : instance)
    (geometry : IlluminationGeometryBase) (a s g n : ndarray) :
  shape s = shape a -> shape g = shape a -> shape n = shape a ->
  length (shape a) ≠ 3%nat ->
  get_mcx_config self geometry a s g n
  = Raise (ValueError "wrong number of values to unpack").
Proof.
  intros Hs Hg Hn Hrank.
  unfold get_mcx_config. rewrite pre_process_volumes_call.
  cbn [rbind from_option].
  rewrite stack_same_shape
    by (repeat first
          [ apply List.Forall_nil
          | apply List.Forall_cons; [cbn [np.div_scalar shape]; congruence|] ]).
  cbn [rbind shape np.div_scalar].
  by destruct (shape a) as [|x [|y [|z [|]]]].
Qed.

Lemma mcx_config_needs_three_axes_witness :
  let image := constant_volume [4; 4]%nat (F64.of_Q 0.1) in
  get_mcx_config (example_adapter ∅)
    (pencil_beam_at [F64.of_Z 1; F64.of_Z 1; F64.of_Z 0])
    image image image image
  = Raise (ValueError "wrong number of values to unpack").
Proof.
  intros image.
  apply (mcx_config_needs_three_axes (example_adapter ∅)
           (pencil_beam_at [F64.of_Z 1; F64.of_Z 1; F64.of_Z 0])
           image image image image); try reflexivity.
  simpl. lia.
Defined.

(** X4: A total time without a time step is not completed by the default step:
    the configuration fails with a KeyError for the time step. *)
Theorem mcx_total_time_needs_time_step (self : instance)
    (geometry : IlluminationGeometryBase) (a s g n : ndarray)
    (x y z : nat) (source : IlluminatorDefinition) (time : pyval) :
  shape a = [x; y; z] -> shape s = [x; y; z] ->
  shape g = [x; y; z] -> shape n = [x; y; z] ->
  get_mcx_illuminator_definition geometry (global_settings self) = Ok source ->
  component_settings self !! Tags.TOTAL_TIME = Some time ->
  component_settings self !! Tags.TIME_STEP = None ->
  get_mcx_config self geometry a s g n = Raise (KeyError Tags.TIME_STEP).
Proof.
  intros Ha Hs Hg Hn Hsource Htime Hstep.
  eapply get_mcx_config_timing_error; try done.
  by rewrite (time_window_total_time_only _ time).
Qed.

Lemma mcx_total_time_needs_time_step_witness :
  let volume := constant_volume [2; 2; 2]%nat (F64.of_Q 0.1) in
  get_mcx_config
    (example_adapter {[ Tags.TOTAL_TIME := PyFloat (F64.of_Q 1e-08) ]})
    (pencil_beam_at [F64.of_Z 1; F64.of_Z 1; F64.of_Z 0])
    volume volume volume volume
  = Raise (KeyError Tags.TIME_STEP).
Proof.
  intros volume.
  eapply (mcx_total_time_needs_time_step _ _ volume volume volume volume
            2 2 2); reflexivity.
Defined.

(** X5: A time step of zero stops the configuration with a ZeroDivisionError,
    and the engine is not invoked. *)
Theorem mcx_zero_time_step (pmcx_run : PmcxConfig -> result (gmap string ndarray))
    (self : instance) (geometry : IlluminationGeometryBase)
    (a s g n : ndarray) (x y z : nat) (source : IlluminatorDefinition)
    (time dt : pyval) (t : f64) (log : list event) :
  shape a = [x; y; z] -> shape s = [x; y; z] ->
  shape g = [x; y; z] -> shape n = [x; y; z] ->
  get_mcx_illuminator_definition geometry (global_settings self) = Ok source ->
  component_settings self !! Tags.TOTAL_TIME = Some time ->
  component_settings self !! Tags.TIME_STEP = Some dt ->
  Py.as_number time = Ok t -> Py.as_number dt = Ok F64.zero ->
  get_mcx_config self geometry a s g n = Raise ZeroDivisionError
  /\ forward_model pmcx_run self a s g n geometry log
     = (Raise ZeroDivisionError, log).
Proof.
  intros Ha Hs Hg Hn Hsource Htime Hstep Ht Hdt.
  assert (Hcfg : get_mcx_config self geometry a s g n = Raise ZeroDivisionError).
  { eapply get_mcx_config_timing_error; try done.
    rewrite (time_window_configured _ time dt) by done.
    cbn [rbind fst snd]. unfold Py.truediv_binary64, Py.truediv.
    rewrite Ht, Hdt. cbn [rbind].
    by destruct (decide (F64.zero = F64.zero)). }
  split; [done|]. unfold forward_model, mbind, lift. by rewrite Hcfg.
Qed.

Lemma mcx_zero_time_step_witness :
  let volume := constant_volume [2; 2; 2]%nat (F64.of_Q 0.1) in
  forward_model (fun _ => Ok ∅)
    (example_adapter (<[Tags.TOTAL_TIME := PyFloat (F64.of_Q 1e-08)]>
                      {[ Tags.TIME_STEP := PyInt 0 ]}))
    volume volume volume volume
    (pencil_beam_at [F64.of_Z 1; F64.of_Z 1; F64.of_Z 0]) []
  = (Raise ZeroDivisionError, []).
Proof.
  intros volume.
  eapply (mcx_zero_time_step (fun _ => Ok ∅) _ _ volume volume volume volume
            2 2 2); reflexivity.
Defined.

(** ** optical_forward_model_mcx_adapter.py: results of any rank *)

Lemma size_delete_unit_axis (s : list nat) (i : nat) :
  s !! i = Some 1%nat -> np.size (delete i s) = np.size s.
Proof.
  revert i. induction s as [|n s IH]; intros [|i] Hi; try done.
  - injection Hi as ->. cbn. lia.
  - change (np.size (n :: delete i s) = np.size (n :: s)).
    change (n * np.size (delete i s) = n * np.size s)%nat.
    by rewrite (IH i Hi).
Qed.

(** X6: [parse_pmcx_results] succeeds exactly on results that hold a flux with
    at least four axes: without the key it raises KeyError, with fewer axes
    IndexError.  The fluence keeps every element (times 100) in order; the
    fourth axis is dropped when its length is one, whatever comes after it,
    so a well-formed flux gives a well-formed fluence. *)
Theorem parse_pmcx_results_total (pmcx_results : gmap string ndarray) :
  (pmcx_results !! "flux" = None ->
   parse_pmcx_results pmcx_results = Raise (KeyError "flux"))
  /\ (forall flux,
      pmcx_results !! "flux" = Some flux -> (length (shape flux) < 4)%nat ->
      parse_pmcx_results pmcx_results
      = Raise (IndexError "tuple index out of range"))
  /\ (forall flux,
      pmcx_results !! "flux" = Some flux -> (4 <= length (shape flux))%nat ->
      exists fluence,
        parse_pmcx_results pmcx_results
        = Ok {[ Tags.DATA_FIELD_FLUENCE := fluence ]}
        /\ data fluence = (fun v => F64.mul v (F64.of_Z 100)) <$> data flux
        /\ shape fluence
           = (if decide (shape flux !! 3%nat = Some 1%nat)
              then delete 3%nat (shape flux) else shape flux)
        /\ np.size (shape fluence) = np.size (shape flux)
        /\ (np.well_formed flux -> np.well_formed fluence)).
Proof.
  unfold parse_pmcx_results, Py.getitem. split; [by intros ->|]. split.
  - intros flux -> Hrank. cbn [rbind]. unfold np.shape_at.
    cbn [shape np.mul_scalar].
    by rewrite (lookup_ge_None_2 (shape flux) 3) by lia.
  - intros flux -> Hrank. cbn [rbind]. unfold np.shape_at, np.squeeze.
    cbn [shape np.mul_scalar].
    destruct (lookup_lt_is_Some_2 (shape flux) 3 ltac:(lia)) as [t Ht].
    rewrite Ht. cbn [rbind].
    destruct (decide (t = 1%nat)) as [->|Hne].
    + exists {| shape := delete 3%nat (shape flux);
                data := (fun v => F64.mul v (F64.of_Z 100)) <$> data flux |}.
      cbn [data shape]. rewrite decide_True by done.
      split; [done|]. split; [done|]. split; [done|].
      split; [by apply size_delete_unit_axis|].
      unfold np.well_formed. cbn [data shape]. intros Hwf.
      by rewrite length_fmap, Hwf, size_delete_unit_axis.
    + exists {| shape := shape flux;
                data := (fun v => F64.mul v (F64.of_Z 100)) <$> data flux |}.
      cbn [data shape]. rewrite decide_False by congruence.
      repeat split; try done.
      unfold np.well_formed. cbn [data shape]. intros Hwf.
      by rewrite length_fmap.
Qed.

Lemma parse_pmcx_results_total_witness :
  exists fluence,
    parse_pmcx_results
      {[ "flux" := mk_ndarray [1; 1; 2; 1; 2]%nat
                     [F64.of_Z 1; F64.of_Z 2; F64.of_Z 3; F64.of_Z 4] ]}
    = Ok {[ Tags.DATA_FIELD_FLUENCE := fluence ]}
    /\ shape fluence = [1; 1; 2; 2]%nat
    /\ data fluence = [F64.of_Z 100; F64.of_Z 200; F64.of_Z 300; F64.of_Z 400].
Proof.
  destruct (parse_pmcx_results_total
              {[ "flux" := mk_ndarray [1; 1; 2; 1; 2]%nat
                     [F64.of_Z 1; F64.of_Z 2; F64.of_Z 3; F64.of_Z 4] ]})
    as (_ & _ & Hparse).
  destruct (Hparse (mk_ndarray [1; 1; 2; 1; 2]%nat
                     [F64.of_Z 1; F64.of_Z 2; F64.of_Z 3; F64.of_Z 4]))
    as (fluence & Hrun & Hdata & Hshape & _).
  - vm_compute; reflexivity.
  - simpl. lia.
  - exists fluence. split; [exact Hrun|]. rewrite Hshape, Hdata.
    split; [reflexivity|by_evaluation].
Defined.

(** ** optical_forward_model_mcx_adapter.py: one engine call *)

(** X7: [forward_model] calls the engine at most once: not at all when the
    configuration cannot be built (the error of [get_mcx_config] is the
    result), and otherwise exactly once, with the configuration built; an
    exception of the engine is the result, and so is one of the parser. *)
Theorem forward_model_calls_engine_once
    (pmcx_run : PmcxConfig -> result (gmap string ndarray))
    (self : instance) (geometry : IlluminationGeometryBase)
    (a s g n : ndarray) (log : list event) :
  (forall e, get_mcx_config self geometry a s g n = Raise e ->
             forward_model pmcx_run self a s g n geometry log = (Raise e, log))
  /\ (forall config self',
      get_mcx_config self geometry a s g n = Ok (config, self') ->
      (forall e, pmcx_run config = Raise e ->
                 forward_model pmcx_run self a s g n geometry log
                 = (Raise e, log ++ [EvPmcxRun config]))
      /\ (forall pmcx_results,
          pmcx_run config = Ok pmcx_results ->
          forward_model pmcx_run self a s g n geometry log
          = ((results <- parse_pmcx_results pmcx_results ;;
              Ok (results, self'))%py,
             log ++ [EvPmcxRun config]))).
Proof.
  unfold forward_model, mbind, lift, call, mret. split.
  - by intros e ->.
  - intros config self' ->. split.
    + by intros e ->.
    + intros pmcx_results ->.
      by destruct (parse_pmcx_results pmcx_results).
Qed.

Lemma forward_model_calls_engine_once_witness :
  let geometry := pencil_beam_at [F64.of_Z 1; F64.of_Z 1; F64.of_Z 0] in
  let volume := constant_volume [1; 1; 2]%nat (F64.of_Z 10) in
  exists config,
    forward_model (fun _ => Raise (ValueError "GPU allocation failed"))
      (example_adapter ∅) volume volume volume volume geometry []
    = (Raise (ValueError "GPU allocation failed"), [EvPmcxRun config]).
Proof.
  intros geometry volume.
  destruct (get_mcx_config (example_adapter ∅) geometry volume volume volume
              volume) as [[config self']|e] eqn:Hcfg; [|by vm_compute in Hcfg].
  exists config.
  destruct (forward_model_calls_engine_once
              (fun _ => Raise (ValueError "GPU allocation failed"))
              (example_adapter ∅) geometry volume volume volume volume [])
    as [_ Hbuilt].
  destruct (Hbuilt config self' Hcfg) as [Hraise _].
  by apply Hraise.
Defined.

(** ** data_sanity_testing.py: every flag and every shape *)

Lemma assert_array_well_defined_unfold (caller : FrameInfo) (array : ndarray)
    (nn pos : bool) (array_name : option string) :
  assert_array_well_defined caller array nn pos array_name
  = if nn && existsb (fun x => F64.ltb x F64.zero) (data array)
    then Raise (AssertionError (array_error_message caller "negative" array_name))
    else if pos && existsb (fun x => F64.leb x F64.zero) (data array)
    then Raise (AssertionError
                  (array_error_message caller "not positive" array_name))
    else if negb (forallb F64.isfinite (data array))
    then Raise (AssertionError
                  (array_error_message caller "nan, inf or -inf" array_name))
    else Ok tt.
Proof.
  unfold assert_array_well_defined, array_error_message.
  destruct nn, pos;
    destruct (existsb (fun x => F64.ltb x F64.zero) (data array));
    destruct (existsb (fun x => F64.leb x F64.zero) (data array));
    destruct (forallb F64.isfinite (data array));
    cbn [andb negb]; try done;
    (do 2 f_equal; rewrite !string_append_assoc; reflexivity).
Qed.

Lemma existsb_false_Forall {A} (p : A -> bool) (l : list A) :
  existsb p l = false <-> Forall (fun x => p x = false) l.
Proof.
  induction l as [|x l IH]; cbn; [by split|].
  rewrite orb_false_iff, IH, List.Forall_cons_iff. done.
Qed.

Lemma forallb_true_Forall {A} (p : A -> bool) (l : list A) :
  forallb p l = true <-> Forall (fun x => p x = true) l.
Proof.
  induction l as [|x l IH]; cbn; [by split|].
  rewrite andb_true_iff, IH, List.Forall_cons_iff. done.
Qed.

Lemma F64_positive (x : f64) :
  F64.isfinite x = true -> F64.leb x F64.zero = false <-> F64.lt F64.zero x.
Proof.
  destruct x as [q| | |]; try discriminate. intros _.
  unfold F64.lt, F64.zero, F64.of_Z. cbn.
  rewrite bool_decide_eq_false, bool_decide_eq_true.
  symmetry. apply Qclt_nge.
Qed.

Lemma F64_non_negative (x : f64) :
  F64.isfinite x = true -> F64.ltb x F64.zero = false <-> F64.le F64.zero x.
Proof.
  destruct x as [q| | |]; try discriminate. intros _.
  unfold F64.le, F64.zero, F64.of_Z. cbn.
  rewrite bool_decide_eq_false, bool_decide_eq_true.
  symmetry. apply Qcle_ngt.
Qed.

(** X8: [assert_array_well_defined] passes exactly the arrays whose entries are
    all finite, all greater than zero when positivity is assumed, and all
    at least zero when non-negativity is assumed; in particular an empty
    array always passes. *)
Theorem assert_array_well_defined_passes (caller : FrameInfo) (array : ndarray)
    (assume_non_negativity assume_positivity : bool)
    (array_name : option string) :
  assert_array_well_defined caller array assume_non_negativity
    assume_positivity array_name = Ok tt
  <-> Forall (fun x => F64.isfinite x = true
                       /\ (assume_positivity = true -> F64.lt F64.zero x)
                       /\ (assume_non_negativity = true -> F64.le F64.zero x))
             (data array).
Proof.
  rewrite assert_array_well_defined_unfold. split.
  - intros Hpass.
    destruct (assume_non_negativity
              && existsb (fun x => F64.ltb x F64.zero) (data array)) eqn:Hneg;
      [discriminate|].
    destruct (assume_positivity
              && existsb (fun x => F64.leb x F64.zero) (data array)) eqn:Hpos;
      [discriminate|].
    destruct (negb (forallb F64.isfinite (data array))) eqn:Hfin;
      [discriminate|].
    apply negb_false_iff, forallb_true_Forall in Hfin.
    apply andb_false_iff in Hneg, Hpos.
    rewrite !existsb_false_Forall in Hneg, Hpos.
    apply Forall_forall. intros x Hx.
    rewrite Forall_forall in Hfin. specialize (Hfin x Hx).
    split; [done|]. split.
    + intros ->. destruct Hpos as [|Hpos]; [done|].
      rewrite Forall_forall in Hpos. by apply F64_positive, Hpos.
    + intros ->. destruct Hneg as [|Hneg]; [done|].
      rewrite Forall_forall in Hneg. by apply F64_non_negative, Hneg.
  - intros Hall.
    assert (Hfin : forallb F64.isfinite (data array) = true).
    { apply forallb_true_Forall. eapply List.Forall_impl; [|exact Hall].
      by intros x (? & _). }
    assert (Hneg : assume_non_negativity
                   && existsb (fun x => F64.ltb x F64.zero) (data array)
                   = false).
    { destruct assume_non_negativity; [|done]. cbn [andb].
      apply existsb_false_Forall. eapply List.Forall_impl; [|exact Hall].
      intros x (Hx & _ & Hnn). by apply F64_non_negative, Hnn. }
    assert (Hpos : assume_positivity
                   && existsb (fun x => F64.leb x F64.zero) (data array)
                   = false).
    { destruct assume_positivity; [|done]. cbn [andb].
      apply existsb_false_Forall. eapply List.Forall_impl; [|exact Hall].
      intros x (Hx & Hp & _). by apply F64_positive, Hp. }
    by rewrite Hneg, Hpos, Hfin.
Qed.

Lemma assert_array_well_defined_passes_witness :
  let caller := {| frame_function := "run"; frame_filename := "noise.py";
                   frame_lineno := "87"; frame_code_context := "" |} in
  assert_array_well_defined caller
    (mk_ndarray [3%nat] [F64.of_Q 0.5; F64.of_Z 2; F64.of_Z 7]) true true None
  = Ok tt.
Proof.
  intros caller. apply assert_array_well_defined_passes. cbn [data].
  repeat first [apply List.Forall_nil | apply List.Forall_cons];
    (split; [reflexivity|split; intros _; reflexivity]).
Defined.

Lemma existsb_true_Exists {A} (p : A -> bool) (l : list A) :
  existsb p l = true <-> Exists (fun x => p x = true) l.
Proof.
  induction l as [|x l IH]; cbn.
  - split; [discriminate|]. intros H. inversion H.
  - by rewrite orb_true_iff, IH, List.Exists_cons.
Qed.

(** X9: The error of [assert_array_well_defined] names one failed check, the
    last one of the source: a negative entry (under non-negativity) is
    reported as "negative" even when the array also holds NaN; otherwise an
    entry that is not positive (under positivity) as "not positive", also
    for -inf; otherwise the non-finite entry.  Without an array name the
    message says 'Not specified'. *)
Theorem assert_array_well_defined_reason (caller : FrameInfo) (array : ndarray)
    (assume_non_negativity assume_positivity : bool)
    (array_name : option string) :
  (assume_non_negativity = true ->
   Exists (fun x => F64.lt x F64.zero) (data array) ->
   assert_array_well_defined caller array assume_non_negativity
     assume_positivity array_name
   = Raise (AssertionError (array_error_message caller "negative" array_name)))
  /\ (assume_positivity = true ->
      Exists (fun x => F64.le x F64.zero) (data array) ->
      (assume_non_negativity = false
       \/ Forall (fun x => F64.ltb x F64.zero = false) (data array)) ->
      assert_array_well_defined caller array assume_non_negativity
        assume_positivity array_name
      = Raise (AssertionError
                 (array_error_message caller "not positive" array_name)))
  /\ (Exists (fun x => F64.isfinite x = false) (data array) ->
      (assume_non_negativity = false
       \/ Forall (fun x => F64.ltb x F64.zero = false) (data array)) ->
      (assume_positivity = false
       \/ Forall (fun x => F64.leb x F64.zero = false) (data array)) ->
      assert_array_well_defined caller array assume_non_negativity
        assume_positivity array_name
      = Raise (AssertionError
                 (array_error_message caller "nan, inf or -inf" array_name))).
Proof.
  rewrite assert_array_well_defined_unfold.
  assert (Hoff : forall (flag : bool) (p : f64 -> bool),
            flag = false \/ Forall (fun x => p x = false) (data array) ->
            flag && existsb p (data array) = false).
  { intros flag p [->|Hall]; [done|].
    apply andb_false_iff. right. by apply existsb_false_Forall. }
  split; [|split].
  - intros -> Hneg. apply existsb_true_Exists in Hneg. by rewrite Hneg.
  - intros -> Hpos Hneg. apply existsb_true_Exists in Hpos.
    by rewrite (Hoff _ _ Hneg), Hpos.
  - intros Hfin Hneg Hpos.
    rewrite (Hoff _ _ Hneg), (Hoff _ _ Hpos).
    assert (Hnot : forallb F64.isfinite (data array) = false).
    { apply not_true_iff_false. intros Hall.
      apply forallb_true_Forall in Hall.
      apply List.Exists_exists in Hfin as (x & Hx & Hxf).
      rewrite List.Forall_forall in Hall. specialize (Hall x Hx). congruence. }
    by rewrite Hnot.
Qed.

Lemma assert_array_well_defined_reason_witness :
  let caller := {| frame_function := "run"; frame_filename := "noise.py";
                   frame_lineno := "87"; frame_code_context := "" |} in
  assert_array_well_defined caller
    (mk_ndarray [3%nat] [NaN; F64.of_Z (-1); F64.of_Z 2]) true false None
  = Raise (AssertionError (array_error_message caller "negative" None)).
Proof.
  intros caller.
  destruct (assert_array_well_defined_reason caller
              (mk_ndarray [3%nat] [NaN; F64.of_Z (-1); F64.of_Z 2])
              true false None) as [Hnegative _].
  apply Hnegative; [reflexivity|].
  cbn [data]. apply List.Exists_cons_tl, List.Exists_cons_hd. reflexivity.
Defined.

(** X10: Two or more arrays with the same number of axes pass
    [assert_equal_shapes] if and only if all their shapes are equal;
    otherwise the AssertionError that names the calling function is
    raised. *)
Theorem assert_equal_shapes_passes_iff (caller : FrameInfo) (first : ndarray)
    (others : list ndarray) :
  others ≠ [] ->
  Forall (fun b => length (shape b) = length (shape first)) others ->
  (assert_equal_shapes caller (first :: others) = Ok tt
   <-> Forall (fun b => shape b = shape first) others)
  /\ (assert_equal_shapes caller (first :: others) ≠ Ok tt ->
      assert_equal_shapes caller (first :: others)
      = Raise (AssertionError
          ("The given volumes did not all have the same dimensions."
           +:+ " Please double check the simulation parameters. Called from "
           +:+ frame_function caller))).
Proof.
  intros Hne Hrank.
  destruct (assert_equal_shapes_compares caller first others Hne Hrank)
    as [Hpass Hraise].
  destruct (decide (Forall (fun b => shape b = shape first) others))
    as [Hall|Hdiff].
  - split; [by split|]. intros Hnot. by destruct Hnot; apply Hpass.
  - split.
    + split; [|done]. rewrite (Hraise Hdiff). discriminate.
    + intros _. by rewrite (Hraise Hdiff).
Qed.

Lemma assert_equal_shapes_passes_iff_witness :
  let caller := {| frame_function := "create_volume";
                   frame_filename := "volume.py";
                   frame_lineno := "1"; frame_code_context := "" |} in
  assert_equal_shapes caller
    [constant_volume [2; 3]%nat F64.one; constant_volume [2; 3]%nat NaN;
     constant_volume [2; 3]%nat PInf]
  = Ok tt.
Proof.
  intros caller.
  apply (assert_equal_shapes_passes_iff caller
           (constant_volume [2; 3]%nat F64.one)
           [constant_volume [2; 3]%nat NaN; constant_volume [2; 3]%nat PInf]).
  - discriminate.
  - repeat constructor.
  - repeat constructor.
Defined.

(** X11: Arrays that do not all have as many axes as the first are not compared:
    the conversion of the shapes to a matrix fails with a ValueError, not
    with the AssertionError of the check. *)
Theorem assert_equal_shapes_unequal_ranks (caller : FrameInfo)
    (first : ndarray) (others : list ndarray) :
  ¬ Forall (fun b => length (shape b) = length (shape first)) others ->
  exists message,
    assert_equal_shapes caller (first :: others)
    = Raise (ValueError message).
Proof.
  intros Hrank. eexists. unfold assert_equal_shapes.
  destruct (decide (length (first :: others) < 2)%nat) as [Hlen|_].
  { destruct others; [by destruct Hrank|]. cbn in Hlen. lia. }
  change (length (default [] (head (shape <$> first :: others))))
    with (length (shape first)).
  destruct (forallb _ _) eqn:Hall; [|done].
  destruct Hrank. apply List.Forall_forall. intros b Hb.
  rewrite forallb_forall in Hall.
  eapply bool_decide_eq_true, (Hall (shape b)).
  apply list_elem_of_In, list_elem_of_fmap. exists b. split; [done|].
  apply elem_of_cons. right. by apply list_elem_of_In.
Qed.

Lemma assert_equal_shapes_unequal_ranks_witness :
  let caller := {| frame_function := "create_volume";
                   frame_filename := "volume.py";
                   frame_lineno := "1"; frame_code_context := "" |} in
  exists message,
    assert_equal_shapes caller
      [constant_volume [4; 4; 4]%nat F64.one;
       constant_volume [4; 4]%nat F64.one]
    = Raise (ValueError message).
Proof.
  intros caller.
  apply (assert_equal_shapes_unequal_ranks caller
           (constant_volume [4; 4; 4]%nat F64.one)
           [constant_volume [4; 4]%nat F64.one]).
  intros Hall. apply List.Forall_cons_iff in Hall as [Hlen _]. discriminate.
Defined.

(** ** pencil_beam_illumination.py: failures and serialization *)

(** X12: The pencil-beam definition exists exactly when the settings hold a
    numeric voxel spacing, and it reads nothing else from the settings: a
    missing spacing is a KeyError, a spacing that is no number a TypeError;
    the position has as many coordinates as the probe position. *)
Theorem pencil_definition_reads_spacing_only (gs : gmap string pyval)
    (ps : list f64) :
  (gs !! Tags.SPACING_MM = None ->
   PencilBeamIlluminationGeometry.get_mcx_illuminator_definition gs ps
   = Raise (KeyError Tags.SPACING_MM))
  /\ (forall v e, gs !! Tags.SPACING_MM = Some v -> Py.as_number v = Raise e ->
      exists msg,
        PencilBeamIlluminationGeometry.get_mcx_illuminator_definition gs ps
        = Raise (TypeError msg))
  /\ (forall d,
      PencilBeamIlluminationGeometry.get_mcx_illuminator_definition gs ps = Ok d ->
      length (src_Pos d) = length ps
      /\ exists v s, gs !! Tags.SPACING_MM = Some v /\ Py.as_number v = Ok s)
  /\ (forall gs' : gmap string pyval,
      gs' !! Tags.SPACING_MM = gs !! Tags.SPACING_MM ->
      PencilBeamIlluminationGeometry.get_mcx_illuminator_definition gs' ps
      = PencilBeamIlluminationGeometry.get_mcx_illuminator_definition gs ps).
Proof.
  unfold PencilBeamIlluminationGeometry.get_mcx_illuminator_definition,
    Py.getitem.
  split; [by intros ->|]. split; [|split].
  - intros v e -> Hv. cbn [rbind].
    destruct v; try discriminate; cbn; by eexists.
  - intros d Hd. destruct (gs !! Tags.SPACING_MM) as [v|]; [|discriminate].
    cbn [rbind] in Hd. destruct (Py.as_number v) as [s|] eqn:Hs;
      [|discriminate].
    injection Hd as <-. cbn [src_Pos]. rewrite length_fmap.
    split; [done|]. by exists v, s.
  - by intros gs' ->.
Qed.

Lemma pencil_definition_reads_spacing_only_witness :
  PencilBeamIlluminationGeometry.get_mcx_illuminator_definition
    {[ Tags.WAVELENGTH := PyInt 800 ]} [F64.of_Z 1; F64.of_Z 2; F64.of_Z 3]
  = Raise (KeyError Tags.SPACING_MM).
Proof.
  destruct (pencil_definition_reads_spacing_only
              {[ Tags.WAVELENGTH := PyInt 800 ]}
              [F64.of_Z 1; F64.of_Z 2; F64.of_Z 3]) as [Hmissing _].
  apply Hmissing. vm_compute; reflexivity.
Defined.

Lemma deserialize_union {V} (fresh d : gmap string V) :
  PencilBeamSerialization.deserialize fresh d = d ∪ fresh.
Proof.
  unfold PencilBeamSerialization.deserialize.
  apply (map_fold_weak_ind (fun r m => r = m ∪ fresh)).
  - by rewrite (left_id_L ∅ (∪)).
  - intros key value m r _ ->. by rewrite insert_union_l.
Qed.

(** X13: Serialization round trip: deserializing the dictionary that [serialize]
    stores under "PencilBeamIlluminationGeometry" gives a device with every
    attribute of the original at its value; attributes that the original
    does not have keep the value of a freshly constructed device, so the
    result is the original whenever it has all the attributes of a fresh
    device. *)
Theorem pencil_serialize_deserialize {V} (fresh self : gmap string V) :
  exists d,
    PencilBeamSerialization.serialize self !! "PencilBeamIlluminationGeometry"
    = Some d
    /\ (forall key value, self !! key = Some value ->
        PencilBeamSerialization.deserialize fresh d !! key = Some value)
    /\ (forall key, self !! key = None ->
        PencilBeamSerialization.deserialize fresh d !! key = fresh !! key)
    /\ (dom fresh ⊆ dom self ->
        PencilBeamSerialization.deserialize fresh d = self).
Proof.
  exists self. unfold PencilBeamSerialization.serialize.
  split; [by rewrite lookup_singleton_eq|].
  rewrite deserialize_union. split; [|split].
  - intros key value Hkey. by apply lookup_union_Some_l.
  - intros key Hkey. by apply lookup_union_r.
  - intros Hdom. apply map_eq. intros key.
    destruct (self !! key) as [value|] eqn:Hkey.
    + by apply lookup_union_Some_l.
    + rewrite lookup_union_r by done.
      apply not_elem_of_dom. apply not_elem_of_dom in Hkey.
      intros Hin. by apply Hkey, Hdom.
Qed.

Lemma pencil_serialize_deserialize_witness :
  PencilBeamSerialization.deserialize
    (<["device_position_mm" := PyNone]> {[ "field_of_view" := PyNone ]})
    (<["device_position_mm" := PyInt 5]> {[ "field_of_view" := PyInt 20 ]})
  = <["device_position_mm" := PyInt 5]> {[ "field_of_view" := PyInt 20 ]}.
Proof.
  destruct (pencil_serialize_deserialize
              (<["device_position_mm" := PyNone]> {[ "field_of_view" := PyNone ]})
              (<["device_position_mm" := PyInt 5]>
                 ({[ "field_of_view" := PyInt 20 ]} : gmap string pyval)))
    as (d & Hd & _ & _ & Hround).
  unfold PencilBeamSerialization.serialize in Hd.
  rewrite lookup_singleton_eq in Hd. injection Hd as <-.
  apply Hround. rewrite !dom_insert_L, !dom_singleton_L. done.
Defined.

(** ** optical_modelling.py: the whole run *)

Section Runs.

Variable generate_dict_path :
  gmap string pyval -> string -> pyval -> bool -> result string.
Variable simulate : adapter -> string -> gmap string pyval -> result ndarray.
Variable load_hdf5 : pyval -> string -> result (gmap string ndarray).
Variable save_hdf5 :
  ndarray -> ndarray -> units -> pyval -> string -> result unit.
Variable OPTICAL_OUTPUT_format : string -> pyval -> string.

(** The run up to the call of the adapter, for a known model tag *)
Lemma run_until_simulate (settings : gmap string pyval)
    (model wavelength : pyval) (implementation : adapter) (path : string)
    (log : list event) :
  (model, implementation)
    ∈ [(Tags.OPTICAL_MODEL_MCXYZ, McxyzAdapter);
        (Tags.OPTICAL_MODEL_MCX, McxAdapter);
        (Tags.OPTICAL_MODEL_TEST, TestOpticalAdapter)] ->
  settings !! Tags.OPTICAL_MODEL = Some model ->
  settings !! Tags.WAVELENGTH = Some wavelength ->
  generate_dict_path settings Tags.SIMULATION_PROPERTIES wavelength false
  = Ok path ->
  run_optical_forward_model generate_dict_path simulate load_hdf5 save_hdf5
    OPTICAL_OUTPUT_format settings log
  = match simulate implementation path settings with
    | Raise e =>
        (Raise e,
         log ++ [EvPrint "OPTICAL FORWARD";
                 EvGenerateDictPath Tags.SIMULATION_PROPERTIES wavelength false;
                 EvSimulate implementation path])
    | Ok fluence =>
        (output_file <~ lift (Py.getitem settings Tags.SIMPA_OUTPUT_PATH) ;;
         optical_properties <~
           call (EvLoadHdf5 output_file path) (load_hdf5 output_file path) ;;
         absorption <~
           lift (Py.getitem optical_properties Tags.PROPERTY_ABSORPTION_PER_CM) ;;
         gruneisen_parameter <~
           lift (Py.getitem optical_properties
                   Tags.PROPERTY_GRUNEISEN_PARAMETER) ;;
         pu <~ lift (initial_pressure_and_units settings absorption fluence
                       gruneisen_parameter) ;;
         let optical_output_path :=
           OPTICAL_OUTPUT_format Tags.ORIGINAL_DATA wavelength in
         _ <~ call (EvSaveHdf5 fluence pu.1 pu.2 output_file
                      optical_output_path)
                   (save_hdf5 fluence pu.1 pu.2 output_file
                      optical_output_path) ;;
         mret optical_output_path)%M
          (log ++ [EvPrint "OPTICAL FORWARD";
                   EvGenerateDictPath Tags.SIMULATION_PROPERTIES wavelength false;
                   EvSimulate implementation path])
    end.
Proof.
  intros Hmodel Hsettings Hwave Hpath.
  assert (Hselect :
    (if Py.eqb model Tags.OPTICAL_MODEL_MCXYZ then Some McxyzAdapter
     else if Py.eqb model Tags.OPTICAL_MODEL_MCX then Some McxAdapter
     else if Py.eqb model Tags.OPTICAL_MODEL_TEST then Some TestOpticalAdapter
     else None) = Some implementation).
  { repeat (apply elem_of_cons in Hmodel as [[= -> ->]|Hmodel]; [done|]).
    by apply elem_of_nil in Hmodel. }
  unfold run_optical_forward_model, mbind, call, lift, mret.
  unfold Py.contains, Py.getitem at 1 2. rewrite Hsettings, Hwave.
  rewrite bool_decide_eq_true_2 by by eexists.
  cbn [negb]. rewrite Hselect, Hpath.
  rewrite <- !app_assoc. cbn [app].
  destruct (simulate implementation path settings) as [fluence|e]; [|done].
  destruct (Py.getitem settings Tags.SIMPA_OUTPUT_PATH) as [file|]; [|done].
  destruct (load_hdf5 file path) as [properties|]; [|done].
  destruct (Py.getitem properties Tags.PROPERTY_ABSORPTION_PER_CM); [|done].
  destruct (Py.getitem properties Tags.PROPERTY_GRUNEISEN_PARAMETER); [|done].
  destruct (initial_pressure_and_units _ _ _ _) as [[pressure mode]|]; [|done].
  unfold Py.getitem. rewrite Hwave. cbn [fst snd].
  by destruct (save_hdf5 _ _ _ _ _).
Qed.


(** X14: A known model tag selects its adapter, which is invoked on the derived
    path; when the adapter raises, the run raises the same exception and
    nothing has been read or written. *)
Theorem run_adapter_failure (settings : gmap string pyval)
    (model wavelength : pyval) (implementation : adapter) (path : string)
    (e : exn) (log : list event) :
  (model, implementation)
    ∈ [(Tags.OPTICAL_MODEL_MCXYZ, McxyzAdapter);
        (Tags.OPTICAL_MODEL_MCX, McxAdapter);
        (Tags.OPTICAL_MODEL_TEST, TestOpticalAdapter)] ->
  settings !! Tags.OPTICAL_MODEL = Some model ->
  settings !! Tags.WAVELENGTH = Some wavelength ->
  generate_dict_path settings Tags.SIMULATION_PROPERTIES wavelength false
  = Ok path ->
  simulate implementation path settings = Raise e ->
  run_optical_forward_model generate_dict_path simulate load_hdf5 save_hdf5
    OPTICAL_OUTPUT_format settings log
  = (Raise e,
     log ++ [EvPrint "OPTICAL FORWARD";
             EvGenerateDictPath Tags.SIMULATION_PROPERTIES wavelength false;
             EvSimulate implementation path]).
Proof.
  intros Hmodel Hsettings Hwave Hpath Hsim.
  rewrite (run_until_simulate _ _ _ _ _ _ Hmodel Hsettings Hwave Hpath).
  by rewrite Hsim.
Qed.

(** X15: Stored properties that lack the absorption or the Grueneisen field stop
    the run with a KeyError on that field, absorption first: the adapter
    has run and the properties have been read, nothing is written. *)
Theorem run_missing_property_field (settings : gmap string pyval)
    (model wavelength file : pyval) (implementation : adapter)
    (path : string) (fluence : ndarray) (properties : gmap string ndarray)
    (log : list event) :
  (model, implementation)
    ∈ [(Tags.OPTICAL_MODEL_MCXYZ, McxyzAdapter);
        (Tags.OPTICAL_MODEL_MCX, McxAdapter);
        (Tags.OPTICAL_MODEL_TEST, TestOpticalAdapter)] ->
  settings !! Tags.OPTICAL_MODEL = Some model ->
  settings !! Tags.WAVELENGTH = Some wavelength ->
  settings !! Tags.SIMPA_OUTPUT_PATH = Some file ->
  generate_dict_path settings Tags.SIMULATION_PROPERTIES wavelength false
  = Ok path ->
  simulate implementation path settings = Ok fluence ->
  load_hdf5 file path = Ok properties ->
  forall field,
    (field = Tags.PROPERTY_ABSORPTION_PER_CM
     /\ properties !! Tags.PROPERTY_ABSORPTION_PER_CM = None)
    \/ (field = Tags.PROPERTY_GRUNEISEN_PARAMETER
        /\ is_Some (properties !! Tags.PROPERTY_ABSORPTION_PER_CM)
        /\ properties !! Tags.PROPERTY_GRUNEISEN_PARAMETER = None) ->
    run_optical_forward_model generate_dict_path simulate load_hdf5 save_hdf5
      OPTICAL_OUTPUT_format settings log
    = (Raise (KeyError field),
       log ++ [EvPrint "OPTICAL FORWARD";
               EvGenerateDictPath Tags.SIMULATION_PROPERTIES wavelength false;
               EvSimulate implementation path;
               EvLoadHdf5 file path]).
Proof.
  intros Hmodel Hsettings Hwave Hfile Hpath Hsim Hload field Hfield.
  rewrite (run_until_simulate _ _ _ _ _ _ Hmodel Hsettings Hwave Hpath).
  rewrite Hsim. unfold mbind, call, lift, mret.
  unfold Py.getitem at 1. rewrite Hfile, Hload.
  rewrite <- !app_assoc. cbn [app].
  unfold Py.getitem.
  destruct Hfield as [[-> Ha]|(-> & [a Ha] & Hg)].
  - by rewrite Ha.
  - by rewrite Ha, Hg.
Qed.

Ltac run_stops :=
  rewrite <- ?app_assoc; cbn [app fst snd];
  eexists; split; [reflexivity|];
  split;
  [intros i ev Hi Hev; repeat (destruct i as [|i]; simplify_eq/=; try done)
  |intros p Hp; discriminate].

(** X16: Whatever the settings and the collaborators do, a run only appends to
    the trace, starts with the banner, and writes to the output file at
    most once and as its very last step; a run that returns has written,
    to the file of the settings, under the path it returns, which is the
    output path of the wavelength. *)
Theorem run_writes_last (settings : gmap string pyval) (log : list event) :
  exists new,
    (run_optical_forward_model generate_dict_path simulate load_hdf5
       save_hdf5 OPTICAL_OUTPUT_format settings log).2
    = log ++ EvPrint "OPTICAL FORWARD" :: new
    /\ (forall i ev, new !! i = Some ev -> is_save ev = true ->
        length new = S i)
    /\ (forall p,
        (run_optical_forward_model generate_dict_path simulate load_hdf5
           save_hdf5 OPTICAL_OUTPUT_format settings log).1 = Ok p ->
        exists fluence pressure mode file wavelength,
          settings !! Tags.WAVELENGTH = Some wavelength
          /\ settings !! Tags.SIMPA_OUTPUT_PATH = Some file
          /\ p = OPTICAL_OUTPUT_format Tags.ORIGINAL_DATA wavelength
          /\ exists earlier,
              new = earlier ++ [EvSaveHdf5 fluence pressure mode file p]
              /\ forallb (negb ∘ is_save) earlier = true).
Proof.
  unfold run_optical_forward_model, mbind, call, lift, mret.
  destruct (negb (Py.contains settings Tags.OPTICAL_MODEL)); [run_stops|].
  destruct (Py.getitem settings Tags.OPTICAL_MODEL) as [model|]; [|run_stops].
  unfold Py.getitem.
  destruct (settings !! Tags.WAVELENGTH) as [wavelength|]; [|run_stops].
  destruct (generate_dict_path _ _ _ _) as [path|]; [|run_stops].
  destruct (if Py.eqb model Tags.OPTICAL_MODEL_MCXYZ then Some McxyzAdapter
            else if Py.eqb model Tags.OPTICAL_MODEL_MCX then Some McxAdapter
            else if Py.eqb model Tags.OPTICAL_MODEL_TEST
                 then Some TestOpticalAdapter
                 else None) as [implementation|]; [|run_stops].
  destruct (simulate implementation path settings) as [fluence|]; [|run_stops].
  destruct (settings !! Tags.SIMPA_OUTPUT_PATH) as [file|]; [|run_stops].
  destruct (load_hdf5 file path) as [properties|]; [|run_stops].
  destruct (properties !! Tags.PROPERTY_ABSORPTION_PER_CM) as [absorption|];
    [|run_stops].
  destruct (properties !! Tags.PROPERTY_GRUNEISEN_PARAMETER) as [gruneisen|];
    [|run_stops].
  destruct (initial_pressure_and_units _ _ _ _) as [[pressure mode]|];
    [|run_stops].
  destruct (save_hdf5 _ _ _ _ _) eqn:Hsave; [|run_stops].
  rewrite <- ?app_assoc. cbn [app fst snd].
  eexists. split; [reflexivity|]. split.
  - intros i ev Hi Hev.
    repeat (destruct i as [|i]; simplify_eq/=; try done).
  - intros p [= <-]. eexists _, _, _, _, _. do 3 (split; [reflexivity|]).
    by eexists [_; _; _].
Qed.

End Runs.

Lemma run_writes_last_witness :
  exists new,
    (run_optical_forward_model
       (fun _ _ _ _ => Ok "simulation_properties/800")
       (fun _ _ _ => Ok (constant_volume [2]%nat F64.one))
       (fun _ _ => Ok ∅)
       (fun _ _ _ _ _ => Ok tt)
       (fun _ _ => "optical_output/800")
       (<[Tags.OPTICAL_MODEL := Tags.OPTICAL_MODEL_MCX]>
        {[ Tags.WAVELENGTH := PyInt 800 ]})
       []).2
    = [] ++ EvPrint "OPTICAL FORWARD" :: new
    /\ (forall i ev, new !! i = Some ev -> is_save ev = true ->
        length new = S i)
    /\ (forall p,
        (run_optical_forward_model
           (fun _ _ _ _ => Ok "simulation_properties/800")
           (fun _ _ _ => Ok (constant_volume [2]%nat F64.one))
           (fun _ _ => Ok ∅)
           (fun _ _ _ _ _ => Ok tt)
           (fun _ _ => "optical_output/800")
           (<[Tags.OPTICAL_MODEL := Tags.OPTICAL_MODEL_MCX]>
            {[ Tags.WAVELENGTH := PyInt 800 ]})
           []).1 = Ok p ->
        exists fluence pressure mode file wavelength,
          (<[Tags.OPTICAL_MODEL := Tags.OPTICAL_MODEL_MCX]>
           {[ Tags.WAVELENGTH := PyInt 800 ]} : gmap string pyval)
            !! Tags.WAVELENGTH = Some wavelength
          /\ (<[Tags.OPTICAL_MODEL := Tags.OPTICAL_MODEL_MCX]>
              {[ Tags.WAVELENGTH := PyInt 800 ]} : gmap string pyval)
               !! Tags.SIMPA_OUTPUT_PATH = Some file
          /\ p = "optical_output/800"
          /\ exists earlier,
              new = earlier ++ [EvSaveHdf5 fluence pressure mode file p]
              /\ forallb (negb ∘ is_save) earlier = true).
Proof.
  exact (run_writes_last
           (fun _ _ _ _ => Ok "simulation_properties/800")
           (fun _ _ _ => Ok (constant_volume [2]%nat F64.one))
           (fun _ _ => Ok ∅)
           (fun _ _ _ _ _ => Ok tt)
           (fun _ _ => "optical_output/800")
           (<[Tags.OPTICAL_MODEL := Tags.OPTICAL_MODEL_MCX]>
            {[ Tags.WAVELENGTH := PyInt 800 ]})
           []).
Defined.

Lemma run_adapter_failure_witness :
  run_optical_forward_model
    (fun _ _ _ _ => Ok "simulation_properties/800")
    (fun _ _ _ => Raise (ValueError "no volume"))
    (fun _ _ => Ok ∅)
    (fun _ _ _ _ _ => Ok tt)
    (fun _ _ => "optical_output/800")
    (<[Tags.OPTICAL_MODEL := Tags.OPTICAL_MODEL_TEST]>
     {[ Tags.WAVELENGTH := PyInt 800 ]})
    []
  = (Raise (ValueError "no volume"),
     [EvPrint "OPTICAL FORWARD";
      EvGenerateDictPath Tags.SIMULATION_PROPERTIES (PyInt 800) false;
      EvSimulate TestOpticalAdapter "simulation_properties/800"]).
Proof.
  apply (run_adapter_failure _ _ _ _ _
           (<[Tags.OPTICAL_MODEL := Tags.OPTICAL_MODEL_TEST]>
            {[ Tags.WAVELENGTH := PyInt 800 ]})
           Tags.OPTICAL_MODEL_TEST (PyInt 800) TestOpticalAdapter
           "simulation_properties/800" (ValueError "no volume") []).
  - do 2 (apply elem_of_cons; right). apply elem_of_cons; by left.
  - vm_compute; reflexivity.
  - vm_compute; reflexivity.
  - reflexivity.
  - reflexivity.
Defined.

Lemma run_missing_property_field_witness :
  run_optical_forward_model
    (fun _ _ _ _ => Ok "simulation_properties/800")
    (fun _ _ _ => Ok (constant_volume [1; 1; 2]%nat (F64.of_Z 3)))
    (fun _ _ =>
       Ok {[ Tags.PROPERTY_ABSORPTION_PER_CM :=
               constant_volume [1; 1; 2]%nat (F64.of_Z 2) ]})
    (fun _ _ _ _ _ => Ok tt)
    (fun _ _ => "optical_output/800")
    (<[Tags.OPTICAL_MODEL := Tags.OPTICAL_MODEL_MCX]>
     (<[Tags.WAVELENGTH := PyInt 800]>
      {[ Tags.SIMPA_OUTPUT_PATH := PyStr "out.hdf5" ]}))
    []
  = (Raise (KeyError Tags.PROPERTY_GRUNEISEN_PARAMETER),
     [EvPrint "OPTICAL FORWARD";
      EvGenerateDictPath Tags.SIMULATION_PROPERTIES (PyInt 800) false;
      EvSimulate McxAdapter "simulation_properties/800";
      EvLoadHdf5 (PyStr "out.hdf5") "simulation_properties/800"]).
Proof.
  apply (run_missing_property_field _ _ _ _ _
           (<[Tags.OPTICAL_MODEL := Tags.OPTICAL_MODEL_MCX]>
            (<[Tags.WAVELENGTH := PyInt 800]>
             {[ Tags.SIMPA_OUTPUT_PATH := PyStr "out.hdf5" ]}))
           Tags.OPTICAL_MODEL_MCX (PyInt 800) (PyStr "out.hdf5") McxAdapter
           "simulation_properties/800"
           (constant_volume [1; 1; 2]%nat (F64.of_Z 3))
           {[ Tags.PROPERTY_ABSORPTION_PER_CM :=
                constant_volume [1; 1; 2]%nat (F64.of_Z 2) ]} []).
  - apply elem_of_cons; right. apply elem_of_cons; by left.
  - vm_compute; reflexivity.
  - vm_compute; reflexivity.
  - vm_compute; reflexivity.
  - reflexivity.
  - reflexivity.
  - reflexivity.
  - right. split; [reflexivity|]. split.
    + exists (constant_volume [1; 1; 2]%nat (F64.of_Z 2)).
      vm_compute; reflexivity.
    + vm_compute; reflexivity.
Defined.

(** ** optical_modelling.py: failures of the pressure computation *)

Lemma multiply_raises (a b : ndarray) (e : exn) :
  np.multiply a b = Raise e ->
  e = broadcast_error /\ np.broadcast_shapes (shape a) (shape b) = None.
Proof.
  unfold np.multiply, np.elementwise.
  destruct (np.broadcast_shapes _ _); [done|]. by intros [= <-].
Qed.

Lemma multiply_not_broadcast (a b : ndarray) :
  np.broadcast_shapes (shape a) (shape b) = None ->
  np.multiply a b = Raise broadcast_error.
Proof. intros H. unfold np.multiply, np.elementwise. by rewrite H. Qed.

(** X17: An absorption and a fluence whose shapes do not broadcast make the
    pressure computation fail with NumPy's ValueError in every mode: the
    product is formed before the settings are looked at. *)
Theorem initial_pressure_needs_broadcast (settings : gmap string pyval)
    (absorption fluence gruneisen : ndarray) :
  np.broadcast_shapes (shape absorption) (shape fluence) = None ->
  initial_pressure_and_units settings absorption fluence gruneisen
  = Raise (ValueError "operands could not be broadcast together").
Proof.
  intros H. unfold initial_pressure_and_units.
  by rewrite (multiply_not_broadcast _ _ H).
Qed.

Lemma initial_pressure_needs_broadcast_witness :
  initial_pressure_and_units ∅
    (constant_volume [2; 3]%nat (F64.of_Z 2))
    (constant_volume [2; 2]%nat (F64.of_Z 3))
    (constant_volume [2; 3]%nat (F64.of_Z 1))
  = Raise (ValueError "operands could not be broadcast together").
Proof.
  apply (initial_pressure_needs_broadcast ∅
           (constant_volume [2; 3]%nat (F64.of_Z 2))
           (constant_volume [2; 2]%nat (F64.of_Z 3))
           (constant_volume [2; 3]%nat (F64.of_Z 1))).
  vm_compute; reflexivity.
Defined.

(** X18: The only ways the pressure computation fails: two fields that do not
    broadcast (ValueError), or, without upsampling, a pulse-energy entry
    that is no number (TypeError).  It raises no KeyError, the energy being
    read only where its key was found, and no ZeroDivisionError, the
    divisor being the constant 1000. *)
Theorem initial_pressure_failures (settings : gmap string pyval)
    (absorption fluence gruneisen : ndarray) (e : exn) :
  initial_pressure_and_units settings absorption fluence gruneisen = Raise e ->
  e = ValueError "operands could not be broadcast together"
  \/ exists energy,
       settings !! Tags.LASER_PULSE_ENERGY_IN_MILLIJOULE = Some energy
       /\ Py.as_number energy = Raise e
       /\ (energy = PyNone \/ exists s, energy = PyStr s)
       /\ match settings !! Tags.PERFORM_UPSAMPLING with
          | None => True
          | Some flag => flag = PyBool false
          end.
Proof.
  unfold initial_pressure_and_units.
  destruct (np.multiply absorption fluence) as [af|e0] eqn:Haf; cbn [rbind].
  2:{ intros [= <-]. left. by apply multiply_raises in Haf as [-> _]. }
  destruct (match settings !! Tags.PERFORM_UPSAMPLING with
            | Some flag => Py.is_False flag
            | None => true
            end) eqn:Hmode; [|done].
  destruct (Py.contains settings Tags.LASER_PULSE_ENERGY_IN_MILLIJOULE)
    eqn:Hin; [|done].
  destruct (np.multiply af gruneisen) as [afg|e0] eqn:Hafg; cbn [rbind].
  2:{ intros [= <-]. left. by apply multiply_raises in Hafg as [-> _]. }
  apply bool_decide_eq_true in Hin as [energy Henergy].
  unfold Py.getitem. rewrite Henergy. cbn [rbind].
  destruct (Py.as_number energy) as [x|e0] eqn:Hnum.
  { by rewrite (truediv_thousand _ _ Hnum). }
  unfold Py.truediv. rewrite Hnum. cbn [rbind]. intros [= <-].
  right. exists energy. repeat split; [done| |].
  - destruct energy; try discriminate; [by left|right; by eexists].
  - destruct (settings !! Tags.PERFORM_UPSAMPLING) as [[| [] | | |]|];
      done.
Qed.

Lemma initial_pressure_failures_witness :
  TypeError "unsupported operand type(s): 'NoneType'"
  = ValueError "operands could not be broadcast together"
  \/ exists energy,
       ({[ Tags.LASER_PULSE_ENERGY_IN_MILLIJOULE := PyNone ]}
          : gmap string pyval)
         !! Tags.LASER_PULSE_ENERGY_IN_MILLIJOULE = Some energy
       /\ Py.as_number energy
          = Raise (TypeError "unsupported operand type(s): 'NoneType'")
       /\ (energy = PyNone \/ exists s, energy = PyStr s)
       /\ match ({[ Tags.LASER_PULSE_ENERGY_IN_MILLIJOULE := PyNone ]}
                   : gmap string pyval) !! Tags.PERFORM_UPSAMPLING with
          | None => True
          | Some flag => flag = PyBool false
          end.
Proof.
  apply (initial_pressure_failures
           {[ Tags.LASER_PULSE_ENERGY_IN_MILLIJOULE := PyNone ]}
           (constant_volume [2]%nat (F64.of_Z 2))
           (constant_volume [2]%nat (F64.of_Z 3))
           (constant_volume [2]%nat (F64.of_Z 1))
           (TypeError "unsupported operand type(s): 'NoneType'")).
  vm_compute; reflexivity.
Defined.

(** ** calculate.py: oxygenation *)

Import calculate.

(** Every fraction the loop ends with is that of a hemoglobin entry of the
    list, or was there before. *)
Lemma hemoglobin_fold_invariant (P : f64 -> Prop)
    (molecule_list : list Molecule) (acc : option f64 * option f64) :
  (forall m, m ∈ molecule_list -> is_hemoglobin m -> P (volume_fraction m)) ->
  (forall v, acc.1 = Some v -> P v) ->
  (forall v, acc.2 = Some v -> P v) ->
  (forall v, (foldl hemoglobin_step acc molecule_list).1 = Some v -> P v)
  /\ (forall v, (foldl hemoglobin_step acc molecule_list).2 = Some v -> P v).
Proof.
  revert acc. induction molecule_list as [|m l IH]; intros [hb hbO2] Hl H1 H2.
  { done. }
  cbn [foldl]. apply IH.
  - intros m' Hm'. apply Hl. by apply elem_of_cons; right.
  - cbn. intros v. destruct (decide _) as [Hname|_]; [|apply H1].
    intros [= <-]. apply Hl; [by apply elem_of_cons; left|by left].
  - cbn. intros v. destruct (decide _) as [Hname|_]; [|apply H2].
    intros [= <-]. apply Hl; [by apply elem_of_cons; left|by right].
Qed.

Lemma below_threshold_zero (x : f64) :
  F64.ltb x (F64.of_Q 1e-10) = false -> x ≠ F64.zero.
Proof. intros H ->. by vm_compute in H. Qed.

Lemma float_truediv (a b : f64) :
  b ≠ F64.zero -> Py.truediv (PyFloat a) (PyFloat b) = Ok (F64.div a b).
Proof.
  intros Hb. unfold Py.truediv. cbn [Py.as_number rbind].
  by destruct (decide (b = F64.zero)).
Qed.

(** What [calculate_oxygenation] computes from the two fractions *)
Lemma calculate_oxygenation_unfold (molecule_list : list Molecule) :
  calculate_oxygenation molecule_list
  = match hemoglobin_fractions molecule_list with
    | (None, None) => Ok None
    | (hb, hbO2) =>
        let hb := default F64.zero hb in
        let hbO2 := default F64.zero hbO2 in
        if F64.ltb (F64.add hb hbO2) (F64.of_Q 1e-10) then Ok None
        else Ok (Some (F64.div hbO2 (F64.add hb hbO2)))
    end.
Proof.
  unfold calculate_oxygenation.
  destruct (hemoglobin_fractions molecule_list) as [[hb|] [hbO2|]];
    cbn [default]; try done;
    destruct (F64.ltb _ _) eqn:Hlt; try done;
    by rewrite (float_truediv _ _ (below_threshold_zero _ Hlt)).
Qed.

(** X19: [calculate_oxygenation] raises nothing, whatever the fractions are:
    the threshold test keeps a zero sum away from the division.  A list
    without a hemoglobin entry gives None, and a value is returned only
    when the list holds such an entry. *)
Theorem calculate_oxygenation_total (molecule_list : list Molecule) :
  exists r,
    calculate_oxygenation molecule_list = Ok r
    /\ ((forall m, m ∈ molecule_list -> ~ is_hemoglobin m) -> r = None)
    /\ (forall x, r = Some x ->
        exists m, m ∈ molecule_list /\ is_hemoglobin m).
Proof.
  rewrite calculate_oxygenation_unfold. unfold hemoglobin_fractions.
  destruct (hemoglobin_fold_invariant
              (fun _ => exists m, m ∈ molecule_list /\ is_hemoglobin m)
              molecule_list (None, None)) as [H1 H2]; try done.
  { intros m Hm Hhb. by exists m. }
  destruct (hemoglobin_fold_invariant
              (fun _ => ~ forall m, m ∈ molecule_list -> ~ is_hemoglobin m)
              molecule_list (None, None)) as [H3 H4]; try done.
  { intros m Hm Hhb Hnone. by apply (Hnone m). }
  destruct (foldl hemoglobin_step (None, None) molecule_list)
    as [[hb|] [hbO2|]]; cbn [default fst snd] in *.
  4:{ by exists None. }
  all: destruct (F64.ltb _ _); eexists; (split; [reflexivity|]); split;
    try done.
  all: first [intros Hnone; exfalso; first [by eapply H3 | by eapply H4]
             |intros x _; first [by eapply H1 | by eapply H2]].
Qed.

Lemma calculate_oxygenation_total_witness :
  exists r,
    calculate_oxygenation
      [{| spectrum := {| spectrum_name := "Water" |};
          volume_fraction := F64.of_Q 0.7 |};
       {| spectrum := {| spectrum_name := "Oxyhemoglobin" |};
          volume_fraction := NaN |}]
    = Ok r
    /\ ((forall m,
          m ∈ [{| spectrum := {| spectrum_name := "Water" |};
                  volume_fraction := F64.of_Q 0.7 |};
               {| spectrum := {| spectrum_name := "Oxyhemoglobin" |};
                  volume_fraction := NaN |}] ->
          ~ is_hemoglobin m) -> r = None)
    /\ (forall x, r = Some x ->
        exists m,
          m ∈ [{| spectrum := {| spectrum_name := "Water" |};
                  volume_fraction := F64.of_Q 0.7 |};
               {| spectrum := {| spectrum_name := "Oxyhemoglobin" |};
                  volume_fraction := NaN |}]
          /\ is_hemoglobin m).
Proof.
  exact (calculate_oxygenation_total
           [{| spectrum := {| spectrum_name := "Water" |};
               volume_fraction := F64.of_Q 0.7 |};
            {| spectrum := {| spectrum_name := "Oxyhemoglobin" |};
               volume_fraction := NaN |}]).
Defined.

Lemma this_div (a b : Qc) : (this (a / b)%Qc == this a / this b)%Q.
Proof.
  unfold Qcdiv, Qcmult, Qcinv. cbn [this Q2Qc].
  by rewrite !Qred_correct.
Qed.

Lemma Qc_ratio_unit (a b : Qc) :
  (0 <= a)%Qc -> (0 <= b)%Qc -> (a + b)%Qc ≠ 0%Qc ->
  (0 <= b / (a + b))%Qc /\ (b / (a + b) <= 1)%Qc.
Proof.
  intros Ha Hb Hne.
  assert (Hpos : (0 < this a + this b)%Q).
  { destruct (Qlt_le_dec 0 (this a + this b)) as [|Hle]; [done|].
    destruct Hne. apply Qc_is_canon. rewrite this_plus.
    unfold Qcle in *. cbn [this Q2Qc] in *.
    change (Qred 0) with 0%Q in *. lra. }
  unfold Qcle in *. rewrite this_div, this_plus. cbn [this Q2Qc] in *.
  change (Qred 0) with 0%Q in *. change (Qred 1) with 1%Q.
  split.
  - apply Qle_shift_div_l; [done|]. lra.
  - apply Qle_shift_div_r; [done|]. lra.
Qed.

(** X20: With fractions that are finite and not negative, the value returned,
    if any, lies between 0 and 1. *)
Theorem calculate_oxygenation_range (molecule_list : list Molecule) :
  (forall m, m ∈ molecule_list -> is_hemoglobin m ->
     exists q, volume_fraction m = Fin q /\ (0 <= q)%Qc) ->
  forall x, calculate_oxygenation molecule_list = Ok (Some x) ->
    exists q, x = Fin q /\ (0 <= q)%Qc /\ (q <= 1)%Qc.
Proof.
  intros Hl x.
  rewrite calculate_oxygenation_unfold. unfold hemoglobin_fractions.
  destruct (hemoglobin_fold_invariant
              (fun v => exists q, v = Fin q /\ (0 <= q)%Qc)
              molecule_list (None, None)) as [H1 H2]; try done.
  assert (Hratio : forall hb hbO2 : f64,
    (exists q, hb = Fin q /\ (0 <= q)%Qc) ->
    (exists q, hbO2 = Fin q /\ (0 <= q)%Qc) ->
    (if F64.ltb (F64.add hb hbO2) (F64.of_Q 1e-10) then Ok None
     else Ok (Some (F64.div hbO2 (F64.add hb hbO2)))) = Ok (Some x) ->
    exists q, x = Fin q /\ (0 <= q)%Qc /\ (q <= 1)%Qc).
  { intros hb hbO2 (a & -> & Ha) (b & -> & Hb).
    destruct (F64.ltb _ _) eqn:Hlt; [done|]. intros [= <-].
    apply below_threshold_zero in Hlt.
    assert (Hne : (a + b)%Qc ≠ 0%Qc).
    { intros H0. apply Hlt. cbn [F64.add]. rewrite H0.
      unfold F64.zero, F64.of_Z. f_equal; by apply Qc_is_canon. }
    cbn [F64.add F64.div]. destruct (decide _) as [|_]; [done|].
    eexists. split; [reflexivity|]. by apply Qc_ratio_unit. }
  assert (Hzero : exists q, F64.zero = Fin q /\ (0 <= q)%Qc).
  { eexists. split; [reflexivity|]. by_evaluation. }
  destruct (foldl hemoglobin_step (None, None) molecule_list)
    as [[hb|] [hbO2|]]; cbn [default fst snd] in *; try done.
  - apply Hratio; [by apply H1|by apply H2].
  - apply Hratio; [by apply H1|done].
  - apply Hratio; [done|by apply H2].
Qed.

Lemma calculate_oxygenation_range_witness :
  exists q, F64.of_Q 0.75 = Fin q /\ (0 <= q)%Qc /\ (q <= 1)%Qc.
Proof.
  apply (calculate_oxygenation_range
           [{| spectrum := {| spectrum_name := "Deoxyhemoglobin" |};
               volume_fraction := F64.of_Q 0.25 |};
            {| spectrum := {| spectrum_name := "Oxyhemoglobin" |};
               volume_fraction := F64.of_Q 0.75 |}]).
  - intros m Hm _.
    apply elem_of_cons in Hm as [->|Hm];
      [|apply elem_of_cons in Hm as [->|Hm]; [|by apply elem_of_nil in Hm]];
      (eexists; split; [reflexivity|by_evaluation]).
  - by_evaluation.
Defined.

(** ** calculate.py: min-max normalization *)

Lemma foldl_minimum_Fin (x : Qc) (l : list Qc) :
  exists m, foldl minimum (Fin x) (Fin <$> l) = Fin m
    /\ m ∈ x :: l /\ forall q, q ∈ x :: l -> (m <= q)%Qc.
Proof.
  revert x. induction l as [|y l IH]; intros x.
  { exists x. split; [done|]. split; [by apply elem_of_cons; left|].
    intros q [->|Hq%elem_of_nil]%elem_of_cons; [apply Qcle_refl|done]. }
  cbn [fmap list_fmap foldl minimum F64.ltb].
  destruct (IH (if bool_decide (y < x)%Qc then y else x)) as (m & Hm & Hin & Hle).
  exists m. split; [by destruct (bool_decide (y < x)%Qc)|].
  assert (Hstep : ((if bool_decide (y < x)%Qc then y else x) <= x)%Qc
                  /\ ((if bool_decide (y < x)%Qc then y else x) <= y)%Qc).
  { destruct (bool_decide (y < x)%Qc) eqn:Hlt.
    - apply bool_decide_eq_true in Hlt.
      split; [by apply Qclt_le_weak|apply Qcle_refl].
    - apply bool_decide_eq_false in Hlt.
      split; [apply Qcle_refl|by apply Qcnot_lt_le]. }
  assert (Hm0 : (m <= if bool_decide (y < x)%Qc then y else x)%Qc).
  { apply Hle. by apply elem_of_cons; left. }
  split.
  - apply elem_of_cons in Hin as [->|Hin].
    + destruct (bool_decide (y < x)%Qc).
      * apply elem_of_cons; right. by apply elem_of_cons; left.
      * by apply elem_of_cons; left.
    + apply elem_of_cons; right. by apply elem_of_cons; right.
  - intros q [->|[->|Hq]%elem_of_cons]%elem_of_cons.
    + eapply Qcle_trans; [exact Hm0|apply Hstep].
    + eapply Qcle_trans; [exact Hm0|apply Hstep].
    + apply Hle. by apply elem_of_cons; right.
Qed.

Lemma foldl_maximum_Fin (x : Qc) (l : list Qc) :
  exists m, foldl maximum (Fin x) (Fin <$> l) = Fin m
    /\ m ∈ x :: l /\ forall q, q ∈ x :: l -> (q <= m)%Qc.
Proof.
  revert x. induction l as [|y l IH]; intros x.
  { exists x. split; [done|]. split; [by apply elem_of_cons; left|].
    intros q [->|Hq%elem_of_nil]%elem_of_cons; [apply Qcle_refl|done]. }
  cbn [fmap list_fmap foldl maximum F64.ltb].
  destruct (IH (if bool_decide (x < y)%Qc then y else x)) as (m & Hm & Hin & Hle).
  exists m. split; [by destruct (bool_decide (x < y)%Qc)|].
  assert (Hstep : (x <= if bool_decide (x < y)%Qc then y else x)%Qc
                  /\ (y <= if bool_decide (x < y)%Qc then y else x)%Qc).
  { destruct (bool_decide (x < y)%Qc) eqn:Hlt.
    - apply bool_decide_eq_true in Hlt.
      split; [by apply Qclt_le_weak|apply Qcle_refl].
    - apply bool_decide_eq_false in Hlt.
      split; [apply Qcle_refl|by apply Qcnot_lt_le]. }
  assert (Hm0 : ((if bool_decide (x < y)%Qc then y else x) <= m)%Qc).
  { apply Hle. by apply elem_of_cons; left. }
  split.
  - apply elem_of_cons in Hin as [->|Hin].
    + destruct (bool_decide (x < y)%Qc).
      * apply elem_of_cons; right. by apply elem_of_cons; left.
      * by apply elem_of_cons; left.
    + apply elem_of_cons; right. by apply elem_of_cons; right.
  - intros q [->|[->|Hq]%elem_of_cons]%elem_of_cons.
    + eapply Qcle_trans; [apply Hstep|exact Hm0].
    + eapply Qcle_trans; [apply Hstep|exact Hm0].
    + apply Hle. by apply elem_of_cons; right.
Qed.

Lemma foldl_minimum_NaN (l : list f64) : foldl minimum NaN l = NaN.
Proof. induction l as [|y l IH]; [done|]. exact IH. Qed.

Lemma foldl_maximum_NaN (l : list f64) : foldl maximum NaN l = NaN.
Proof. induction l as [|y l IH]; [done|]. exact IH. Qed.

Lemma foldl_minimum_has_NaN (x : f64) (l : list f64) :
  NaN ∈ x :: l -> foldl minimum x l = NaN.
Proof.
  revert x. induction l as [|y l IH]; intros x Hin.
  { apply elem_of_cons in Hin as [<-|Hin%elem_of_nil]; done. }
  cbn [foldl]. apply elem_of_cons in Hin as [<-|Hin].
  { apply foldl_minimum_NaN. }
  apply elem_of_cons in Hin as [<-|Hin].
  { replace (minimum x NaN) with NaN by (by destruct x).
    apply foldl_minimum_NaN. }
  apply IH. by apply elem_of_cons; right.
Qed.

Lemma normalized_unit (lo hi q : Qc) :
  (lo < hi)%Qc -> (lo <= q)%Qc -> (q <= hi)%Qc ->
  (0 <= (q - lo) / (hi - lo))%Qc /\ ((q - lo) / (hi - lo) <= 1)%Qc.
Proof.
  intros Hlt Hlo Hhi.
  unfold Qcle, Qclt in *. rewrite this_div, !this_minus.
  cbn [this Q2Qc]. change (Qred 0) with 0%Q. change (Qred 1) with 1%Q.
  split.
  - apply Qle_shift_div_l; lra.
  - apply Qle_shift_div_r; lra.
Qed.

Lemma normalize_entry (lo hi q : Qc) :
  (lo < hi)%Qc ->
  F64.div (F64.sub (Fin q) (Fin lo)) (F64.sub (Fin hi) (Fin lo))
  = Fin ((q - lo) / (hi - lo)).
Proof.
  intros Hlt. cbn [F64.sub F64.neg F64.add F64.div].
  destruct (decide (hi + - lo = 0)%Qc) as [H0|_]; [|done].
  exfalso. apply (Qclt_not_eq _ _ Hlt). symmetry.
  apply Qc_is_canon. apply (f_equal this) in H0.
  pose proof (this_plus hi (- lo)) as Hp. rewrite H0, this_opp in Hp.
  cbn [this Q2Qc] in Hp. change (Qred 0) with 0%Q in Hp. lra.
Qed.

(** X21: On finite data with two different values the output has the shape of
    the input, every element is (x - min) / (max - min) and lies between
    0 and 1, and both 0 and 1 occur. *)
Theorem min_max_normalization_range (a : ndarray) (qs : list Qc) (x y : Qc) :
  data a = Fin <$> qs -> x ∈ qs -> y ∈ qs -> x ≠ y ->
  exists out lo hi,
    min_max_normalization (Some a) = Ok out
    /\ shape out = shape a
    /\ lo ∈ qs /\ hi ∈ qs /\ (lo < hi)%Qc
    /\ (forall q, q ∈ qs -> (lo <= q)%Qc /\ (q <= hi)%Qc)
    /\ data out = (fun q => Fin ((q - lo) / (hi - lo))) <$> qs
    /\ (forall v, v ∈ data out ->
        exists q, v = Fin q /\ (0 <= q)%Qc /\ (q <= 1)%Qc)
    /\ Fin 0 ∈ data out /\ Fin 1 ∈ data out.
Proof.
  intros Hdata Hx Hy Hxy.
  destruct qs as [|q0 qs]; [by apply elem_of_nil in Hx|].
  destruct (foldl_minimum_Fin q0 qs) as (lo & Hmin & Hlo_in & Hlo).
  destruct (foldl_maximum_Fin q0 qs) as (hi & Hmax & Hhi_in & Hhi).
  assert (Hlt : (lo < hi)%Qc).
  { destruct (Qclt_le_dec lo hi) as [|Hle]; [done|]. destruct Hxy.
    apply Qcle_antisym.
    - eapply Qcle_trans; [by apply Hhi|]. eapply Qcle_trans; [exact Hle|].
      by apply Hlo.
    - eapply Qcle_trans; [by apply Hhi|]. eapply Qcle_trans; [exact Hle|].
      by apply Hlo. }
  assert (Hout :
    (fun v => F64.div v (F64.sub (Fin hi) (Fin lo)))
      <$> ((fun v => F64.sub v (Fin lo)) <$> (Fin <$> q0 :: qs))
    = (fun q => Fin ((q - lo) / (hi - lo))) <$> q0 :: qs).
  { rewrite <- !list_fmap_compose. apply list_fmap_ext.
    intros _ q _. cbv [compose]. by apply normalize_entry. }
  eexists _, lo, hi. split.
  { unfold min_max_normalization, np_min, np_max. rewrite Hdata.
    cbn [fmap list_fmap]. cbn [fmap list_fmap] in Hmin, Hmax.
    rewrite Hmin, Hmax. cbn [rbind]. reflexivity. }
  unfold np.div_scalar, sub_scalar. cbn [shape data]. rewrite Hdata, Hout.
  repeat split; try done.
  - by apply Hlo.
  - by apply Hhi.
  - intros v (q & -> & Hq)%list_elem_of_fmap.
    eexists. split; [reflexivity|].
    apply normalized_unit; [done|by apply Hlo|by apply Hhi].
  - apply list_elem_of_fmap. exists lo. split; [|done].
    f_equal. unfold Qcdiv. ring.
  - apply list_elem_of_fmap. exists hi. split; [|done].
    f_equal. field. intros H0. apply (Qclt_not_eq _ _ Hlt).
    replace hi with (hi - lo + lo)%Qc by ring. rewrite H0. ring.
Qed.

Lemma min_max_normalization_range_witness :
  exists out lo hi,
    min_max_normalization
      (Some (mk_ndarray [3]%nat [F64.of_Z 2; F64.of_Z 4; F64.of_Z 3]))
    = Ok out
    /\ shape out = [3]%nat
    /\ lo ∈ Q2Qc <$> [2; 4; 3]%Q /\ hi ∈ Q2Qc <$> [2; 4; 3]%Q /\ (lo < hi)%Qc
    /\ (forall q, q ∈ Q2Qc <$> [2; 4; 3]%Q -> (lo <= q)%Qc /\ (q <= hi)%Qc)
    /\ data out
       = (fun q => Fin ((q - lo) / (hi - lo))) <$> (Q2Qc <$> [2; 4; 3]%Q)
    /\ (forall v, v ∈ data out ->
        exists q, v = Fin q /\ (0 <= q)%Qc /\ (q <= 1)%Qc)
    /\ Fin 0 ∈ data out /\ Fin 1 ∈ data out.
Proof.
  apply (min_max_normalization_range
           (mk_ndarray [3]%nat [F64.of_Z 2; F64.of_Z 4; F64.of_Z 3])
           (Q2Qc <$> [2; 4; 3]%Q) (Q2Qc 2) (Q2Qc 4)).
  - reflexivity.
  - apply elem_of_cons; by left.
  - apply elem_of_cons; right. apply elem_of_cons; by left.
  - by_evaluation.
Defined.

(** X22: The failures and the degenerate results of the normalization: no data
    is an AttributeError, an empty array a ValueError of the reduction;
    an array whose elements are all the same finite value comes back with
    NaN everywhere (0/0), and so does an array that holds a NaN. *)
Theorem min_max_normalization_degenerate :
  min_max_normalization None
  = Raise (AttributeError "Data must not be none in order to normalize it.")
  /\ (forall a, data a = [] ->
      min_max_normalization (Some a)
      = Raise (ValueError
          "zero-size array to reduction operation minimum which has no identity"))
  /\ (forall a n v, data a = replicate (S n) (Fin v) ->
      min_max_normalization (Some a)
      = Ok (mk_ndarray (shape a) (replicate (S n) NaN)))
  /\ (forall a, NaN ∈ data a ->
      min_max_normalization (Some a)
      = Ok (mk_ndarray (shape a) (replicate (length (data a)) NaN))).
Proof.
  split; [done|]. split; [|split].
  - intros a Ha. unfold min_max_normalization, np_min. by rewrite Ha.
  - intros a n v Ha.
    assert (Hmin : forall k, foldl minimum (Fin v) (replicate k (Fin v)) = Fin v).
    { induction k as [|k IH]; [done|]. cbn [replicate foldl minimum F64.ltb].
      rewrite bool_decide_eq_false_2 by (apply Qcle_not_lt, Qcle_refl). exact IH. }
    assert (Hmax : forall k, foldl maximum (Fin v) (replicate k (Fin v)) = Fin v).
    { induction k as [|k IH]; [done|]. cbn [replicate foldl maximum F64.ltb].
      rewrite bool_decide_eq_false_2 by (apply Qcle_not_lt, Qcle_refl). exact IH. }
    unfold min_max_normalization, np_min, np_max. rewrite Ha.
    cbn [replicate]. rewrite Hmin, Hmax. cbn [rbind].
    unfold np.div_scalar, sub_scalar. cbn [shape data]. rewrite Ha.
    f_equal. f_equal. rewrite <- list_fmap_compose.
    change (Fin v :: replicate n (Fin v)) with (replicate (S n) (Fin v)).
    rewrite fmap_replicate. f_equal. cbv [compose].
    cbn [F64.sub F64.neg F64.add F64.div].
    rewrite Qcplus_opp_r. by destruct (decide (0 = 0)%Qc).
  - intros a Hnan.
    unfold min_max_normalization, np_min, np_max.
    destruct (data a) as [|x l] eqn:Ha; [by apply elem_of_nil in Hnan|].
    rewrite (foldl_minimum_has_NaN _ _ Hnan). cbn [rbind].
    unfold np.div_scalar, sub_scalar. cbn [shape data]. rewrite Ha.
    f_equal. f_equal. rewrite <- list_fmap_compose.
    generalize (x :: l). intros l'. induction l' as [|z l' IH]; [done|].
    cbn [fmap list_fmap length replicate]. rewrite <- IH. f_equal.
    cbv [compose]. destruct z; cbn; by destruct (foldl maximum x l).
Qed.

Lemma min_max_normalization_degenerate_witness :
  min_max_normalization (Some (mk_ndarray [2]%nat [F64.one; F64.one]))
  = Ok (mk_ndarray [2]%nat [NaN; NaN]).
Proof.
  destruct min_max_normalization_degenerate as (_ & _ & Hconstant & _).
  apply (Hconstant (mk_ndarray [2]%nat [F64.one; F64.one]) 1%nat
           (Q2Qc (inject_Z 1))).
  reflexivity.
Defined.

(** ** calculate.py: the random draw *)

(** X23: A finite draw in [0, 1) is mapped between the two bounds, whichever
    is the larger, the draw 0 to the first of them; equal bounds give that
    value.  The order of the bounds is not checked. *)
Theorem randomize_uniform_bounds (r lo hi : Qc) :
  (0 <= r)%Qc -> (r < 1)%Qc ->
  exists x,
    randomize_uniform (Fin r) (Fin lo) (Fin hi) = Fin x
    /\ ((lo <= hi)%Qc -> (lo <= x)%Qc /\ (x <= hi)%Qc)
    /\ ((hi <= lo)%Qc -> (hi <= x)%Qc /\ (x <= lo)%Qc)
    /\ (lo = hi -> x = lo)
    /\ (r = 0%Qc -> x = lo).
Proof.
  intros H0 H1. exists (r * (hi + - lo) + lo)%Qc.
  split; [done|].
  assert (Hx : (this (r * (hi + - lo) + lo)%Qc
                == this r * (this hi - this lo) + this lo)%Q).
  { rewrite this_plus. unfold Qcmult. cbn [this Q2Qc].
    rewrite Qred_correct, this_plus, this_opp. ring. }
  unfold Qcle, Qclt in *. cbn [this Q2Qc] in H0, H1.
  change (Qred 0) with 0%Q in H0. change (Qred 1) with 1%Q in H1.
  repeat split.
  - rewrite Hx. nra.
  - rewrite Hx. nra.
  - rewrite Hx. nra.
  - rewrite Hx. nra.
  - intros ->. ring.
  - intros ->. ring.
Qed.

Lemma randomize_uniform_bounds_witness :
  exists x,
    randomize_uniform (F64.of_Q 0.5) (F64.of_Z 2) (F64.of_Z 6) = Fin x
    /\ ((Q2Qc 2 <= Q2Qc 6)%Qc -> (Q2Qc 2 <= x)%Qc /\ (x <= Q2Qc 6)%Qc)
    /\ ((Q2Qc 6 <= Q2Qc 2)%Qc -> (Q2Qc 6 <= x)%Qc /\ (x <= Q2Qc 2)%Qc)
    /\ (Q2Qc 2 = Q2Qc 6 -> x = Q2Qc 2)
    /\ (Q2Qc 0.5 = 0%Qc -> x = Q2Qc 2).
Proof.
  apply (randomize_uniform_bounds (Q2Qc 0.5) (Q2Qc 2) (Q2Qc 6));
    by_evaluation.
Defined.

(** ** calculate.py: rotations *)

(** X24: [rotation] multiplies the three axis rotations element by element, so
    for angles with finite cosines and sines it returns a diagonal matrix
    of products of cosines, in which no sine appears; entries of the
    angles after the third are not read.  Fewer than three angles are an
    IndexError. *)
Theorem rotation_is_diagonal (cos sin : f64 -> f64)
    (theta_x theta_y theta_z : f64) (rest : list f64)
    (cx cy cz sx sy sz : Qc) :
  cos theta_x = Fin cx -> cos theta_y = Fin cy -> cos theta_z = Fin cz ->
  sin theta_x = Fin sx -> sin theta_y = Fin sy -> sin theta_z = Fin sz ->
  rotation cos sin (theta_x :: theta_y :: theta_z :: rest)
  = Ok (mk_ndarray [3; 3]%nat
          [Fin (cy * cz); F64.zero; F64.zero;
           F64.zero; Fin (cx * cz); F64.zero;
           F64.zero; F64.zero; Fin (cx * cy)])
  /\ rotation cos sin [] = Raise (IndexError "list index out of range")
  /\ rotation cos sin [theta_x]
     = Raise (IndexError "list index out of range")
  /\ rotation cos sin [theta_x; theta_y]
     = Raise (IndexError "list index out of range").
Proof.
  intros Hcx Hcy Hcz Hsx Hsy Hsz.
  assert (Hxy : np.multiply (rotation_x cos sin theta_x)
                  (rotation_y cos sin theta_y)
                = Ok (mk_ndarray [3; 3]%nat
                        (zip_with F64.mul (data (rotation_x cos sin theta_x))
                           (data (rotation_y cos sin theta_y))))).
  { by apply multiply_same_shape. }
  repeat split; try done.
  - unfold rotation. cbn [sequence_item lookup list_lookup rbind].
    rewrite Hxy. cbn [rbind].
    rewrite multiply_same_shape by done.
    unfold rotation_x, rotation_y, rotation_z. cbn [shape data zip_with].
    rewrite Hcx, Hcy, Hcz, Hsx, Hsy, Hsz.
    unfold F64.one, F64.zero, F64.of_Z. cbn [F64.neg F64.mul].
    change (Q2Qc (inject_Z 1)) with 1%Qc.
    change (Q2Qc (inject_Z 0)) with 0%Qc.
    do 2 f_equal.
    repeat (apply (f_equal2 cons); [apply (f_equal Fin); ring|]).
    reflexivity.
Qed.

Lemma rotation_is_diagonal_witness :
  rotation (fun _ => F64.of_Q 0.6) (fun _ => F64.of_Q 0.8)
    [F64.one; F64.one; F64.one]
  = Ok (mk_ndarray [3; 3]%nat
          [Fin (Q2Qc 0.6 * Q2Qc 0.6); F64.zero; F64.zero;
           F64.zero; Fin (Q2Qc 0.6 * Q2Qc 0.6); F64.zero;
           F64.zero; F64.zero; Fin (Q2Qc 0.6 * Q2Qc 0.6)]).
Proof.
  apply (rotation_is_diagonal (fun _ => F64.of_Q 0.6) (fun _ => F64.of_Q 0.8)
           F64.one F64.one F64.one []
           (Q2Qc 0.6) (Q2Qc 0.6) (Q2Qc 0.6) (Q2Qc 0.8) (Q2Qc 0.8) (Q2Qc 0.8));
    reflexivity.
Defined.

(** The test [np.abs(cross_product.all()) < 1e-10] holds exactly when some
    component of the cross product is zero. *)
Lemma abs_below_threshold_all (v : f64 * f64 * f64) :
  abs_below_threshold (all v) = negb (all v).
Proof. by destruct (all v). Qed.

Lemma rotation_matrix_early_return (norm : list f64 -> f64)
    (a b : ndarray) (a0 a1 a2 b0 b1 b2 : f64) :
  data a = [a0; a1; a2] -> data b = [b0; b1; b2] ->
  all (cross (F64.div a0 (norm (data a)), F64.div a1 (norm (data a)),
              F64.div a2 (norm (data a)))
             (F64.div b0 (norm (data b)), F64.div b1 (norm (data b)),
              F64.div b2 (norm (data b)))) = false ->
  rotation_matrix_between_vectors norm a b = Ok zeros3.
Proof.
  intros Ha Hb Hall. unfold rotation_matrix_between_vectors, reshape3.
  unfold np.div_scalar. cbn [data]. rewrite Ha, Hb.
  cbn [fmap list_fmap rbind]. rewrite <- Ha, <- Hb.
  by rewrite abs_below_threshold_all, Hall.
Qed.

(** X25: [rotation_matrix_between_vectors] returns the zero matrix as soon as
    one component of the cross product of the normalized vectors is zero,
    not only when all are: so for any two finite vectors of the x-y plane
    with finite non-zero norms, perpendicular ones included. *)
Theorem rotation_matrix_zero_in_plane (norm : list f64 -> f64)
    (a b : ndarray) (x0 x1 y0 y1 na nb : Qc) :
  data a = [Fin x0; Fin x1; F64.zero] ->
  data b = [Fin y0; Fin y1; F64.zero] ->
  norm (data a) = Fin na -> norm (data b) = Fin nb ->
  na ≠ 0%Qc -> nb ≠ 0%Qc ->
  rotation_matrix_between_vectors norm a b
  = Ok (mk_ndarray [3; 3]%nat (replicate 9 F64.zero)).
Proof.
  intros Ha Hb Hna Hnb Hna0 Hnb0.
  apply (rotation_matrix_early_return norm a b _ _ _ _ _ _ Ha Hb).
  rewrite Hna, Hnb. unfold F64.zero, F64.of_Z, cross, all.
  cbn [F64.div].
  destruct (decide (na = 0)%Qc) as [|_]; [done|].
  destruct (decide (nb = 0)%Qc) as [|_]; [done|].
  cbn [F64.mul F64.sub F64.neg F64.add].
  replace (x1 / na * (Q2Qc (inject_Z 0) / nb)
           + - (Q2Qc (inject_Z 0) / na * (y1 / nb)))%Qc
    with (Q2Qc (inject_Z 0)).
  { unfold nonzero at 1, F64.zero, F64.of_Z.
    by rewrite bool_decide_eq_true_2. }
  change (Q2Qc (inject_Z 0)) with 0%Qc. by field.
Qed.

Lemma rotation_matrix_zero_in_plane_witness :
  rotation_matrix_between_vectors (fun _ => F64.one)
    (mk_ndarray [3]%nat [F64.one; F64.zero; F64.zero])
    (mk_ndarray [3]%nat [F64.zero; F64.one; F64.zero])
  = Ok (mk_ndarray [3; 3]%nat (replicate 9 F64.zero)).
Proof.
  apply (rotation_matrix_zero_in_plane (fun _ => F64.one)
           (mk_ndarray [3]%nat [F64.one; F64.zero; F64.zero])
           (mk_ndarray [3]%nat [F64.zero; F64.one; F64.zero])
           1%Qc 0%Qc 0%Qc 1%Qc 1%Qc 1%Qc);
    try reflexivity; by_evaluation.
Defined.

(** ** realisitic_time_series.py: check_input *)

Import SensorDegradation.

Lemma position_bound (n : nat) (i : Z) (k : nat) :
  position n i = Ok k -> (k < n)%nat.
Proof.
  unfold position. repeat destruct (decide _); intros [= <-]; lia.
Qed.

Lemma clear_sensors_length (n : nat) (broken : list Z) (sensors out : list f64) :
  clear_sensors n broken sensors = Ok out -> length out = length sensors.
Proof.
  revert sensors. induction broken as [|i rest IH]; intros sensors.
  { by intros [= <-]. }
  cbn [clear_sensors]. destruct (position n i) as [k|]; [|done].
  cbn [rbind]. intros H%IH. by rewrite length_insert in H.
Qed.

(** The sensors after the assignment: zero at the positions of the broken
    indices, unchanged elsewhere. *)
Lemma clear_sensors_lookup (n : nat) (broken : list Z) (sensors out : list f64)
    (k : nat) :
  clear_sensors n broken sensors = Ok out -> (k < length sensors)%nat ->
  out !! k
  = if bool_decide (Exists (fun i => position n i = Ok k) broken)
    then Some F64.zero else sensors !! k.
Proof.
  revert sensors. induction broken as [|i rest IH]; intros sensors.
  { intros [= <-] _. rewrite bool_decide_eq_false_2; [done|].
    by intros H%Exists_nil. }
  cbn [clear_sensors]. destruct (position n i) as [p|] eqn:Hp; [|done].
  cbn [rbind]. intros Hout Hk.
  rewrite (IH _ Hout) by by rewrite length_insert.
  destruct (decide (p = k)) as [->|Hne].
  - rewrite (bool_decide_eq_true_2 (Exists _ (i :: rest)))
      by by apply Exists_cons_hd.
    rewrite list_lookup_insert_eq by done.
    by destruct (bool_decide _).
  - rewrite list_lookup_insert_ne by done.
    apply (f_equal (fun b : bool => if b then Some F64.zero else sensors !! k)).
    apply bool_decide_ext. rewrite Exists_cons. split; [by right|].
    intros [H|H]; [|done]. rewrite Hp in H. by injection H.
Qed.

Lemma ones_times_replicate (n : nat) (x : f64) :
  ones_times n x = replicate n x.
Proof.
  unfold ones_times. rewrite fmap_replicate. f_equal.
  destruct x as [q| | |]; try done.
  unfold F64.one, F64.of_Z. cbn [F64.mul]. f_equal.
  change (Q2Qc (inject_Z 1)) with 1%Qc. ring.
Qed.

Lemma clear_sensors_in_range (n : nat) (broken : list Z) (sensors : list f64) :
  Forall (fun i => - Z.of_nat n <= i < Z.of_nat n) broken ->
  exists out, clear_sensors n broken sensors = Ok out.
Proof.
  revert sensors. induction broken as [|i rest IH]; intros sensors Hall.
  { by eexists. }
  apply List.Forall_cons_iff in Hall as [Hi Hrest].
  cbn [clear_sensors]. unfold position.
  destruct (decide (0 <= i < Z.of_nat n)); cbn [rbind]; [by apply IH|].
  destruct (decide (- Z.of_nat n <= i < 0)); cbn [rbind]; [by apply IH|].
  lia.
Qed.

Ltac check_input_cases self :=
  destruct self as [[[[|]|] [?|] [?|] ? ? ?] ? ?];
  cbn [component_settings logger working_sensors
       TRANSFORM_TO_IN_VITRO_DOMAIN SCALING_FACTOR IN_VITRO_LASER_ENERGY
       BROKEN_SENSORS OFFSETS THERMAL_NOISES set_transform] in *.

Lemma check_input_non_scalar (self : instance) (time_series_data : ndarray)
    (n_sensors n_samples : nat) (sensors : list f64) (offsets : value) :
  shape time_series_data = [n_sensors; n_samples] ->
  sensors_step self n_sensors = Ok sensors ->
  OFFSETS (component_settings self) = Some offsets ->
  is_scalar offsets = false ->
  check_input self time_series_data = Raise isinstance_error.
Proof.
  unfold sensors_step, check_input. intros -> Hsensors Hoffsets Hscalar.
  check_input_cases self; rewrite Hsensors, Hoffsets; cbn [rbind];
    by destruct offsets;
      match goal with |- context [match ?t with _ => _ end] => destruct t end.
Qed.

Lemma check_input_success (self : instance) (time_series_data : ndarray)
    (n_sensors n_samples : nat) (sensors : list f64) (x : f64) :
  shape time_series_data = [n_sensors; n_samples] ->
  sensors_step self n_sensors = Ok sensors ->
  default (Scalar F64.zero) (OFFSETS (component_settings self)) = Scalar x ->
  exists log,
    check_input self time_series_data
    = Ok {| component_settings :=
              checked_settings (component_settings self) n_sensors x;
            working_sensors := Some sensors;
            logger := logger self ++ log |}.
Proof.
  unfold sensors_step, check_input, checked_settings.
  intros -> Hsensors Hoffsets.
  check_input_cases self; rewrite Hsensors; cbn [rbind];
    match goal with
    | H : default _ ?o = _ |- _ =>
        destruct o; cbv [default from_option id] in H; simplify_eq
    end;
    match goal with
    | |- context [match ?t with Some _ => _ | None => _ end] =>
        destruct t as [[| |]|]
    end;
    unfold set_offsets, set_thermal_noises;
    cbn [rbind converted_noises default
         TRANSFORM_TO_IN_VITRO_DOMAIN SCALING_FACTOR IN_VITRO_LASER_ENERGY
         BROKEN_SENSORS OFFSETS THERMAL_NOISES];
    cbv [from_option id];
    rewrite <- ?app_assoc;
    first [by eexists | exists []; by rewrite app_nil_r].
Qed.

Lemma check_input_inversion (self self' : instance)
    (time_series_data : ndarray) :
  check_input self time_series_data = Ok self' ->
  exists n_sensors n_samples sensors x,
    shape time_series_data = [n_sensors; n_samples]
    /\ sensors_step self n_sensors = Ok sensors
    /\ default (Scalar F64.zero) (OFFSETS (component_settings self))
       = Scalar x.
Proof.
  intros Hok.
  destruct (shape time_series_data) as [|n [|t [|]]] eqn:Hshape;
    try (unfold check_input in Hok; rewrite Hshape in Hok; discriminate).
  exists n, t.
  destruct (sensors_step self n) as [sensors|e] eqn:Hsensors.
  2:{ exfalso. unfold check_input, sensors_step in *. rewrite Hshape in Hok.
      check_input_cases self; by rewrite Hsensors in Hok. }
  exists sensors.
  destruct (OFFSETS (component_settings self)) as [[x| |]|] eqn:Hoffsets;
    cbn [default]; try by eexists.
  all: by rewrite (check_input_non_scalar _ _ _ _ _ _ Hshape Hsensors Hoffsets)
    in Hok.
Qed.

Lemma sensors_step_in_range (self : instance) (n_sensors : nat) :
  Forall (fun i => - Z.of_nat n_sensors <= i < Z.of_nat n_sensors)
    (broken_of self) ->
  exists sensors, sensors_step self n_sensors = Ok sensors.
Proof.
  unfold broken_of, sensors_step.
  destruct (BROKEN_SENSORS (component_settings self)); cbn [default].
  - apply clear_sensors_in_range.
  - by eexists.
Qed.

(** X26: Offsets that are given as an array or as a list, the form the class
    documents, are never accepted: [check_input] returns for no input, and
    on a two-dimensional time series with broken-sensor indices in range
    the exception is the TypeError of [isinstance] called with a single
    argument. *)
Theorem check_input_rejects_offset_arrays (self : instance)
    (time_series_data : ndarray) (offsets : value) :
  OFFSETS (component_settings self) = Some offsets ->
  is_scalar offsets = false ->
  (forall self', check_input self time_series_data ≠ Ok self')
  /\ (forall n_sensors n_samples,
      shape time_series_data = [n_sensors; n_samples] ->
      Forall (fun i => - Z.of_nat n_sensors <= i < Z.of_nat n_sensors)
        (broken_of self) ->
      check_input self time_series_data
      = Raise (TypeError "isinstance expected 2 arguments, got 1")).
Proof.
  intros Hoffsets Hscalar. split.
  - intros self' (n & t & sensors & x & _ & _ & Hx)%check_input_inversion.
    rewrite Hoffsets in Hx. cbv [default from_option id] in Hx. by subst.
  - intros n t Hshape [sensors Hsensors]%sensors_step_in_range.
    by apply (check_input_non_scalar _ _ _ _ _ _ Hshape Hsensors Hoffsets).
Qed.

Lemma check_input_rejects_offset_arrays_witness :
  check_input
    {| component_settings :=
         {| TRANSFORM_TO_IN_VITRO_DOMAIN := None;
            SCALING_FACTOR := None;
            IN_VITRO_LASER_ENERGY := None;
            BROKEN_SENSORS := Some [1; -1];
            OFFSETS := Some (Array (replicate 3 (F64.of_Z 2300)));
            THERMAL_NOISES := None |};
       working_sensors := None;
       logger := [] |}
    (constant_volume [3; 2]%nat F64.one)
  = Raise (TypeError "isinstance expected 2 arguments, got 1").
Proof.
  eapply (check_input_rejects_offset_arrays
            {| component_settings :=
                 {| TRANSFORM_TO_IN_VITRO_DOMAIN := None;
                    SCALING_FACTOR := None;
                    IN_VITRO_LASER_ENERGY := None;
                    BROKEN_SENSORS := Some [1; -1];
                    OFFSETS := Some (Array (replicate 3 (F64.of_Z 2300)));
                    THERMAL_NOISES := None |};
               working_sensors := None;
               logger := [] |}
            (constant_volume [3; 2]%nat F64.one)
            (Array (replicate 3 (F64.of_Z 2300)))).
  - reflexivity.
  - reflexivity.
  - reflexivity.
  - cbn. repeat constructor; lia.
Defined.

(** X27: What a successful [check_input] leaves: one working-sensor flag for
    each sensor, 0 at the broken indices (negative ones counting from the
    end) and 1 elsewhere; the offsets as an array that repeats the number
    given, 0 by default; the thermal noises as an array; the in-vitro flag
    set, False by default; the other entries untouched; log lines only
    appended. *)
Theorem check_input_result (self : instance) (time_series_data : ndarray)
    (n_sensors n_samples : nat) (x : f64) :
  shape time_series_data = [n_sensors; n_samples] ->
  Forall (fun i => - Z.of_nat n_sensors <= i < Z.of_nat n_sensors)
    (broken_of self) ->
  default (Scalar F64.zero) (OFFSETS (component_settings self)) = Scalar x ->
  exists sensors log,
    check_input self time_series_data
    = Ok {| component_settings :=
              {| TRANSFORM_TO_IN_VITRO_DOMAIN :=
                   Some (default false
                     (TRANSFORM_TO_IN_VITRO_DOMAIN (component_settings self)));
                 SCALING_FACTOR := SCALING_FACTOR (component_settings self);
                 IN_VITRO_LASER_ENERGY :=
                   IN_VITRO_LASER_ENERGY (component_settings self);
                 BROKEN_SENSORS := BROKEN_SENSORS (component_settings self);
                 OFFSETS := Some (Array (replicate n_sensors x));
                 THERMAL_NOISES :=
                   Some (match THERMAL_NOISES (component_settings self) with
                         | None => Array (replicate n_sensors F64.zero)
                         | Some (Scalar y) => Array (replicate n_sensors y)
                         | Some (Array a) => Array a
                         | Some (PyList l) => Array l
                         end) |};
            working_sensors := Some sensors;
            logger := logger self ++ log |}
    /\ length sensors = n_sensors
    /\ forall k, (k < n_sensors)%nat ->
         sensors !! k
         = Some (if bool_decide
                      (Exists (fun i => position n_sensors i = Ok k)
                         (broken_of self))
                 then F64.zero else F64.one).
Proof.
  intros Hshape [sensors Hsensors]%sensors_step_in_range Hoffsets.
  destruct (check_input_success _ _ _ _ _ _ Hshape Hsensors Hoffsets)
    as [log Hok].
  exists sensors, log. split.
  { rewrite Hok. unfold checked_settings, converted_noises.
    rewrite !ones_times_replicate.
    by destruct (THERMAL_NOISES (component_settings self)) as [[y| |]|];
      rewrite ?ones_times_replicate. }
  unfold sensors_step, broken_of in *.
  destruct (BROKEN_SENSORS (component_settings self)) as [broken|];
    cbn [default].
  - split.
    + apply clear_sensors_length in Hsensors.
      by rewrite length_replicate in Hsensors.
    + intros k Hk.
      rewrite (clear_sensors_lookup _ _ _ _ k Hsensors)
        by by rewrite length_replicate.
      destruct (bool_decide _); [done|].
      by apply lookup_replicate_2.
  - injection Hsensors as <-. split; [by rewrite length_replicate|].
    intros k Hk. rewrite bool_decide_eq_false_2 by by intros H%Exists_nil.
    by apply lookup_replicate_2.
Qed.

Lemma check_input_result_witness :
  exists sensors log,
    check_input
      {| component_settings :=
           {| TRANSFORM_TO_IN_VITRO_DOMAIN := None;
              SCALING_FACTOR := None;
              IN_VITRO_LASER_ENERGY := None;
              BROKEN_SENSORS := Some [1; -1];
              OFFSETS := Some (Scalar (F64.of_Z 2300));
              THERMAL_NOISES := Some (PyList [F64.one; F64.one; F64.one]) |};
         working_sensors := None;
         logger := [] |}
      (constant_volume [3; 2]%nat F64.one)
    = Ok {| component_settings :=
              {| TRANSFORM_TO_IN_VITRO_DOMAIN := Some false;
                 SCALING_FACTOR := None;
                 IN_VITRO_LASER_ENERGY := None;
                 BROKEN_SENSORS := Some [1; -1];
                 OFFSETS := Some (Array (replicate 3 (F64.of_Z 2300)));
                 THERMAL_NOISES :=
                   Some (Array [F64.one; F64.one; F64.one]) |};
            working_sensors := Some sensors;
            logger := [] ++ log |}
    /\ length sensors = 3%nat
    /\ forall k, (k < 3)%nat ->
         sensors !! k
         = Some (if bool_decide
                      (Exists (fun i => position 3 i = Ok k) [1; -1])
                 then F64.zero else F64.one).
Proof.
  apply (check_input_result
           {| component_settings :=
                {| TRANSFORM_TO_IN_VITRO_DOMAIN := None;
                   SCALING_FACTOR := None;
                   IN_VITRO_LASER_ENERGY := None;
                   BROKEN_SENSORS := Some [1; -1];
                   OFFSETS := Some (Scalar (F64.of_Z 2300));
                   THERMAL_NOISES :=
                     Some (PyList [F64.one; F64.one; F64.one]) |};
              working_sensors := None;
              logger := [] |}
           (constant_volume [3; 2]%nat F64.one) 3%nat 2%nat (F64.of_Z 2300)).
  - reflexivity.
  - cbn. repeat constructor; lia.
  - reflexivity.
Defined.

(** X28: [check_input] cannot be run twice on one instance: the first
    successful call has replaced the offsets by an array, on which every
    later call fails, with the TypeError of [isinstance] when the time
    series is the same. *)
Theorem check_input_not_repeatable (self self' : instance)
    (time_series_data : ndarray) :
  check_input self time_series_data = Ok self' ->
  check_input self' time_series_data
  = Raise (TypeError "isinstance expected 2 arguments, got 1")
  /\ forall other self'', check_input self' other ≠ Ok self''.
Proof.
  intros Hok.
  destruct (check_input_inversion _ _ _ Hok)
    as (n & t & sensors & x & Hshape & Hsensors & Hoffsets).
  destruct (check_input_success _ _ _ _ _ _ Hshape Hsensors Hoffsets)
    as [log Hok'].
  rewrite Hok' in Hok. injection Hok as <-.
  split.
  - by eapply (check_input_non_scalar _ _ n t sensors).
  - intros other self'' (? & ? & ? & y & _ & _ & Hy)%check_input_inversion.
    by cbv [default from_option id] in Hy.
Qed.

Lemma check_input_not_repeatable_witness :
  check_input
    {| component_settings :=
         {| TRANSFORM_TO_IN_VITRO_DOMAIN := Some false;
            SCALING_FACTOR := None;
            IN_VITRO_LASER_ENERGY := None;
            BROKEN_SENSORS := None;
            OFFSETS := Some (Array (ones_times 3 F64.zero));
            THERMAL_NOISES := Some (Array (ones_times 3 F64.zero)) |};
       working_sensors := Some (replicate 3 F64.one);
       logger := [(INFO, "Tags.OFFSETS is set to 0.");
                  (INFO, "Tags.THERMAL_NOISES is set to 0.")] |}
    (constant_volume [3; 2]%nat F64.one)
  = Raise (TypeError "isinstance expected 2 arguments, got 1").
Proof.
  eapply (check_input_not_repeatable
            {| component_settings :=
                 {| TRANSFORM_TO_IN_VITRO_DOMAIN := None;
                    SCALING_FACTOR := None;
                    IN_VITRO_LASER_ENERGY := None;
                    BROKEN_SENSORS := None;
                    OFFSETS := None;
                    THERMAL_NOISES := None |};
               working_sensors := None;
               logger := [] |}).
  reflexivity.
Defined.
